(** * Time-slot availability and booking commit: a shallow embedding

    The development follows the Google Apps Script back end of the nail-art
    reservation system:

    - [utils.gs]            date helpers ([getTaipeiDateString], query windows);
    - [config.gs]           [SYSTEM_CONFIG], [CALENDAR_CONFIG];
    - [calendarService.gs]  [AdvancedCalendarService.executePaginatedQuery],
                            [createCalendarEvent], [processCalendarChanges];
    - [timeslotService.gs]  slot extraction, availability matching, the slot
                            and availability requests;
    - [bookingService.gs]   [verifyBackendTimeSlotAvailability], [handleSaveBooking];
    - [cacheService.gs]     the customer index and the booking index;
    - [main.gs]             the request dispatcher.

    JavaScript values are modelled as follows.  A [Date] is its time value in
    milliseconds since the epoch, or [None] for an Invalid Date (time value NaN).
    ASCII strings (dates, times, identifiers) are [string]; event titles are
    lists of UTF-16 code units.  Code that throws returns [Throw]; code that
    touches the lock, the calendars or the sheets threads a [World].  The
    script time zone, used by [getHours], [getMinutes] and [setHours], is a
    fixed offset [tz] in milliseconds. *)

From Stdlib Require Import ZArith NArith List String Ascii Bool Lia Permutation Sorted.
Import ListNotations.
Local Open Scope string_scope.
Local Open Scope list_scope.
Local Open Scope Z_scope.

(* ================================================================== *)
(** ** The JavaScript runtime: numbers, strings and dates             *)
(* ================================================================== *)

Module Js.

(** Result of a computation that may throw. *)
Inductive result (A : Type) : Type :=
| Ok (a : A)
| Throw (message : string).
Arguments Ok {A} a.
Arguments Throw {A} message.

Definition bind {A B} (r : result A) (k : A -> result B) : result B :=
  match r with
  | Ok a => k a
  | Throw m => Throw m
  end.

(** A [Date]: [Some t] carries the time value, [None] is an Invalid Date. *)
Definition Date := option Z.

Definition MS_PER_MINUTE : Z := 60 * 1000.
Definition MS_PER_HOUR : Z := 60 * 60 * 1000.
Definition MS_PER_DAY : Z := 1000 * 60 * 60 * 24.
Definition MAX_TIME_VALUE : Z := 8640000000000000.

(** [TimeClip]: time values outside +-8.64e15 are NaN. *)
Definition timeClip (t : Z) : Date :=
  if Z.abs t <=? MAX_TIME_VALUE then Some t else None.

(** Relational comparison of two dates ([a < b], [a > b]): the operands are
    converted to numbers, and any comparison with NaN is false. *)
Definition lt (a b : Date) : bool :=
  match a, b with
  | Some x, Some y => x <? y
  | _, _ => false
  end.
Definition gt (a b : Date) : bool := lt b a.

(** Days since the epoch of a proleptic Gregorian date (month 1..12). *)
Definition days_from_civil (y m d : Z) : Z :=
  let y' := if m <=? 2 then y - 1 else y in
  let era := y' / 400 in
  let yoe := y' - era * 400 in
  let mp := if m >? 2 then m - 3 else m + 9 in
  let doy := (153 * mp + 2) / 5 + d - 1 in
  let doe := yoe * 365 + yoe / 4 - yoe / 100 + doy in
  era * 146097 + doe - 719468.

(** The inverse: year, month, day of a day number. *)
Definition civil_from_days (z : Z) : Z * Z * Z :=
  let z := z + 719468 in
  let era := z / 146097 in
  let doe := z - era * 146097 in
  let yoe := (doe - doe / 1460 + doe / 36524 - doe / 146096) / 365 in
  let doy := doe - (365 * yoe + yoe / 4 - yoe / 100) in
  let mp := (5 * doy + 2) / 153 in
  let d := doy - (153 * mp + 2) / 5 + 1 in
  let m := if mp <? 10 then mp + 3 else mp - 9 in
  let y := yoe + era * 400 in
  (if m <=? 2 then y + 1 else y, m, d).

(** *** Characters and decimal digits *)

Definition is_digit (c : ascii) : bool :=
  let n := nat_of_ascii c in (48 <=? n)%nat && (n <=? 57)%nat.

Definition digit_val (c : ascii) : nat := nat_of_ascii c - 48.

Definition digit_char (n : nat) : ascii := ascii_of_nat (48 + n).

Definition chars (s : string) : list ascii := list_ascii_of_string s.

(** Value of a run of decimal digits, most significant first. *)
Definition digits_val (l : list ascii) : nat :=
  fold_left (fun acc c => (10 * acc + digit_val c)%nat) l 0%nat.

(** [String(n)] for a non-negative integer. *)
Fixpoint nat_digits (fuel n : nat) (acc : list ascii) : list ascii :=
  match fuel with
  | O => acc
  | S fuel' =>
      let acc' := digit_char (n mod 10) :: acc in
      if (n <? 10)%nat then acc' else nat_digits fuel' (n / 10) acc'
  end.

Definition String_of_nat (n : nat) : string :=
  string_of_list_ascii (nat_digits (S n) n []).

(** [s.padStart(2, '0')]. *)
Definition padStart2 (s : string) : string :=
  match String.length s with
  | O => "00"
  | 1%nat => String.append "0" s
  | _ => s
  end.

(** A number that may be NaN, restricted to the non-negative integers the
    slot code works with. *)
Definition num := option nat.

(** [String(x)] for such a number. *)
Definition String_of_num (x : num) : string :=
  match x with
  | Some n => String_of_nat n
  | None => "NaN"
  end.

(** [Number(s)] on unsigned decimal digit strings (the spellings admitted
    by [TIME_FORMAT_REGEX] and produced by the slot extractor); the empty
    string is 0.  Other spellings are treated as NaN. *)
Definition Number (s : string) : num :=
  if forallb is_digit (chars s) then Some (digits_val (chars s)) else None.

(** [s.split(':')]. *)
Fixpoint split_colon_aux (l : list ascii) (cur : list ascii) : list string :=
  match l with
  | [] => [string_of_list_ascii (rev cur)]
  | c :: t =>
      if Ascii.eqb c ":"%char
      then string_of_list_ascii (rev cur) :: split_colon_aux t []
      else split_colon_aux t (c :: cur)
  end.

Definition split_colon (s : string) : list string := split_colon_aux (chars s) [].

(** *** ISO date-time strings *)

(** Fields of a string of the shape [dddd-dd-dd]. *)
Definition parseYMD (s : string) : option (Z * Z * Z) :=
  match chars s with
  | [y1; y2; y3; y4; s1; m1; m2; s2; d1; d2] =>
      if forallb is_digit [y1; y2; y3; y4; m1; m2; d1; d2]
         && Ascii.eqb s1 "-"%char && Ascii.eqb s2 "-"%char
      then Some (Z.of_nat (digits_val [y1; y2; y3; y4]),
                 Z.of_nat (digits_val [m1; m2]),
                 Z.of_nat (digits_val [d1; d2]))
      else None
  | _ => None
  end.

(** Day number of a date string; the runtime accepts months 01..12 and days
    01..31 and lets a day past the end of the month run into the next one. *)
Definition dayNumber (s : string) : option Z :=
  match parseYMD s with
  | Some (y, m, d) =>
      if (1 <=? m) && (m <=? 12) && (1 <=? d) && (d <=? 31)
      then Some (days_from_civil y m 1 + (d - 1))
      else None
  | None => None
  end.

(** [new Date(s)] for a date-only string [YYYY-MM-DD]: midnight UTC. *)
Definition newDate_dateOnly (s : string) : Date :=
  match dayNumber s with
  | Some n => timeClip (n * MS_PER_DAY)
  | None => None
  end.

(** [new Date(date + 'T' + hh + ':' + mm + ':' + ss + '+08:00')] where [hh]
    and [mm] are the strings [String(h).padStart(2,'0')] of two numbers.
    The date part is a [YYYY-MM-DD] string (the callers check the pattern);
    the hour must be 00..23 and the minute 00..59; 24:00:00 alone is also
    accepted and denotes the following midnight.  Anything else gives an
    Invalid Date. *)
Definition newDate_taipei (date : string) (h m : num) (sec : Z) : Date :=
  match dayNumber date, h, m with
  | Some n, Some h, Some m =>
      let hz := Z.of_nat h in
      let mz := Z.of_nat m in
      if ((hz <=? 23) && (mz <=? 59)) || ((hz =? 24) && (mz =? 0) && (sec =? 0))
      then timeClip (n * MS_PER_DAY + hz * MS_PER_HOUR + mz * MS_PER_MINUTE
                     + sec * 1000 - 8 * MS_PER_HOUR)
      else None
  | _, _, _ => None
  end.

(** Zero-padded decimal of width [w]. *)
Fixpoint pad_digits (w : nat) (n : nat) (acc : list ascii) : list ascii :=
  match w with
  | O => acc
  | S w' => pad_digits w' (n / 10) (digit_char (n mod 10) :: acc)
  end.

(** The date part of [toISOString()]: four-digit years 0000..9999, signed
    six-digit years otherwise. *)
Definition isoDate (days : Z) : string :=
  let '(y, m, d) := civil_from_days days in
  let ys :=
    if (0 <=? y) && (y <=? 9999) then pad_digits 4 (Z.to_nat y) []
    else (if y <? 0 then "-"%char else "+"%char) :: pad_digits 6 (Z.abs_nat y) [] in
  string_of_list_ascii
    (ys ++ "-"%char :: pad_digits 2 (Z.to_nat m) []
        ++ "-"%char :: pad_digits 2 (Z.to_nat d) []).

(** [d.toISOString().split('T')[0]]; throws a RangeError on an Invalid Date. *)
Definition toISODate (d : Date) : result string :=
  match d with
  | Some t => Ok (isoDate (t / MS_PER_DAY))
  | None => Throw "Invalid time value"
  end.

(** Lexicographic comparison of strings by code unit ([a <= b]). *)
Fixpoint str_leb (a b : string) : bool :=
  match a, b with
  | EmptyString, _ => true
  | String _ _, EmptyString => false
  | String x a', String y b' =>
      if (nat_of_ascii x <? nat_of_ascii y)%nat then true
      else if (nat_of_ascii y <? nat_of_ascii x)%nat then false
      else str_leb a' b'
  end.

(** Truthiness of an optional string property: [undefined] and the empty
    string are falsy. *)
Definition truthy (v : option string) : bool :=
  match v with
  | Some s => negb (String.eqb s "")
  | None => false
  end.

End Js.

(* ================================================================== *)
(** ** config.gs                                                        *)
(* ================================================================== *)

Module Config.

(** [SYSTEM_CONFIG.TIME_FORMAT_REGEX]: [/^([01]?\d|2[0-3]):[0-5]\d$/]. *)
Definition TIME_FORMAT_REGEX_test (s : string) : bool :=
  let minute_ok (m1 m2 : ascii) :=
    Js.is_digit m1 && (nat_of_ascii m1 <=? 53)%nat && Js.is_digit m2 in
  match Js.chars s with
  | [h; c; m1; m2] =>
      Js.is_digit h && Ascii.eqb c ":"%char && minute_ok m1 m2
  | [h1; h2; c; m1; m2] =>
      ((((Ascii.eqb h1 "0"%char) || (Ascii.eqb h1 "1"%char)) && Js.is_digit h2)
       || (Ascii.eqb h1 "2"%char && Js.is_digit h2 && (nat_of_ascii h2 <=? 51)%nat))
      && Ascii.eqb c ":"%char && minute_ok m1 m2
  | _ => false
  end.

(** [CALENDAR_CONFIG.defaultDuration] (hours). *)
Definition defaultDuration : nat := 1.

(** [CALENDAR_CONFIG.businessHours]. *)
Definition businessHours_start : string := "08:00".
Definition businessHours_end : string := "22:00".

(** [CALENDAR_CONFIG.optimization.enableBusinessHoursFilter]. *)
Definition enableBusinessHoursFilter : bool := true.

(** [ADVANCED_CALENDAR_CONFIG.smartPagination]. *)
Definition smartPagination_enabled : bool := true.
Definition dailyEventsAverage : Z := 15.
Definition maxEstimationDays : Z := 90.

(** The placeholder that marks an unconfigured calendar. *)
Definition PLACEHOLDER_CALENDAR_ID : string := "YOUR_CALENDAR_ID@gmail.com".

(** Script properties behind the [CALENDAR_CONFIG] getters. *)
Record Properties := {
  GOOGLE_CALENDAR_ID : option string;
  GOOGLE_TIMESLOTS_CALENDAR_ID : option string
}.

(** The message of the error thrown by the [calendarId] getter. *)
Definition MSG_CALENDAR_ID_MISSING : string :=
  "請在專案設定中設定 GOOGLE_CALENDAR_ID 指令碼屬性".

(** [CALENDAR_CONFIG.calendarId]: throws when the property is not set. *)
Definition calendarId (p : Properties) : Js.result string :=
  match GOOGLE_CALENDAR_ID p with
  | Some id => if Js.truthy (Some id) then Js.Ok id
               else Js.Throw MSG_CALENDAR_ID_MISSING
  | None => Js.Throw MSG_CALENDAR_ID_MISSING
  end.

(** [CALENDAR_CONFIG.timeSlotsCalendarId]: falls back to [calendarId]. *)
Definition timeSlotsCalendarId (p : Properties) : Js.result string :=
  match GOOGLE_TIMESLOTS_CALENDAR_ID p with
  | Some id => if Js.truthy (Some id) then Js.Ok id else calendarId p
  | None => calendarId p
  end.

End Config.

(* ================================================================== *)
(** ** Calendar events                                                  *)
(* ================================================================== *)

(** An event title: UTF-16 code units. *)
Definition Title := list N.

(** The compatible event object handed to the slot code:
    [getTitle()], [getStartTime()], [getEndTime()]. *)
Record Event := {
  getTitle : Title;
  getStartTime : Js.Date;
  getEndTime : Js.Date
}.

(* ================================================================== *)
(** ** utils.gs                                                         *)
(* ================================================================== *)

Module Utils.

Definition UTC_OFFSET_MS : Z := 8 * 60 * 60 * 1000.

(** [getTaipeiDateString(date)]: the calendar date, in UTC+8, of a [Date]. *)
Definition getTaipeiDateString (date : Js.Date) : Js.result string :=
  let taipeiTime :=
    match date with
    | Some t => Js.timeClip (t + UTC_OFFSET_MS)
    | None => None
    end in
  Js.toISODate taipeiTime.

(** [createTaipeiDateFromYMD(dateString)] for a non-empty string. *)
Definition createTaipeiDateFromYMD (dateString : string) : Js.result Js.Date :=
  if Js.truthy (Some dateString)
  then Js.Ok (Js.newDate_taipei dateString (Some 0%nat) (Some 0%nat) 0)
  else Js.Throw "無法建立日期：dateString 參數缺失或格式錯誤".

(** [s.split(':').map(Number)], destructured into its first two elements. *)
Definition splitHourMinute (s : string) : Js.num * Js.num :=
  match map Js.Number (Js.split_colon s) with
  | h :: m :: _ => (h, m)
  | [h] => (h, None)
  | [] => (None, None)
  end.

(** [getOptimizedQueryRange(queryDateStr)]: the business-hours window of
    one day, clipped to that day. *)
Definition getOptimizedQueryRange (queryDateStr : string) : Js.Date * Js.Date :=
  let dayStart := Js.newDate_taipei queryDateStr (Some 0%nat) (Some 0%nat) 0 in
  let dayEnd := Js.newDate_taipei queryDateStr (Some 23%nat) (Some 59%nat) 59 in
  if negb Config.enableBusinessHoursFilter then (dayStart, dayEnd)
  else
    let '(startHour, startMinute) := splitHourMinute Config.businessHours_start in
    let '(endHour, endMinute) := splitHourMinute Config.businessHours_end in
    let businessStartTime := Js.newDate_taipei queryDateStr startHour startMinute 0 in
    let businessEndTime := Js.newDate_taipei queryDateStr endHour endMinute 59 in
    let optimizedStart := if Js.lt businessStartTime dayStart then dayStart
                          else businessStartTime in
    let optimizedEnd := if Js.gt businessEndTime dayEnd then dayEnd
                        else businessEndTime in
    (optimizedStart, optimizedEnd).

(** [d.setHours(h, m, 0, 0)] in a script time zone at a fixed offset [tz]
    (milliseconds east of UTC). *)
Definition setHours (tz : Z) (d : Js.Date) (h m : Js.num) : Js.Date :=
  match d, h, m with
  | Some t, Some h, Some m =>
      let localDay := (t + tz) / Js.MS_PER_DAY in
      Js.timeClip (localDay * Js.MS_PER_DAY + Z.of_nat h * Js.MS_PER_HOUR
                   + Z.of_nat m * Js.MS_PER_MINUTE - tz)
  | _, _, _ => None
  end.

(** [getOptimizedQueryRangeBatch(startDateStr, endDateStr)]. *)
Definition getOptimizedQueryRangeBatch (tz : Z) (startDateStr endDateStr : string)
  : Js.Date * Js.Date :=
  let startDate := Js.newDate_taipei startDateStr (Some 0%nat) (Some 0%nat) 0 in
  let endDate := Js.newDate_taipei endDateStr (Some 23%nat) (Some 59%nat) 59 in
  let '(startHour, startMinute) := splitHourMinute Config.businessHours_start in
  let '(endHour, endMinute) := splitHourMinute Config.businessHours_end in
  (setHours tz startDate startHour startMinute,
   setHours tz endDate endHour endMinute).

(** [d.getHours()], [d.getMinutes()] in the script time zone. *)
Definition getHours (tz : Z) (d : Js.Date) : Js.num :=
  match d with
  | Some t => Some (Z.to_nat (((t + tz) / Js.MS_PER_HOUR) mod 24))
  | None => None
  end.

Definition getMinutes (tz : Z) (d : Js.Date) : Js.num :=
  match d with
  | Some t => Some (Z.to_nat (((t + tz) / Js.MS_PER_MINUTE) mod 60))
  | None => None
  end.

End Utils.

(* ================================================================== *)
(** ** calendarService.gs: the paginated query                          *)
(* ================================================================== *)

Module Calendar.

(** One response of [Calendar.Events.list]. *)
Record Page := {
  items : list Event;
  nextPageToken : option string
}.

(** The upstream list call of one query: what it answers to the [n]-th
    request, made with a given page token, or that it throws. *)
Definition Upstream := nat -> option string -> Js.result Page.

(** The page tokens of the requests sent so far, oldest first. *)
Definition FetchLog := list (option string).

(** The [do ... while (pageToken)] loop of [executePaginatedQuery].
    [pageCount], [pageToken] and [allEvents] are the loop variables at the
    top of an iteration; [None] means the fuel ran out before the loop
    ended. *)
Fixpoint paginationLoop (fuel : nat) (list_ : Upstream) (startTime endTime : Js.Date)
    (pageCount : nat) (pageToken : option string)
    (allEvents : list Event) (log : FetchLog)
  : option (list Event * FetchLog) :=
  match fuel with
  | O => None
  | S fuel' =>
      let pageCount := S pageCount in
      (* timeMin: startTime.toISOString(), timeMax: endTime.toISOString() *)
      match startTime, endTime with
      | Some _, Some _ =>
          let log := log ++ [pageToken] in
          match list_ pageCount pageToken with
          | Js.Throw _ => Some (allEvents, log)                     (* catch: break *)
          | Js.Ok response =>
              let allEvents := allEvents ++ items response in
              let pageToken := nextPageToken response in
              if (20 <? pageCount)%nat then Some (allEvents, log)   (* break *)
              else if Js.truthy pageToken
                   then paginationLoop fuel' list_ startTime endTime
                          pageCount pageToken allEvents log
                   else Some (allEvents, log)
          end
      | _, _ => Some (allEvents, log)                               (* catch: break *)
      end
  end.

(** [executePaginatedQuery]: the loop from [pageCount = 0], no token and no
    events. *)
Definition executePaginatedQuery_fuel (fuel : nat) (list_ : Upstream)
    (startTime endTime : Js.Date) : option (list Event * FetchLog) :=
  paginationLoop fuel list_ startTime endTime 0 None [] [].

(** [analyzeQueryComplexity(...).shouldUsePagination]; the estimate is
    [queryDays * 15 * 1.2], i.e. 18 events a day. *)
Definition shouldUsePagination (startTime endTime : Js.Date) : bool :=
  match startTime, endTime with
  | Some s, Some e =>
      let diff := e - s in
      let queryDays := if diff mod Js.MS_PER_DAY =? 0 then diff / Js.MS_PER_DAY
                       else diff / Js.MS_PER_DAY + 1 in
      (30 <? queryDays) || (200 <? queryDays * 18)
      || (Config.maxEstimationDays <? queryDays * 3)
  | _, _ => false
  end.

End Calendar.

(* ================================================================== *)
(** ** Regular expressions over UTF-16 code units                       *)
(* ================================================================== *)

Module RegExp.

Definition is_digit (c : N) : bool := ((48 <=? c) && (c <=? 57))%N.

(** The code units matched by [\s]. *)
Definition is_space (c : N) : bool :=
  (((9 <=? c) && (c <=? 13)) || (c =? 32) || (c =? 160) || (c =? 5760)
   || ((8192 <=? c) && (c <=? 8202)) || (c =? 8232) || (c =? 8233)
   || (c =? 8239) || (c =? 8287) || (c =? 12288) || (c =? 65279))%N.

(** The fragment of the pattern language used by the slot extractor. *)
Inductive re : Type :=
| Lit (c : N)              (* a literal code unit *)
| Digit                    (* \d *)
| Spaces                   (* \s* *)
| Seq (a b : re)           (* ab *)
| Opt (a : re)             (* a? *)
| Group1 (a : re)          (* the first capture group *)
| Group2 (a : re).         (* the second capture group *)

(** Captures [match[1]] and [match[2]]; [None] is [undefined]. *)
Definition Captures : Type := option (list N) * option (list N).

(** The text consumed between input [s] and its suffix [s']. *)
Definition consumed (s s' : list N) : list N :=
  firstn (List.length s - List.length s') s.

(** Greedy [\s*] with backtracking. *)
Fixpoint matchSpaces {R} (s : list N) (k : list N -> option R) : option R :=
  match s with
  | c :: t =>
      if is_space c
      then match matchSpaces t k with
           | Some r => Some r
           | None => k s
           end
      else k s
  | [] => k s
  end.

(** Backtracking matcher anchored at the head of [s]: [k] receives the
    rest of the input and the captures; quantifiers are greedy. *)
Fixpoint matchRe {R} (r : re) (s : list N) (caps : Captures)
    (k : list N -> Captures -> option R) : option R :=
  match r with
  | Lit c =>
      match s with
      | x :: t => if (x =? c)%N then k t caps else None
      | [] => None
      end
  | Digit =>
      match s with
      | x :: t => if is_digit x then k t caps else None
      | [] => None
      end
  | Spaces => matchSpaces s (fun s' => k s' caps)
  | Seq a b => matchRe a s caps (fun s' caps' => matchRe b s' caps' k)
  | Opt a =>
      match matchRe a s caps k with
      | Some res => Some res
      | None => k s caps
      end
  | Group1 a => matchRe a s caps (fun s' caps' => k s' (Some (consumed s s'), snd caps'))
  | Group2 a => matchRe a s caps (fun s' caps' => k s' (fst caps', Some (consumed s s')))
  end.

(** A successful match: the captures and the length of the matched text. *)
Record Match := {
  group1 : option (list N);
  group2 : option (list N);
  matchLength : nat
}.

Definition matchAt (r : re) (s : list N) : option Match :=
  matchRe r s (None, None)
    (fun s' caps => Some {| group1 := fst caps; group2 := snd caps;
                            matchLength := (List.length s - List.length s')%nat |}).

(** All matches of a global pattern, as produced by repeated [exec]:
    after a match the search resumes at its end ([skip] counts the code
    units of the last match still to be passed over). *)
Fixpoint execAll_from (r : re) (s : list N) (skip : nat) : list Match :=
  match s with
  | [] => []
  | _ :: t =>
      match skip with
      | S k => execAll_from r t k
      | O =>
          match matchAt r s with
          | Some m => m :: execAll_from r t (matchLength m - 1)
          | None => execAll_from r t 0
          end
      end
  end.

Definition execAll (r : re) (s : list N) : list Match := execAll_from r s 0.

(** [parseInt] of a capture: the value of its leading run of decimal
    digits; [undefined] or no leading digit gives NaN. *)
Fixpoint leadingDigits (l : list N) : list N :=
  match l with
  | c :: t => if is_digit c then c :: leadingDigits t else []
  | [] => []
  end.

Definition parseInt (g : option (list N)) : Js.num :=
  match g with
  | Some l =>
      match leadingDigits l with
      | [] => None
      | ds => Some (fold_left (fun acc c => (10 * acc + N.to_nat (c - 48))%nat) ds 0%nat)
      end
  | None => None
  end.

(** [s.includes(sub)]. *)
Fixpoint startsWith (sub s : list N) : bool :=
  match sub, s with
  | [], _ => true
  | _ :: _, [] => false
  | a :: sub', b :: s' => (a =? b)%N && startsWith sub' s'
  end.

Fixpoint includes (s sub : list N) : bool :=
  startsWith sub s ||
  match s with
  | [] => false
  | _ :: t => includes t sub
  end.

(** UTF-16 code units of a UTF-8 encoded literal (one to three byte
    sequences, i.e. the Basic Multilingual Plane). *)
Fixpoint utf16_of_bytes (fuel : nat) (l : list N) : list N :=
  match fuel with
  | O => []
  | S fuel' =>
      match l with
      | [] => []
      | b0 :: t =>
          if (b0 <? 128)%N then b0 :: utf16_of_bytes fuel' t
          else if (b0 <? 224)%N then
            match t with
            | b1 :: t' => ((b0 - 192) * 64 + (b1 - 128))%N :: utf16_of_bytes fuel' t'
            | _ => [b0]
            end
          else
            match t with
            | b1 :: b2 :: t' =>
                ((b0 - 224) * 4096 + (b1 - 128) * 64 + (b2 - 128))%N
                  :: utf16_of_bytes fuel' t'
            | _ => b0 :: t
            end
      end
  end.

Definition utf16 (s : string) : list N :=
  let bytes := map N_of_ascii (Js.chars s) in
  utf16_of_bytes (List.length bytes) bytes.

End RegExp.

(* ================================================================== *)
(** ** timeslotService.gs: slot extraction                              *)
(* ================================================================== *)

Module Extractor.
Import RegExp.

(** The code units of the markers and separators in the patterns. *)
Definition COLON : N := 58.       (* ':' *)
Definition U_SHANG : N := 19978.  (* U+4E0A, first unit of the morning marker *)
Definition U_XIA : N := 19979.    (* U+4E0B, first unit of the afternoon marker *)
Definition U_WU : N := 21320.     (* U+5348, second unit of both *)
Definition U_WAN : N := 26202.    (* U+665A, first unit of the evening marker *)
Definition U_DIAN : N := 40670.   (* U+9EDE, the o'clock suffix *)
Definition U_SHI : N := 26178.    (* U+6642, the hour suffix *)

Definition MORNING : list N := [U_SHANG; U_WU].
Definition AFTERNOON : list N := [U_XIA; U_WU].
Definition EVENING : list N := [U_WAN; U_SHANG].

(** [\d{1,2}] and [\d{2}]. *)
Definition d12 : re := Seq Digit (Opt Digit).
Definition d2 : re := Seq Digit Digit.

(** [(\d{1,2})X(\d{2})?] for a suffix [X]. *)
Definition hourSuffix (x : N) : re :=
  Seq (Group1 d12) (Seq (Lit x) (Opt (Group2 d2))).

(** [AB\s*(\d{1,2}):?(\d{2})?] for a two-unit marker [AB]. *)
Definition periodPrefixed (marker : list N) : re :=
  fold_right (fun c r => Seq (Lit c) r)
    (Seq Spaces (Seq (Group1 d12) (Seq (Opt (Lit COLON)) (Opt (Group2 d2)))))
    marker.

(** [timePatterns], in the order of the source. *)
Definition timePatterns : list re :=
  [ Seq (Group1 d12) (Seq (Lit COLON) (Group2 d2));
    hourSuffix U_DIAN;
    hourSuffix U_SHI;
    periodPrefixed MORNING;
    periodPrefixed AFTERNOON;
    periodPrefixed EVENING ].

(** The day periods, written in the source as the three markers. *)
Inductive Period : Type := Morning | Afternoon | Evening.

(** A slot object; its [label] (period and time joined) and the constant
    [source] tag are left out. *)
Record Slot := {
  time : string;
  period : Period;
  slotAvailable : bool;
  originalTitle : Title
}.

(** [String(h).padStart(2,'0') + ':' + String(m).padStart(2,'0')]. *)
Definition formatTime (h m : Js.num) : string :=
  String.append (Js.padStart2 (Js.String_of_num h))
    (String.append ":" (Js.padStart2 (Js.String_of_num m))).

(** The 12-hour correction applied to a parsed hour. *)
Definition correctHour (title : Title) (hour : Js.num) : Js.num :=
  match hour with
  | Some h =>
      if includes title AFTERNOON && (h <? 12)%nat then Some (h + 12)%nat
      else if includes title MORNING && (h =? 12)%nat then Some 0%nat
      else Some h
  | None => None
  end.

(** The time string of one match: [parseInt(match[1])],
    [parseInt(match[2]) || 0], the correction, the formatting. *)
Definition timeOfMatch (title : Title) (m : Match) : string :=
  let hour := parseInt (group1 m) in
  let minute := match parseInt (group2 m) with
                | Some n => Some n
                | None => Some 0%nat
                end in
  formatTime (correctHour title hour) minute.

(** [foundTimes.add(timeStr)] on an insertion-ordered [Set]. *)
Definition setAdd (found : list string) (timeStr : string) : list string :=
  if existsb (String.eqb timeStr) found then found else found ++ [timeStr].

(** The times found by all patterns, in order of discovery. *)
Definition foundInTitle (title : Title) : list string :=
  fold_left
    (fun found pattern =>
       fold_left (fun found m => setAdd found (timeOfMatch title m))
                 (execAll pattern title) found)
    timePatterns [].

(** [parseInt(timeStr.split(':')[0])]. *)
Definition hourOfTimeStr (timeStr : string) : Js.num :=
  match Js.split_colon timeStr with
  | h :: _ => parseInt (Some (map N_of_ascii (Js.chars h)))
  | [] => None
  end.

Definition periodOf (timeStr : string) : Period :=
  match hourOfTimeStr timeStr with
  | Some hour =>
      if (6 <=? hour)%nat && (hour <? 12)%nat then Morning
      else if (12 <=? hour)%nat && (hour <? 18)%nat then Afternoon
      else Evening
  | None => Evening
  end.

(** [extractTimeSlotsFromTitle(title, eventStartTime)]; [eventStartTime]
    is [None] when no start time is passed, and [tz] is the offset of the
    script time zone used by [getHours] and [getMinutes]. *)
Definition extractTimeSlotsFromTitle (tz : Z) (title : Title)
    (eventStartTime : option Js.Date) : list Slot :=
  let foundTimes := foundInTitle title in
  let foundTimes :=
    match foundTimes, eventStartTime with
    | [], Some start =>
        setAdd foundTimes (formatTime (Utils.getHours tz start) (Utils.getMinutes tz start))
    | _, _ => foundTimes
    end in
  map (fun timeStr =>
         {| time := timeStr; period := periodOf timeStr;
            slotAvailable := true; originalTitle := title |})
      foundTimes.

End Extractor.

(* ================================================================== *)
(** ** The world: script properties, lock, calendars, sheets            *)
(* ================================================================== *)

(** A row of a booking sheet, as assembled by [handleSaveBooking]. *)
Record Row := {
  rowLineUserId : string;
  rowCustomerName : string;
  rowPhone : string;
  rowDate : string;          (* the formatted booking date *)
  rowTime : string;
  rowServices : string;
  rowRemoval : string;
  rowQuantity : string;
  rowRemarks : string;
  rowCreatedAt : Z
}.

(** Observable actions on the outside world, in the order they happen. *)
Inductive Effect : Type :=
| WaitLock (acquired : bool)                      (* bookingLock.waitLock(30000) *)
| ReleaseLock                                     (* bookingLock.releaseLock() *)
| GetEvents (calendarId : string) (startTime endTime : Js.Date)
                                                  (* AdvancedCalendarService.getEvents *)
| ClearCustomerCache
| AppendRow (sheet : string) (row : Row)          (* bookingSheet.appendRow(rowData) *)
| ClearBookingCache
| UpdateCustomerBookingInfo (phone : string)
| CreateCalendarEvent (date time : string)
| SendLineBookingConfirmation.

Record World := {
  properties : Config.Properties;
  lockFree : bool;                                 (* can the document lock be taken? *)
  now : Z;                                         (* the clock *)
  Calendar_Events_list : string -> Js.Date -> Js.Date -> Calendar.Upstream;
  CalendarApp_getEvents : string -> Js.Date -> Js.Date -> Js.result (list Event);
  customerLineId : string -> option string;        (* customer sheet, by phone *)
  bookingRows : list (string * Row);               (* (sheet name, row), oldest first *)
  trace : list Effect
}.

Definition emit (e : Effect) (w : World) : World :=
  {| properties := properties w; lockFree := lockFree w; now := now w;
     Calendar_Events_list := Calendar_Events_list w;
     CalendarApp_getEvents := CalendarApp_getEvents w;
     customerLineId := customerLineId w;
     bookingRows := bookingRows w;
     trace := trace w ++ [e] |}.

Definition appendRow (sheet : string) (row : Row) (w : World) : World :=
  emit (AppendRow sheet row)
    {| properties := properties w; lockFree := lockFree w; now := now w;
       Calendar_Events_list := Calendar_Events_list w;
       CalendarApp_getEvents := CalendarApp_getEvents w;
       customerLineId := customerLineId w;
       bookingRows := bookingRows w ++ [(sheet, row)];
       trace := trace w |}.

(** The calendar event source as the slot code sees it: a call that reads
    the world and either returns events or throws. *)
Definition EventSource : Type :=
  string -> Js.Date -> Js.Date -> World -> Js.result (list Event) * World.

Module AdvancedCalendarService.

(** [fallbackToCalendarApp]: an empty list when that fails as well. *)
Definition fallbackToCalendarApp (w : World) (calendarId : string)
    (startTime endTime : Js.Date) : list Event :=
  match CalendarApp_getEvents w calendarId startTime endTime with
  | Js.Ok events => events
  | Js.Throw _ => []
  end.

(** [getEventsDirectly]: one list request, the fallback on any error. *)
Definition getEventsDirectly (w : World) (calendarId : string)
    (startTime endTime : Js.Date) : list Event :=
  match startTime, endTime with
  | Some _, Some _ =>
      match Calendar_Events_list w calendarId startTime endTime 1%nat None with
      | Js.Ok response => Calendar.items response
      | Js.Throw _ => fallbackToCalendarApp w calendarId startTime endTime
      end
  | _, _ => fallbackToCalendarApp w calendarId startTime endTime
  end.

(** [executePaginatedQuery]; 21 iterations are enough for the loop to end
    (lemma [paginationLoop_bound] below). *)
Definition executePaginatedQuery (w : World) (calendarId : string)
    (startTime endTime : Js.Date) : list Event :=
  match Calendar.executePaginatedQuery_fuel 21
          (Calendar_Events_list w calendarId startTime endTime) startTime endTime with
  | Some (events, _) => events
  | None => []
  end.

(** [getEventsWithSmartPagination]. *)
Definition getEventsWithSmartPagination (w : World) (calendarId : string)
    (startTime endTime : Js.Date) : list Event :=
  if Calendar.shouldUsePagination startTime endTime
  then executePaginatedQuery w calendarId startTime endTime
  else getEventsDirectly w calendarId startTime endTime.

(** The events [getEvents] returns in world [w]. *)
Definition queryEvents (w : World) (calendarId : string)
    (startTime endTime : Js.Date) : list Event :=
  if Config.smartPagination_enabled
  then getEventsWithSmartPagination w calendarId startTime endTime
  else getEventsDirectly w calendarId startTime endTime.

(** [AdvancedCalendarService.getEvents]: queries the calendar on every
    call (nothing is cached) and never throws. *)
Definition getEvents : EventSource :=
  fun calendarId startTime endTime w =>
    (Js.Ok (queryEvents w calendarId startTime endTime),
     emit (GetEvents calendarId startTime endTime) w).

End AdvancedCalendarService.

(* ================================================================== *)
(** ** timeslotService.gs: availability of slots                        *)
(* ================================================================== *)

Module Availability.

Record Conflict := {
  conflictTitle : Title;
  conflictStart : Js.Date;
  conflictEnd : Js.Date
}.

Inductive Reason : Type :=
| Bookable                        (* no conflict *)
| ConflictsWith (n : Z)           (* conflicts with n bookings *)
| CheckFailed (message : string). (* the check threw *)

(** The record stored per slot; [conflictingEvents] is absent on the
    failure record. *)
Record SlotAvailability := {
  available : bool;
  conflictCount : Z;
  conflictingEvents : option (list Conflict);
  reason : Reason
}.

Definition checkFailed (message : string) : SlotAvailability :=
  {| available := false; conflictCount := -1;
     conflictingEvents := None; reason := CheckFailed message |}.

(** An object used as a map from slot strings to records: an association
    list in insertion order.  This is what a plain object does on keys that
    are neither array indices nor names inherited from [Object.prototype];
    [plainKey] below tells these keys. *)
Definition Obj (A : Type) : Type := list (string * A).

Fixpoint objSet {A} (k : string) (v : A) (o : Obj A) : Obj A :=
  match o with
  | [] => [(k, v)]
  | (k', v') :: t => if String.eqb k k' then (k, v) :: t else (k', v') :: objSet k v t
  end.

Fixpoint objGet {A} (k : string) (o : Obj A) : option A :=
  match o with
  | [] => None
  | (k', v) :: t => if String.eqb k k' then Some v else objGet k t
  end.

(** The names every plain object inherits; assigning to [__proto__] sets
    the prototype instead of a property, and reading any of them finds the
    inherited member. *)
Definition inheritedNames : list string :=
  ["__proto__"; "constructor"; "hasOwnProperty"; "isPrototypeOf";
   "propertyIsEnumerable"; "toLocaleString"; "toString"; "valueOf";
   "__defineGetter__"; "__defineSetter__"; "__lookupGetter__"; "__lookupSetter__"].

(** A key that is not an array index (all digits) and not inherited. *)
Definition plainKey (k : string) : bool :=
  negb (existsb (String.eqb k) inheritedNames)
  && negb (forallb Js.is_digit (Js.chars k)).

(** [slotStart] and [slotEnd] of a slot string on a date. *)
Definition slotWindow (timeSlot queryDateStr : string) : Js.Date * Js.Date :=
  let '(hour, minute) := Utils.splitHourMinute timeSlot in
  let slotStart := Js.newDate_taipei queryDateStr hour minute 0 in
  let endHour := option_map (fun h => (h + Config.defaultDuration)%nat) hour in
  let slotEnd := Js.newDate_taipei queryDateStr endHour minute 0 in
  (slotStart, slotEnd).

(** Does the loop body count [event] as a conflict?  Throws when the date
    string of the event start cannot be taken. *)
Definition conflicts (slotStart slotEnd : Js.Date) (queryDateStr : string)
    (event : Event) : Js.result bool :=
  let eventStart := getStartTime event in
  let eventEnd := getEndTime event in
  Js.bind (Utils.getTaipeiDateString eventStart) (fun eventDateStr =>
    if negb (String.eqb eventDateStr queryDateStr) then Js.Ok false   (* continue *)
    else Js.Ok (Js.lt slotStart eventEnd && Js.gt slotEnd eventStart)).

(** The [for (const event of events)] loop with its two accumulators. *)
Fixpoint scanEvents (events : list Event) (slotStart slotEnd : Js.Date)
    (queryDateStr : string) (conflictCount : Z) (conflictingEvents : list Conflict)
  : Js.result (Z * list Conflict) :=
  match events with
  | [] => Js.Ok (conflictCount, conflictingEvents)
  | event :: rest =>
      Js.bind (conflicts slotStart slotEnd queryDateStr event) (fun hit =>
        if hit
        then scanEvents rest slotStart slotEnd queryDateStr (conflictCount + 1)
               (conflictingEvents ++
                  [{| conflictTitle := getTitle event;
                      conflictStart := getStartTime event;
                      conflictEnd := getEndTime event |}])
        else scanEvents rest slotStart slotEnd queryDateStr conflictCount conflictingEvents)
  end.

(** [checkSingleTimeSlotAvailability(events, timeSlot, date, queryDateStr)]. *)
Definition checkSingleTimeSlotAvailability (events : list Event)
    (timeSlot queryDateStr : string) : SlotAvailability :=
  let '(slotStart, slotEnd) := slotWindow timeSlot queryDateStr in
  match scanEvents events slotStart slotEnd queryDateStr 0 [] with
  | Js.Ok (conflictCount, conflictingEvents) =>
      let isAvailable := conflictCount =? 0 in
      {| available := isAvailable;
         conflictCount := conflictCount;
         conflictingEvents := Some conflictingEvents;
         reason := if isAvailable then Bookable else ConflictsWith conflictCount |}
  | Js.Throw message => checkFailed message
  end.

(** [checkSingleTimeSlotAvailabilityFromEvents]: the same text in the
    source, for the batch path. *)
Definition checkSingleTimeSlotAvailabilityFromEvents (bookingEvents : list Event)
    (timeSlot queryDateStr : string) : SlotAvailability :=
  let '(slotStart, slotEnd) := slotWindow timeSlot queryDateStr in
  match scanEvents bookingEvents slotStart slotEnd queryDateStr 0 [] with
  | Js.Ok (conflictCount, conflictingEvents) =>
      {| available := conflictCount =? 0;
         conflictCount := conflictCount;
         conflictingEvents := Some conflictingEvents;
         reason := if conflictCount =? 0 then Bookable else ConflictsWith conflictCount |}
  | Js.Throw message => checkFailed message
  end.

(** [checkTimeSlotsAvailability(date, dateStr, timeSlots, calendarId)]
    over an event source: the fetch of the day's window, then one check
    per slot; if the fetch throws, every slot gets the failure record. *)
Definition checkTimeSlotsAvailability (getEvents : EventSource)
    (dateStr : string) (timeSlots : list string) (calendarId : string) (w : World)
  : Obj SlotAvailability * World :=
  let queryDateStr := dateStr in
  let '(startTime, endTime) := Utils.getOptimizedQueryRange queryDateStr in
  match getEvents calendarId startTime endTime w with
  | (Js.Ok events, w') =>
      (fold_left
         (fun availability timeSlot =>
            objSet timeSlot
              (checkSingleTimeSlotAvailability events timeSlot queryDateStr)
              availability)
         timeSlots [], w')
  | (Js.Throw message, w') =>
      (fold_left
         (fun availability slot => objSet slot (checkFailed message) availability)
         timeSlots [], w')
  end.

(** [checkTimeSlotsAvailabilityFromEvents]. *)
Definition checkTimeSlotsAvailabilityFromEvents (bookingEvents : list Event)
    (timeSlots : list string) (queryDateStr : string) : Obj SlotAvailability :=
  fold_left
    (fun availability timeSlot =>
       objSet timeSlot
         (checkSingleTimeSlotAvailabilityFromEvents bookingEvents timeSlot queryDateStr)
         availability)
    timeSlots [].

End Availability.

(* ================================================================== *)
(** ** timeslotService.gs: the batch availability query                 *)
(* ================================================================== *)

Module Batch.
Import Availability.

(** [/^\d{4}-\d{2}-\d{2}$/.test(s)]. *)
Definition dateRegex_test (s : string) : bool :=
  match Js.parseYMD s with
  | Some _ => true
  | None => false
  end.

Definition maxDays : Z := 62.

(** The messages of the four validation errors. *)
Definition MSG_DATE_FORMAT : string := "日期格式錯誤，請使用 YYYY-MM-DD 格式".
Definition MSG_INVALID_DATE : string := "無效的日期格式".
Definition MSG_START_AFTER_END : string := "開始日期不能晚於結束日期".
Definition MSG_RANGE_TOO_LARGE : string :=
  String.append "查詢範圍過大，最多支援 "
    (String.append (Js.String_of_nat (Z.to_nat maxDays)) " 天").
Definition MSG_CALENDAR_NOT_SET : string := "日曆配置未設定".

(** [Math.ceil(ms / (1000 * 60 * 60 * 24))]. *)
Definition ceilDays (ms : Z) : Z :=
  if ms mod Js.MS_PER_DAY =? 0 then ms / Js.MS_PER_DAY else ms / Js.MS_PER_DAY + 1.

(** The checks at the head of [handleBatchCheckTimeSlotAvailability]:
    the time values of [start] and [end], or the error thrown. *)
Definition validateRange (startDate endDate : string) : Js.result (Z * Z) :=
  if negb (dateRegex_test startDate) || negb (dateRegex_test endDate)
  then Js.Throw MSG_DATE_FORMAT
  else
    match Js.newDate_dateOnly startDate, Js.newDate_dateOnly endDate with
    | Some start, Some end_ =>
        if start >? end_ then Js.Throw MSG_START_AFTER_END
        else
          let daysDiff := ceilDays (end_ - start) in
          if daysDiff >? maxDays then Js.Throw MSG_RANGE_TOO_LARGE
          else Js.Ok (start, end_)
    | _, _ => Js.Throw MSG_INVALID_DATE
    end.

(** The two [forEach] loops that group events by the Taipei date of their
    start, keeping the dates of the range. *)
Fixpoint groupByDate (events : list Event) (startDate endDate : string)
    (byDate : Obj (list Event)) : Js.result (Obj (list Event)) :=
  match events with
  | [] => Js.Ok byDate
  | event :: rest =>
      Js.bind (Utils.getTaipeiDateString (getStartTime event)) (fun eventDateStr =>
        if Js.str_leb startDate eventDateStr && Js.str_leb eventDateStr endDate
        then
          let bucket := match objGet eventDateStr byDate with
                        | Some l => l
                        | None => []
                        end in
          groupByDate rest startDate endDate (objSet eventDateStr (bucket ++ [event]) byDate)
        else groupByDate rest startDate endDate byDate)
  end.

(** [byDate[dateStr] || []]. *)
Definition bucketOf (byDate : Obj (list Event)) (dateStr : string) : list Event :=
  match objGet dateStr byDate with
  | Some l => l
  | None => []
  end.

(** Stable insertion sort by [a.time.localeCompare(b.time)]; on the
    zero-padded digit strings of slots this is the code-unit order. *)
Fixpoint insertSlot (s : Extractor.Slot) (l : list Extractor.Slot) : list Extractor.Slot :=
  match l with
  | [] => [s]
  | x :: t =>
      if Js.str_leb (Extractor.time x) (Extractor.time s)
      then x :: insertSlot s t
      else s :: l
  end.

Definition sortSlots (l : list Extractor.Slot) : list Extractor.Slot :=
  fold_left (fun acc s => insertSlot s acc) l [].

(** Push the slots whose time is not there yet. *)
Definition pushNew (availableSlots timeSlots : list Extractor.Slot) : list Extractor.Slot :=
  fold_left
    (fun acc slot =>
       if existsb (fun s => String.eqb (Extractor.time s) (Extractor.time slot)) acc
       then acc else acc ++ [slot])
    timeSlots availableSlots.

Fixpoint collectSlots (tz : Z) (events : list Event) (dateStr : string)
    (availableSlots : list Extractor.Slot) : Js.result (list Extractor.Slot) :=
  match events with
  | [] => Js.Ok availableSlots
  | event :: rest =>
      let title := getTitle event in
      let eventStartTime := getStartTime event in
      Js.bind (Utils.getTaipeiDateString eventStartTime) (fun eventDateStr =>
        if String.eqb eventDateStr dateStr
        then collectSlots tz rest dateStr
               (pushNew availableSlots
                  (Extractor.extractTimeSlotsFromTitle tz title (Some eventStartTime)))
        else collectSlots tz rest dateStr availableSlots)
  end.

(** [extractTimeSlotsFromEvents(events, dateStr)]. *)
Definition extractTimeSlotsFromEvents (tz : Z) (events : list Event) (dateStr : string)
  : list Extractor.Slot :=
  match collectSlots tz events dateStr [] with
  | Js.Ok availableSlots => sortSlots availableSlots
  | Js.Throw _ => []
  end.

Record BatchResult := {
  success : bool;
  error : option string;
  data : Obj (Obj SlotAvailability);
  totalDays : Z;
  totalSlots : Z
}.

Definition failure (message : string) : BatchResult :=
  {| success := false; error := Some message; data := []; totalDays := 0; totalSlots := 0 |}.

(** What one iteration of the day loop stores for [dateStr]. *)
Definition processDay (tz : Z) (timeSlotsByDate bookingsByDate : Obj (list Event))
    (dateStr : string) : Obj SlotAvailability * Z :=
  let dayTimeSlotsEvents := bucketOf timeSlotsByDate dateStr in
  let availableSlots := extractTimeSlotsFromEvents tz dayTimeSlotsEvents dateStr in
  match availableSlots with
  | [] => ([], 0)
  | _ =>
      let timeSlotStrings := map Extractor.time availableSlots in
      let dayBookingEvents := bucketOf bookingsByDate dateStr in
      (checkTimeSlotsAvailabilityFromEvents dayBookingEvents timeSlotStrings dateStr,
       Z.of_nat (List.length timeSlotStrings))
  end.

(** The day loop: [currentDate] advances by one day while
    [currentDate <= end]; [days] bounds the number of iterations. *)
Fixpoint dayLoop (days : nat) (tz : Z) (currentDate end_ : Z)
    (timeSlotsByDate bookingsByDate : Obj (list Event))
    (result : Obj (Obj SlotAvailability)) (totalDays totalSlots : Z)
  : Js.result (Obj (Obj SlotAvailability) * Z * Z) :=
  match days with
  | O => Js.Ok (result, totalDays, totalSlots)
  | S days' =>
      if currentDate <=? end_ then
        Js.bind (Utils.getTaipeiDateString (Some currentDate)) (fun dateStr =>
          let '(availability, n) := processDay tz timeSlotsByDate bookingsByDate dateStr in
          dayLoop days' tz (currentDate + Js.MS_PER_DAY) end_ timeSlotsByDate bookingsByDate
            (objSet dateStr availability result)
            (if n =? 0 then totalDays else totalDays + 1) (totalSlots + n))
      else Js.Ok (result, totalDays, totalSlots)
  end.

(** [handleBatchCheckTimeSlotAvailability(startDate, endDate)]. *)
Definition handleBatchCheckTimeSlotAvailability (getEvents : EventSource) (tz : Z)
    (startDate endDate : string) (w : World) : BatchResult * World :=
  match validateRange startDate endDate with
  | Js.Throw message => (failure message, w)
  | Js.Ok (start, end_) =>
      match Config.timeSlotsCalendarId (properties w), Config.calendarId (properties w) with
      | Js.Throw message, _ => (failure message, w)
      | _, Js.Throw message => (failure message, w)
      | Js.Ok timeSlotsCalendarId, Js.Ok bookingCalendarId =>
          if negb (Js.truthy (Some timeSlotsCalendarId))
             || negb (Js.truthy (Some bookingCalendarId))
          then (failure MSG_CALENDAR_NOT_SET, w)
          else
            let '(rangeStartTime, rangeEndTime) :=
              Utils.getOptimizedQueryRangeBatch tz startDate endDate in
            match getEvents timeSlotsCalendarId rangeStartTime rangeEndTime w with
            | (Js.Throw message, w1) => (failure message, w1)
            | (Js.Ok timeSlotsEvents, w1) =>
                match getEvents bookingCalendarId rangeStartTime rangeEndTime w1 with
                | (Js.Throw message, w2) => (failure message, w2)
                | (Js.Ok bookingEvents, w2) =>
                    let outcome :=
                      Js.bind (groupByDate timeSlotsEvents startDate endDate [])
                        (fun timeSlotsByDate =>
                      Js.bind (groupByDate bookingEvents startDate endDate [])
                        (fun bookingsByDate =>
                      dayLoop (S (Z.to_nat ((end_ - start) / Js.MS_PER_DAY))) tz start end_
                        timeSlotsByDate bookingsByDate [] 0 0)) in
                    match outcome with
                    | Js.Ok (result, totalDays, totalSlots) =>
                        ({| success := true; error := None; data := result;
                            totalDays := totalDays; totalSlots := totalSlots |}, w2)
                    | Js.Throw message => (failure message, w2)
                    end
                end
            end
      end
  end.

End Batch.

(* ================================================================== *)
(** ** bookingService.gs: the booking commit                            *)
(* ================================================================== *)

Module Booking.
Import Availability.

(** The payload of a booking submission; an absent property is [None]. *)
Record BookingData := {
  customerName : option string;
  phone : option string;
  date : option string;
  time : option string;
  serviceText : option string;
  services : option string;
  service : option string;
  removalText : option string;
  removal : option string;
  quantityText : option string;
  quantity : option string;
  remarks : option string
}.

(** [a || b] on optional strings, and [a || ''] at the end of a chain. *)
Definition orElse (a b : option string) : option string :=
  if Js.truthy a then a else b.

Definition orEmpty (a : option string) : string :=
  match a with
  | Some s => s
  | None => ""
  end.

(** The result of [verifyBackendTimeSlotAvailability]. *)
Record BackendSlotCheck := {
  checkAvailable : bool;
  errorCode : option string;
  slotStatus : option SlotAvailability
}.

Definition defaultResponse (code : string) : BackendSlotCheck :=
  {| checkAvailable := false; errorCode := Some code; slotStatus := None |}.

(** The [try] block of [verifyBackendTimeSlotAvailability]. *)
Definition verifyBackend_try (getEvents : EventSource) (dateStr timeStr : string)
    (w : World) : Js.result BackendSlotCheck * World :=
  if negb (Js.truthy (Some dateStr)) || negb (Js.truthy (Some timeStr))
  then (Js.Ok (defaultResponse "MISSING_SLOT_PARAMS"), w)
  else
    match Config.calendarId (properties w) with
    | Js.Throw message => (Js.Throw message, w)
    | Js.Ok calendarId =>
        if String.eqb calendarId Config.PLACEHOLDER_CALENDAR_ID
        then (Js.Ok (defaultResponse "CALENDAR_NOT_CONFIGURED"), w)
        else
          match Utils.createTaipeiDateFromYMD dateStr with
          | Js.Throw message => (Js.Throw message, w)
          | Js.Ok _ =>
              let '(availabilityMap, w') :=
                checkTimeSlotsAvailability getEvents dateStr [timeStr] calendarId w in
              match objGet timeStr availabilityMap with
              | None => (Js.Ok (defaultResponse "SLOT_STATUS_MISSING"), w')
              | Some status =>
                  (Js.Ok {| checkAvailable := available status;
                            errorCode := if available status then None
                                         else Some "TIME_SLOT_CONFLICT";
                            slotStatus := Some status |}, w')
              end
          end
    end.

(** [verifyBackendTimeSlotAvailability(dateStr, timeStr)]: the [catch]
    returns the default response. *)
Definition verifyBackendTimeSlotAvailability (getEvents : EventSource)
    (dateStr timeStr : string) (w : World) : BackendSlotCheck * World :=
  match verifyBackend_try getEvents dateStr timeStr w with
  | (Js.Ok response, w') => (response, w')
  | (Js.Throw _, w') => (defaultResponse "TIME_SLOT_CHECK_FAILED", w')
  end.

(** [/^\d{4}-\d{2}-\d{2}$/.test(s)] and [/[TZ]/i.test(s)]. *)
Definition DATE_REGEX_test (s : string) : bool := Batch.dateRegex_test s.

Definition hasTZ (s : string) : bool :=
  existsb (fun c => Ascii.eqb c "T"%char || Ascii.eqb c "t"%char
                    || Ascii.eqb c "Z"%char || Ascii.eqb c "z"%char) (Js.chars s).

(** The first required field that is missing. *)
Definition missingField (b : BookingData) : option string :=
  if negb (Js.truthy (customerName b)) then Some "customerName"
  else if negb (Js.truthy (phone b)) then Some "phone"
  else if negb (Js.truthy (date b)) then Some "date"
  else if negb (Js.truthy (time b)) then Some "time"
  else None.

(** The validation at the head of the [try] block: the date and time of a
    well-formed booking, or the error thrown. *)
Definition validateBooking (b : BookingData) : Js.result (string * string) :=
  match missingField b with
  | Some field => Js.Throw (String.append "缺少必要欄位: " field)
  | None =>
      let d := orEmpty (date b) in
      let t := orEmpty (time b) in
      if negb (DATE_REGEX_test d) || hasTZ d
      then Js.Throw (String.append "無效的日期格式: "
                      (String.append d "，請使用 YYYY-MM-DD 格式"))
      else if negb (Config.TIME_FORMAT_REGEX_test t)
      then Js.Throw (String.append "無效的時間格式: "
                      (String.append t "，請使用 HH:MM 格式"))
      else Js.Ok (d, t)
  end.

(** The value returned by [handleSaveBooking]. *)
Record SaveResult := {
  success : bool;
  error : option string;
  conflictDetails : option SlotAvailability
}.

(** [getBookingSheetNameByDate(dateStr)] on a validated date. *)
Definition getBookingSheetNameByDate (dateStr : string) : string :=
  String.append "預約記錄" (String.substring 0 4 dateStr).

(** [formattedDate]: the parts of the date, read as numbers, joined as
    [Y年M月D日] without padding.  The commit reaches this with a date that
    has passed [DATE_REGEX], whose three parts are digit strings; any other
    string is kept as it is. *)
Definition formatBookingDate (d : string) : string :=
  match Js.parseYMD d with
  | Some (year, month, day) =>
      String.append (Js.String_of_nat (Z.to_nat year))
        (String.append "年"
           (String.append (Js.String_of_nat (Z.to_nat month))
              (String.append "月"
                 (String.append (Js.String_of_nat (Z.to_nat day)) "日"))))
  | None => d
  end.

(** The steps after a successful re-validation: the row is written, the
    caches are cleared, the customer counters, the calendar event and the
    LINE message follow.  The outcomes of the last two are reported in
    fields of the result that are not modelled.  The sheet and cache calls
    of these steps are taken to succeed: a sheet that [getSheet] has to
    create first, and an error thrown by one of the calls (which the
    [catch] would throw on, after the append with the row written), are
    outside the model. *)
Definition persist (b : BookingData) (d t : string) (w : World) : World :=
  let w := emit ClearCustomerCache w in
  let servicesText := orEmpty (orElse (orElse (serviceText b) (services b)) (service b)) in
  let ph := orEmpty (phone b) in
  let lineUserId := orEmpty (customerLineId w ph) in
  let quantityCell := if Js.truthy (orElse (quantityText b) (quantity b))
                      then orEmpty (orElse (quantityText b) (quantity b)) else "無" in
  let rowData :=
    {| rowLineUserId := lineUserId;
       rowCustomerName := orEmpty (customerName b);
       rowPhone := ph;
       rowDate := formatBookingDate d;
       rowTime := t;
       rowServices := servicesText;
       rowRemoval := orEmpty (orElse (removalText b) (removal b));
       rowQuantity := quantityCell;
       rowRemarks := orEmpty (remarks b);
       rowCreatedAt := now w |} in
  let w := appendRow (getBookingSheetNameByDate d) rowData w in
  let w := emit ClearBookingCache w in
  let w := emit (UpdateCustomerBookingInfo ph) w in
  let w := emit (CreateCalendarEvent d t) w in
  emit SendLineBookingConfirmation w.

(** The [try] block of [handleSaveBooking], entered with the lock held. *)
Definition saveBooking_try (getEvents : EventSource) (b : BookingData) (w : World)
  : Js.result SaveResult * World :=
  match validateBooking b with
  | Js.Throw message => (Js.Throw message, w)
  | Js.Ok (d, t) =>
      let '(backendSlotCheck, w1) := verifyBackendTimeSlotAvailability getEvents d t w in
      if negb (checkAvailable backendSlotCheck)
      then
        (Js.Ok {| success := false;
                  error := match errorCode backendSlotCheck with
                           | Some code => if Js.truthy (Some code) then Some code
                                          else Some "TIME_SLOT_UNAVAILABLE"
                           | None => Some "TIME_SLOT_UNAVAILABLE"
                           end;
                  conflictDetails := slotStatus backendSlotCheck |}, w1)
      else
        (Js.Ok {| success := true; error := None; conflictDetails := None |},
         persist b d t w1)
  end.

(** [handleSaveBooking(booking)].  [None] stands for a [null] payload, on
    which the first statement (the log line reading [booking.customerName])
    throws.  The lock is requested next; the [try] block runs only when it
    was obtained, and [finally] releases it. *)
Definition handleSaveBooking (getEvents : EventSource) (booking : option BookingData)
    (w : World) : Js.result SaveResult * World :=
  match booking with
  | None => (Js.Throw "TypeError: cannot read properties of null", w)
  | Some b =>
      if negb (lockFree w)
      then (Js.Ok {| success := false; error := Some "LOCK_TIMEOUT";
                     conflictDetails := None |},
            emit (WaitLock false) w)
      else
        let '(outcome, w') := saveBooking_try getEvents b (emit (WaitLock true) w) in
        (outcome, emit ReleaseLock w')
  end.

End Booking.

(* ================================================================== *)
(** ** Concrete worlds, events and bookings used in the examples        *)
(* ================================================================== *)

(** The offset of Asia/Taipei. *)
Definition TAIPEI : Z := 8 * Js.MS_PER_HOUR.

(** An upstream whose every page carries a further page token. *)
Definition endlessUpstream : Calendar.Upstream :=
  fun _ _ => Js.Ok {| Calendar.items := []; Calendar.nextPageToken := Some "next" |}.

(** A world whose calendars answer every query with [events]. *)
Definition worldWith (events : list Event) : World :=
  {| properties := {| Config.GOOGLE_CALENDAR_ID := Some "bookings@example.com";
                      Config.GOOGLE_TIMESLOTS_CALENDAR_ID := Some "slots@example.com" |};
     lockFree := true;
     now := 1751328000000;
     Calendar_Events_list := fun _ _ _ _ _ =>
       Js.Ok {| Calendar.items := events; Calendar.nextPageToken := None |};
     CalendarApp_getEvents := fun _ _ _ => Js.Ok events;
     customerLineId := fun _ => None;
     bookingRows := [];
     trace := [] |}.

(** A configured world with empty calendars and a free lock. *)
Definition world0 : World := worldWith [].

(** The same world with the [GOOGLE_CALENDAR_ID] property not set. *)
Definition unconfiguredWorld : World :=
  {| properties := {| Config.GOOGLE_CALENDAR_ID := None;
                      Config.GOOGLE_TIMESLOTS_CALENDAR_ID := None |};
     lockFree := true;
     now := now world0;
     Calendar_Events_list := Calendar_Events_list world0;
     CalendarApp_getEvents := CalendarApp_getEvents world0;
     customerLineId := customerLineId world0;
     bookingRows := [];
     trace := [] |}.

(** An event source that is down. *)
Definition downSource : EventSource :=
  fun _ _ _ w => (Js.Throw "calendar unavailable", w).

(** A configured world whose calendars cannot be reached: the list request
    and the fallback both throw. *)
Definition outageWorld : World :=
  {| properties := properties world0;
     lockFree := true;
     now := now world0;
     Calendar_Events_list := fun _ _ _ _ _ => Js.Throw "Service unavailable";
     CalendarApp_getEvents := fun _ _ _ => Js.Throw "Service unavailable";
     customerLineId := customerLineId world0;
     bookingRows := [];
     trace := [] |}.

(** Time value of a Taipei wall-clock time on 2025-07-15 (day 20284). *)
Definition on_2025_07_15 (h m : Z) : Js.Date :=
  Some (20284 * Js.MS_PER_DAY + h * Js.MS_PER_HOUR + m * Js.MS_PER_MINUTE - TAIPEI).

Definition eventBetween (start end_ : Js.Date) : Event :=
  {| getTitle := RegExp.utf16 "booking"; getStartTime := start; getEndTime := end_ |}.

(** An event whose start is an Invalid Date. *)
Definition brokenEvent : Event :=
  {| getTitle := []; getStartTime := None; getEndTime := None |}.

Definition completeBooking : Booking.BookingData :=
  {| Booking.customerName := Some "Amy"; Booking.phone := Some "0912345678";
     Booking.date := Some "2025-07-15"; Booking.time := Some "14:00";
     Booking.serviceText := None; Booking.services := Some "gel";
     Booking.service := None; Booking.removalText := None; Booking.removal := None;
     Booking.quantityText := None; Booking.quantity := None; Booking.remarks := None |}.

(** The same submission without a customer name. *)
Definition namelessBooking : Booking.BookingData :=
  {| Booking.customerName := None; Booking.phone := Some "0912345678";
     Booking.date := Some "2025-07-15"; Booking.time := Some "14:00";
     Booking.serviceText := None; Booking.services := Some "gel";
     Booking.service := None; Booking.removalText := None; Booking.removal := None;
     Booking.quantityText := None; Booking.quantity := None; Booking.remarks := None |}.

(** Does the event start on Taipei date [d]? *)
Definition startsOn (d : string) (event : Event) : bool :=
  match Utils.getTaipeiDateString (getStartTime event) with
  | Js.Ok s => String.eqb s d
  | Js.Throw _ => false
  end.

(** Does the event start on date [q] and overlap the half-open window
    from [s] to [e]? *)
Definition overlaps (s e : Z) (q : string) (event : Event) : bool :=
  startsOn q event
  && Js.lt (Some s) (getEndTime event) && Js.gt (Some e) (getStartTime event).

(** A salon world: the time-slot calendar offers 10:00 and 14:00 on
    2025-07-15, the booking calendar holds one booking from 10:00 to 11:00. *)
Definition salonWorld : World :=
  {| properties := properties (worldWith []);
     lockFree := true;
     now := 1751328000000;
     Calendar_Events_list := fun calendarId _ _ _ _ =>
       Js.Ok {| Calendar.items :=
                  if String.eqb calendarId "slots@example.com"
                  then [{| getTitle := RegExp.utf16 "10:00 14:00";
                           getStartTime := on_2025_07_15 8 0;
                           getEndTime := on_2025_07_15 9 0 |}]
                  else [eventBetween (on_2025_07_15 10 0) (on_2025_07_15 11 0)];
                Calendar.nextPageToken := None |};
     CalendarApp_getEvents := fun _ _ _ => Js.Ok [];
     customerLineId := fun _ => None;
     bookingRows := [];
     trace := [] |}.

(* ================================================================== *)
(** ** calendarService.gs: the event of a booking                       *)
(* ================================================================== *)

Module CalendarEvents.

(** The hour and minute fields of [time] inside the date-time string
    [date + 'T' + time + ':00+08:00'].  The date-time format wants two
    digits for each; a time with a one-digit hour, which [TIME_FORMAT_REGEX]
    lets through, is outside that format, and what the runtime's fallback
    parser makes of it is not modelled: it is taken as an Invalid Date
    here, and the properties below speak of the two-digit form only. *)
Definition clockFields (time : string) : Js.num * Js.num :=
  match Js.chars time with
  | [h1; h2; c; m1; m2] =>
      if forallb Js.is_digit [h1; h2; m1; m2] && Ascii.eqb c ":"%char
      then (Some (Js.digits_val [h1; h2]), Some (Js.digits_val [m1; m2]))
      else (None, None)
  | _ => (None, None)
  end.

(** [new Date(`${date}T${time}:00+08:00`)]. *)
Definition startOf (date time : string) : Js.Date :=
  let '(h, m) := clockFields time in Js.newDate_taipei date h m 0.

(** [new Date(startTime.getTime() + defaultDuration * 60 * 60 * 1000)]. *)
Definition endOf (startTime : Js.Date) : Js.Date :=
  match startTime with
  | Some t => Js.timeClip (t + Z.of_nat Config.defaultDuration * 60 * 60 * 1000)
  | None => None
  end.

(** The event [createCalendarEvent] creates on a configured calendar for a
    booking that carries no [isoStart] (the commit passes none): the time
    format is checked, the start is built from the date and the time, the
    end is one duration later.  [Throw] stands for the failure result the
    function returns when the time format is rejected or when
    [calendar.createEvent] refuses invalid dates. *)
Definition createdEvent (title : Title) (date time : string) : Js.result Event :=
  if negb (Config.TIME_FORMAT_REGEX_test time)
  then Js.Throw (String.append "無效的時間格式: " time)
  else
    let startTime := startOf date time in
    let endTime := endOf startTime in
    match startTime, endTime with
    | Some _, Some _ =>
        Js.Ok {| getTitle := title; getStartTime := startTime; getEndTime := endTime |}
    | _, _ => Js.Throw "Invalid argument: startTime"
    end.

End CalendarEvents.

(* ================================================================== *)
(** ** utils.gs: the yearly booking sheets                              *)
(* ================================================================== *)

Module SheetNames.

(** [BOOKING_SHEET_NAME]. *)
Definition BOOKING_SHEET_NAME : string := "預約記錄".

(** [/^\d{4}$/.test(s)]. *)
Definition fourDigits (s : string) : bool :=
  match Js.chars s with
  | [a; b; c; d] => forallb Js.is_digit [a; b; c; d]
  | _ => false
  end.

(** [isBookingSheetName(sheetName)]: the sheet name followed by four digits. *)
Definition isBookingSheetName (sheetName : string) : bool :=
  let n := String.length BOOKING_SHEET_NAME in
  String.eqb (String.substring 0 n sheetName) BOOKING_SHEET_NAME
  && fourDigits (String.substring n (String.length sheetName - n) sheetName).

(** [getBookingSheetNameByDate(dateStr)]. *)
Definition getBookingSheetNameByDate (dateStr : string) : Js.result string :=
  if negb (Js.truthy (Some dateStr)) then Js.Throw "無效的日期參數"
  else
    let year := String.substring 0 4 dateStr in
    if negb (fourDigits year)
    then Js.Throw (String.append "無法從日期中提取年份: " dateStr)
    else Js.Ok (String.append BOOKING_SHEET_NAME year).

(** [parseInt(name.replace(BOOKING_SHEET_NAME, ''))] on the name of a
    yearly sheet. *)
Definition yearOfSheet (name : string) : nat :=
  let n := String.length BOOKING_SHEET_NAME in
  Js.digits_val (Js.chars (String.substring n (String.length name - n) name)).

(** Stable insertion for the comparator [(a, b) => yearB - yearA]. *)
Fixpoint insertByYear (x : string) (l : list string) : list string :=
  match l with
  | [] => [x]
  | y :: t =>
      if (yearOfSheet y <=? yearOfSheet x)%nat then x :: l
      else y :: insertByYear x t
  end.

(** [getAllBookingSheetNames()] over the names of the sheets of the
    spreadsheet: the yearly sheets, newest first. *)
Definition getAllBookingSheetNames (sheetNames : list string) : list string :=
  fold_right insertByYear [] (filter isBookingSheetName sheetNames).

End SheetNames.

(* ================================================================== *)
(** ** calendarService.gs: removing the rows of cancelled events        *)
(* ================================================================== *)

Module Sync.

(** An event of the change list: [id] and [status]. *)
Record Change := {
  changeId : string;
  changeStatus : string
}.

(** The ids of the cancelled events. *)
Definition deletedEventIds (events : list Change) : list string :=
  map changeId (filter (fun e => String.eqb (changeStatus e) "cancelled") events).

(** [s.includes(sub)] and [s.split('@')[0]]. *)
Fixpoint prefixOf (sub s : string) : bool :=
  match sub, s with
  | EmptyString, _ => true
  | String _ _, EmptyString => false
  | String a sub', String b s' => Ascii.eqb a b && prefixOf sub' s'
  end.

Fixpoint includes (s sub : string) : bool :=
  prefixOf sub s ||
  match s with
  | EmptyString => false
  | String _ t => includes t sub
  end.

Fixpoint beforeAt (s : string) : string :=
  match s with
  | EmptyString => EmptyString
  | String c t => if Ascii.eqb c "@"%char then EmptyString else String c (beforeAt t)
  end.

(** The event id of a sheet cell as it is compared. *)
Definition normalizeId (sheetId : string) : string :=
  if includes sheetId "@google.com" then beforeAt sheetId else sheetId.

(** The inner [for] loop: the row numbers (from 2) of the cells equal to
    [targetId]. *)
Fixpoint matchingRows (targetId : string) (eventIdsInSheet : list string) (row : nat)
  : list nat :=
  match eventIdsInSheet with
  | [] => []
  | sheetId :: rest =>
      if String.eqb (normalizeId sheetId) targetId
      then row :: matchingRows targetId rest (S row)
      else matchingRows targetId rest (S row)
  end.

(** [rowsToDelete] after the [forEach] over the deleted ids. *)
Definition rowsToDelete (deleted eventIdsInSheet : list string) : list nat :=
  flat_map (fun deletedId => matchingRows deletedId eventIdsInSheet 2) deleted.

(** [[...new Set(rows)]]: first occurrences, in order. *)
Definition unique (rows : list nat) : list nat :=
  fold_left (fun acc r => if existsb (Nat.eqb r) acc then acc else acc ++ [r]) rows [].

(** [.sort((a, b) => b - a)]: descending. *)
Fixpoint insertDesc (x : nat) (l : list nat) : list nat :=
  match l with
  | [] => [x]
  | y :: t => if (y <=? x)%nat then x :: l else y :: insertDesc x t
  end.

Definition sortDesc (l : list nat) : list nat := fold_right insertDesc [] l.

(** [sheet.deleteRow(row)] on the rows of a sheet, the first row being
    row 1. *)
Fixpoint deleteRow {A} (row : nat) (rows : list A) : list A :=
  match row, rows with
  | _, [] => []
  | O, _ => rows
  | 1%nat, _ :: t => t
  | S r, x :: t => x :: deleteRow r t
  end.

(** The body of the loop of [processCalendarChanges] for one sheet whose
    rows are [rows] (the header first) and whose event id column is read by
    [eventId]: the rows that remain and the number of deletions. *)
Definition processSheet {A} (eventId : A -> string) (deleted : list string)
    (rows : list A) : list A * nat :=
  let lastRow := List.length rows in
  if (lastRow <=? 1)%nat then (rows, 0%nat)
  else
    let eventIdsInSheet := map eventId (skipn 1 rows) in
    let toDelete := rowsToDelete deleted eventIdsInSheet in
    let uniqueRows := sortDesc (unique toDelete) in
    (fold_left (fun sheet row => deleteRow row sheet) uniqueRows rows,
     List.length uniqueRows).

End Sync.

(** The id [createCalendarEvent] returns for the event it has created,
    which the commit writes to the event id column of the booking row:
    [event.getId()], cut at the [@] when it carries the calendar suffix. *)
Definition storedEventId (eventId : string) : string :=
  if Sync.includes eventId "@google.com" then Sync.beforeAt eventId else eventId.

(* ================================================================== *)
(** ** timeslotService.gs: the single-day availability request          *)
(* ================================================================== *)

Module Query.
Import Availability.

Record CheckResult := {
  success : bool;
  error : option string;
  availability : Obj SlotAvailability;
  checkedSlots : nat
}.

Definition failure (message : string) : CheckResult :=
  {| success := false; error := Some message; availability := []; checkedSlots := 0 |}.

(** [handleCheckTimeSlotAvailability(date, timeSlots)]; an absent argument
    is [None]. *)
Definition handleCheckTimeSlotAvailability (getEvents : EventSource)
    (date : option string) (timeSlots : option (list string)) (w : World)
  : CheckResult * World :=
  if negb (Js.truthy date) then (failure "缺少查詢日期參數", w)
  else
    match date, timeSlots with
    | Some date, Some timeSlots =>
        match timeSlots with
        | [] => ({| success := true; error := None; availability := [];
                    checkedSlots := 0 |}, w)
        | _ =>
            if negb (Batch.dateRegex_test date)
            then (failure Batch.MSG_DATE_FORMAT, w)
            else
              match Config.calendarId (properties w) with
              | Js.Throw message => (failure message, w)
              | Js.Ok bookingCalendarId =>
                  if String.eqb bookingCalendarId Config.PLACEHOLDER_CALENDAR_ID
                  then (failure "預約日曆未設定", w)
                  else
                    match Utils.createTaipeiDateFromYMD date with
                    | Js.Throw message => (failure message, w)
                    | Js.Ok None => (failure Batch.MSG_INVALID_DATE, w)
                    | Js.Ok (Some _) =>
                        let '(availability, w') :=
                          checkTimeSlotsAvailability getEvents date timeSlots
                            bookingCalendarId w in
                        ({| success := true; error := None;
                            availability := availability;
                            checkedSlots := List.length timeSlots |}, w')
                    end
              end
        end
    | _, _ => (failure "缺少時段參數", w)
    end.

End Query.

(* ================================================================== *)
(** ** timeslotService.gs: the slots offered on a day                   *)
(* ================================================================== *)

Module TimeSlots.

Record SlotsResult := {
  success : bool;
  error : option string;
  availableSlots : list Extractor.Slot
}.

Definition failure (message : string) : SlotsResult :=
  {| success := false; error := Some message; availableSlots := [] |}.

(** [getAvailableTimeSlotsFromCalendar(date)]: the time-slot calendar is
    read for the window of the day, and the loop over the events is the one
    of [extractTimeSlotsFromEvents]; any error gives the empty list. *)
Definition getAvailableTimeSlotsFromCalendar (getEvents : EventSource) (tz : Z)
    (date : Js.Date) (w : World) : list Extractor.Slot * World :=
  match Config.timeSlotsCalendarId (properties w) with
  | Js.Throw _ => ([], w)
  | Js.Ok readCalendarId =>
      match Utils.getTaipeiDateString date with
      | Js.Throw _ => ([], w)
      | Js.Ok queryDateStr =>
          let '(startTime, endTime) := Utils.getOptimizedQueryRange queryDateStr in
          match getEvents readCalendarId startTime endTime w with
          | (Js.Ok events, w') =>
              (Batch.extractTimeSlotsFromEvents tz events queryDateStr, w')
          | (Js.Throw _, w') => ([], w')
          end
      end
  end.

(** [today]: [new Date()] with [setHours(0, 0, 0, 0)]. *)
Definition today (tz : Z) (w : World) : Js.Date :=
  Utils.setHours tz (Some (now w)) (Some 0%nat) (Some 0%nat).

(** [handleGetAvailableTimeSlots(date)]. *)
Definition handleGetAvailableTimeSlots (getEvents : EventSource) (tz : Z)
    (date : option string) (w : World) : SlotsResult * World :=
  match date with
  | None => (failure "缺少查詢日期參數", w)
  | Some date =>
      if negb (Js.truthy (Some date)) then (failure "缺少查詢日期參數", w)
      else if negb (Batch.dateRegex_test date) then (failure Batch.MSG_DATE_FORMAT, w)
      else
        match Config.calendarId (properties w) with
        | Js.Throw message => (failure message, w)
        | Js.Ok calendarId =>
            if String.eqb calendarId Config.PLACEHOLDER_CALENDAR_ID
            then (failure "日曆未設定", w)
            else
              match Js.newDate_dateOnly date with
              | None => (failure Batch.MSG_INVALID_DATE, w)
              | Some queryDate =>
                  if Js.lt (Some queryDate) (today tz w)
                  then ({| success := true; error := None; availableSlots := [] |}, w)
                  else
                    let '(availableSlots, w') :=
                      getAvailableTimeSlotsFromCalendar getEvents tz (Some queryDate) w in
                    ({| success := true; error := None;
                        availableSlots := availableSlots |}, w')
              end
        end
  end.

(** What the batch request stores for one date. *)
Record DaySlots := {
  daySlots : list Extractor.Slot;
  isSkipped : bool
}.

(** The day loop of [handleGetBatchAvailableTimeSlots]; [days] bounds the
    number of iterations. *)
Fixpoint slotsDayLoop (days : nat) (getEvents : EventSource) (tz : Z)
    (currentDate end_ : Z) (today : Js.Date) (dateSlots : Availability.Obj DaySlots)
    (totalSlots processedDays : Z) (w : World)
  : Js.result (Availability.Obj DaySlots * Z * Z) * World :=
  match days with
  | O => (Js.Ok (dateSlots, totalSlots, processedDays), w)
  | S days' =>
      if currentDate <=? end_ then
        match Utils.getTaipeiDateString (Some currentDate) with
        | Js.Throw message => (Js.Throw message, w)
        | Js.Ok dateStr =>
            if Js.lt (Some currentDate) today
            then slotsDayLoop days' getEvents tz (currentDate + Js.MS_PER_DAY) end_ today
                   (Availability.objSet dateStr {| daySlots := []; isSkipped := true |}
                      dateSlots)
                   totalSlots processedDays w
            else
              let '(availableSlots, w') :=
                getAvailableTimeSlotsFromCalendar getEvents tz (Some currentDate) w in
              slotsDayLoop days' getEvents tz (currentDate + Js.MS_PER_DAY) end_ today
                (Availability.objSet dateStr
                   {| daySlots := availableSlots; isSkipped := false |} dateSlots)
                (totalSlots + Z.of_nat (List.length availableSlots)) (processedDays + 1) w'
        end
      else (Js.Ok (dateSlots, totalSlots, processedDays), w)
  end.

Record BatchSlotsResult := {
  batchSuccess : bool;
  batchError : option string;
  dateSlots : Availability.Obj DaySlots;
  totalDays : Z;
  totalSlots : Z
}.

Definition batchFailure (message : string) : BatchSlotsResult :=
  {| batchSuccess := false; batchError := Some message; dateSlots := [];
     totalDays := 0; totalSlots := 0 |}.

(** [handleGetBatchAvailableTimeSlots(startDate, endDate)]. *)
Definition handleGetBatchAvailableTimeSlots (getEvents : EventSource) (tz : Z)
    (startDate endDate : string) (w : World) : BatchSlotsResult * World :=
  if negb (Js.truthy (Some startDate)) || negb (Js.truthy (Some endDate))
  then (batchFailure "缺少開始日期或結束日期參數", w)
  else if negb (Batch.dateRegex_test startDate) || negb (Batch.dateRegex_test endDate)
  then (batchFailure Batch.MSG_DATE_FORMAT, w)
  else
    match Config.calendarId (properties w) with
    | Js.Throw message => (batchFailure message, w)
    | Js.Ok calendarId =>
        if String.eqb calendarId Config.PLACEHOLDER_CALENDAR_ID
        then (batchFailure "日曆未設定", w)
        else
          match Js.newDate_dateOnly startDate, Js.newDate_dateOnly endDate with
          | Some start, Some end_ =>
              if start >? end_ then (batchFailure Batch.MSG_START_AFTER_END, w)
              else if Batch.ceilDays (end_ - start) >? Batch.maxDays
              then (batchFailure Batch.MSG_RANGE_TOO_LARGE, w)
              else
                match slotsDayLoop (S (Z.to_nat ((end_ - start) / Js.MS_PER_DAY)))
                        getEvents tz start end_ (today tz w) [] 0 0 w with
                | (Js.Ok (dateSlots, totalSlots, processedDays), w') =>
                    ({| batchSuccess := true; batchError := None;
                        dateSlots := dateSlots; totalDays := processedDays;
                        totalSlots := totalSlots |}, w')
                | (Js.Throw message, w') => (batchFailure message, w')
                end
          | _, _ => (batchFailure Batch.MSG_INVALID_DATE, w)
          end
    end.

End TimeSlots.

(* ================================================================== *)
(** ** cacheService.gs: the customer index                              *)
(* ================================================================== *)

Module CustomerIndex.
Section Index.

(** [String.prototype.trim]. *)
Variable trim : string -> string.

(** A row of the customer sheet: the cells of columns 1 and 3, as the
    strings [toString()] gives. *)
Record CustomerRow := {
  lineUserIdCell : string;
  phoneCell : string
}.

(** The key under which a phone number is indexed. *)
Definition phoneKey (phone : string) : string := String.append "phone_" (trim phone).

(** Does the loop body store something under [key] for this row? *)
Definition storesUnder (key : string) (row : CustomerRow) : bool :=
  (Js.truthy (Some (lineUserIdCell row)) && String.eqb (trim (lineUserIdCell row)) key)
  || (Js.truthy (Some (phoneCell row)) && String.eqb (phoneKey (phoneCell row)) key).

(** The loop of [buildCustomerIndex] from index [i] on; the map holds the
    [rowIndex] of each key. *)
Fixpoint indexRows (rows : list CustomerRow) (i : nat) (indexMap : Availability.Obj nat)
  : Availability.Obj nat :=
  match rows with
  | [] => indexMap
  | row :: rest =>
      let indexMap :=
        if Js.truthy (Some (lineUserIdCell row))
        then Availability.objSet (trim (lineUserIdCell row)) (i + 1)%nat indexMap
        else indexMap in
      let indexMap :=
        if Js.truthy (Some (phoneCell row))
        then Availability.objSet (phoneKey (phoneCell row)) (i + 1)%nat indexMap
        else indexMap in
      indexRows rest (S i) indexMap
  end.

(** [buildCustomerIndex()] over the values of the sheet, header first. *)
Definition buildCustomerIndex (data : list CustomerRow) : Availability.Obj nat :=
  indexRows (skipn 1 data) 1 [].

(** [findCustomerByPhone(phone)] on a freshly built index. *)
Definition findCustomerByPhone (data : list CustomerRow) (phone : string) : Z :=
  if negb (Js.truthy (Some phone)) then -1
  else match Availability.objGet (phoneKey phone) (buildCustomerIndex data) with
       | Some rowIndex => Z.of_nat rowIndex
       | None => -1
       end.

(** [findCustomerByLineUserId(lineUserId)] on a freshly built index. *)
Definition findCustomerByLineUserId (data : list CustomerRow) (lineUserId : string) : Z :=
  if negb (Js.truthy (Some lineUserId)) then -1
  else match Availability.objGet (trim lineUserId) (buildCustomerIndex data) with
       | Some rowIndex => Z.of_nat rowIndex
       | None => -1
       end.

End Index.
End CustomerIndex.

(* ================================================================== *)
(** ** main.gs: the request dispatcher                                  *)
(* ================================================================== *)

Module Main.

(** The fields of the request data that the modelled handlers read; an
    absent field is [None].  [booking] is [data.booking || data]. *)
Record RequestData := {
  action : option string;
  csrfToken : option string;
  booking : Booking.BookingData;
  date : option string;
  startDate : option string;
  endDate : option string;
  timeSlots : option (list string)
}.

(** The [success] and [error] fields of a response. *)
Record Response := {
  success : bool;
  error : option string
}.

Definition failure (message : string) : Response :=
  {| success := false; error := Some message |}.

Definition csrfProtectedActions : list string :=
  ["saveCustomer"; "saveBooking"; "updateBookingStatus"; "deleteBooking"].

(** The CSRF check: the error code of the response it returns, if any.
    Tokens are ASCII strings, so that [length] counts their characters. *)
Definition csrfError (data : RequestData) : option string :=
  match action data with
  | Some a =>
      if existsb (String.eqb a) csrfProtectedActions then
        match csrfToken data with
        | Some token =>
            if negb (Js.truthy (Some token)) then Some "CSRF_TOKEN_MISSING"
            else if negb (Sync.includes token "_") || (String.length token <? 20)%nat
            then Some "CSRF_TOKEN_INVALID"
            else None
        | None => Some "CSRF_TOKEN_MISSING"
        end
      else None
  | None => None
  end.

(** The cases of the [switch] whose handlers are not modelled here. *)
Definition otherActions : list string :=
  ["ping"; "saveCustomer"; "getCustomer"; "updateBookingStatus";
   "verifyCustomerByLineId"; "getCustomerByLineId"; "getCustomerBookings";
   "getCalendarConfig"; "getGoogleCalendarCredentials"; "getSystemCalendarInfo";
   "getHomepageData"; "updateAdminSettings"; "getAdminSettings"].

(** [handleRequest(e)] on the parsed request data: the CSRF check, the
    [switch] over the action, and the [catch] that turns a thrown error into
    a failure response.  [None] stands for the actions of [otherActions]. *)
Definition handleRequest (getEvents : EventSource) (tz : Z) (data : RequestData)
    (w : World) : option (Response * World) :=
  match csrfError data with
  | Some code => Some (failure code, w)
  | None =>
      match action data with
      | None => Some (failure "No action specified", w)
      | Some a =>
          if String.eqb a "saveBooking" then
            match Booking.handleSaveBooking getEvents (Some (booking data)) w with
            | (Js.Ok r, w') =>
                Some ({| success := Booking.success r; error := Booking.error r |}, w')
            | (Js.Throw message, w') => Some (failure message, w')
            end
          else if String.eqb a "getAvailableTimeSlots" then
            let '(r, w') := TimeSlots.handleGetAvailableTimeSlots getEvents tz (date data) w in
            Some ({| success := TimeSlots.success r; error := TimeSlots.error r |}, w')
          else if String.eqb a "getBatchAvailableTimeSlots" then
            let '(r, w') :=
              TimeSlots.handleGetBatchAvailableTimeSlots getEvents tz
                (Booking.orEmpty (startDate data)) (Booking.orEmpty (endDate data)) w in
            Some ({| success := TimeSlots.batchSuccess r;
                     error := TimeSlots.batchError r |}, w')
          else if String.eqb a "checkTimeSlotAvailability" then
            let '(r, w') :=
              Query.handleCheckTimeSlotAvailability getEvents (date data) (timeSlots data) w in
            Some ({| success := Query.success r; error := Query.error r |}, w')
          else if String.eqb a "handleBatchCheckTimeSlotAvailability" then
            let '(r, w') :=
              Batch.handleBatchCheckTimeSlotAvailability getEvents tz
                (Booking.orEmpty (startDate data)) (Booking.orEmpty (endDate data)) w in
            Some ({| success := Batch.success r; error := Batch.error r |}, w')
          else if existsb (String.eqb a) otherActions then None
          else if negb (Js.truthy (Some a)) then Some (failure "No action specified", w)
          else Some (failure "Unknown action", w)
      end
  end.

(** The actions that only read. *)
Definition readActions : list string :=
  ["getAvailableTimeSlots"; "getBatchAvailableTimeSlots"; "checkTimeSlotAvailability";
   "handleBatchCheckTimeSlotAvailability"].

End Main.

(* ================================================================== *)
(** ** cacheService.gs: the booking index                               *)
(* ================================================================== *)

Module BookingIndex.
Section Index.

(** A row of a booking sheet and its first cell, the LINE user id. *)
Variable A : Type.
Variable lineUserId : A -> string.

(** The sheets of the spreadsheet by name, each with its values, the
    header row first. *)
Definition Spreadsheet : Type := list (string * list A).

(** [getSheet(name).getDataRange().getValues()]. *)
Definition getSheetValues (spreadsheet : Spreadsheet) (name : string) : list A :=
  match find (fun sheet => String.eqb (fst sheet) name) spreadsheet with
  | Some sheet => snd sheet
  | None => []
  end.

(** The inner loop of [buildBookingIndex] over the rows of one sheet: a
    booking is the row together with the name of its sheet. *)
Fixpoint indexSheetRows (sheetName : string) (rows : list A)
    (indexMap : Availability.Obj (list (A * string)))
  : Availability.Obj (list (A * string)) :=
  match rows with
  | [] => indexMap
  | row :: rest =>
      if Js.truthy (Some (lineUserId row))
      then
        let bucket := match Availability.objGet (lineUserId row) indexMap with
                      | Some l => l
                      | None => []
                      end in
        indexSheetRows sheetName rest
          (Availability.objSet (lineUserId row) (bucket ++ [(row, sheetName)]) indexMap)
      else indexSheetRows sheetName rest indexMap
  end.

(** [buildBookingIndex()]: the yearly sheets, newest first. *)
Definition buildBookingIndex (spreadsheet : Spreadsheet)
  : Availability.Obj (list (A * string)) :=
  fold_left
    (fun indexMap sheetName =>
       indexSheetRows sheetName (skipn 1 (getSheetValues spreadsheet sheetName)) indexMap)
    (SheetNames.getAllBookingSheetNames (map fst spreadsheet)) [].

(** [getBookingsFromIndex(lineUserId)] on a freshly built index. *)
Definition getBookingsFromIndex (spreadsheet : Spreadsheet) (id : string)
  : list (A * string) :=
  match Availability.objGet id (buildBookingIndex spreadsheet) with
  | Some bookings => bookings
  | None => []
  end.

End Index.
End BookingIndex.

(* ================================================================== *)
(** ** Paged upstreams and other notions used in the statements         *)
(* ================================================================== *)

(** An upstream that serves the pages of a list one request after the
    other, announcing a next page as long as there is one; a page may also
    be an error. *)
Definition servedUpstream (pages : list (Js.result (list Event))) : Calendar.Upstream :=
  fun pageCount _ =>
    match nth_error pages (pageCount - 1) with
    | Some (Js.Ok pageItems) =>
        Js.Ok {| Calendar.items := pageItems;
                 Calendar.nextPageToken :=
                   if (pageCount <? List.length pages)%nat then Some "next" else None |}
    | Some (Js.Throw message) => Js.Throw message
    | None => Js.Ok {| Calendar.items := []; Calendar.nextPageToken := None |}
    end.

(** The events of the pages up to the first error. *)
Fixpoint collected (pages : list (Js.result (list Event))) : list Event :=
  match pages with
  | Js.Ok pageItems :: rest => pageItems ++ collected rest
  | _ => []
  end.

(** The number of requests it takes to read these pages: one per page, the
    failing one included. *)
Fixpoint requestsFor (pages : list (Js.result (list Event))) : nat :=
  match pages with
  | Js.Ok _ :: rest => S (requestsFor rest)
  | Js.Throw _ :: _ => 1
  | [] => 0
  end.

(** The day numbers [first], [first + 1], ..., [count] of them. *)
Fixpoint dayRange (first : Z) (count : nat) : list Z :=
  match count with
  | O => []
  | S c => first :: dayRange (first + 1) c
  end.

(** The rows of a sheet without those whose row number, counted from
    [row], is marked by [drop]. *)
Fixpoint keepRows {A} (drop : nat -> bool) (row : nat) (rows : list A) : list A :=
  match rows with
  | [] => []
  | x :: t => if drop row then keepRows drop (S row) t else x :: keepRows drop (S row) t
  end.

(** Is the effect a read of a calendar? *)
Definition isRead (e : Effect) : bool :=
  match e with
  | GetEvents _ _ _ => true
  | _ => false
  end.

(** World [w'] comes from [w] by calendar reads alone: the sheets, the
    script properties and the clock are the same, and the trace has grown
    by reads. *)
Definition onlyReads (w w' : World) : Prop :=
  bookingRows w' = bookingRows w
  /\ properties w' = properties w
  /\ now w' = now w
  /\ exists reads, trace w' = trace w ++ reads /\ forallb isRead reads = true.

(* ================================================================== *)
(** * Properties                                                        *)
(* ================================================================== *)

(** ** Sanity checks of the runtime model *)

Example String_of_nat_ex :
  map Js.String_of_nat [0; 7; 14; 111]%nat = ["0"; "7"; "14"; "111"].
Proof. reflexivity. Qed.

Example dayNumber_ex :
  map Js.dayNumber ["2025-07-01"; "1970-01-01"; "2025-02-30"; "2025-13-01"; "2025-7-1"]
  = [Some 20270; Some 0; Some 20149; None; None].
Proof. vm_compute. reflexivity. Qed.

Example isoDate_ex :
  map Js.isoDate [20270; 0; 20149; -1; 2932897] =
  ["2025-07-01"; "1970-01-01"; "2025-03-02"; "1969-12-31"; "+010000-01-01"].
Proof. vm_compute. reflexivity. Qed.

Example newDate_taipei_ex :
  map (fun hm => Js.newDate_taipei "2025-07-15" (Some (fst hm)) (Some (snd hm)) 0)
      [(0, 0); (23, 30); (24, 0); (24, 30); (25, 0)]%nat
  = [Some 1752508800000; Some 1752593400000; Some 1752595200000; None; None].
Proof. vm_compute. reflexivity. Qed.

Example TIME_FORMAT_REGEX_ex :
  map Config.TIME_FORMAT_REGEX_test ["9:00"; "09:00"; "23:59"; "24:00"; "12:60"; "1200"]
  = [true; true; true; false; false; false].
Proof. reflexivity. Qed.

(* ------------------------------------------------------------------ *)
(** ** Pagination                                                       *)
(* ------------------------------------------------------------------ *)

Section Pagination.
Import Calendar.

Variable list_ : Upstream.
Variables startTime endTime : Js.Date.

(** More fuel does not change a result already reached. *)
Lemma paginationLoop_fuel_mono :
  forall fuel fuel' pageCount pageToken allEvents log r,
    paginationLoop fuel list_ startTime endTime pageCount pageToken allEvents log = Some r ->
    (fuel <= fuel')%nat ->
    paginationLoop fuel' list_ startTime endTime pageCount pageToken allEvents log = Some r.
Proof.
  induction fuel as [|fuel IH]; intros fuel' c tok acc log r H Hle; [discriminate|].
  destruct fuel' as [|fuel']; [lia|].
  simpl in *.
  destruct startTime, endTime; try assumption.
  destruct (list_ (S c) tok) as [response|]; try assumption.
  destruct (20 <? S c)%nat; try assumption.
  destruct (Js.truthy (nextPageToken response)); try assumption.
  apply IH; [assumption | lia].
Qed.

(** With [pageCount = 20 - n] at the top of an iteration, [n + 1] more
    iterations end the loop, each sending at most one request. *)
Lemma paginationLoop_bound :
  forall n fuel pageCount pageToken allEvents log,
    (pageCount + n = 20)%nat ->
    (n + 1 <= fuel)%nat ->
    exists events log',
      paginationLoop fuel list_ startTime endTime pageCount pageToken allEvents log
        = Some (events, log')
      /\ (List.length log' <= List.length log + n + 1)%nat.
Proof.
  induction n as [|n IH]; intros fuel c tok acc log Hc Hfuel;
    (destruct fuel as [|fuel]; [lia|]); simpl.
  - destruct startTime, endTime; try (eexists; eexists; split; [reflexivity|lia]).
    destruct (list_ (S c) tok) as [response|].
    + replace (20 <? S c)%nat with true by (symmetry; apply Nat.ltb_lt; lia).
      eexists; eexists; split; [reflexivity|]. rewrite length_app. simpl. lia.
    + eexists; eexists; split; [reflexivity|]. rewrite length_app. simpl. lia.
  - destruct startTime, endTime; try (eexists; eexists; split; [reflexivity|lia]).
    destruct (list_ (S c) tok) as [response|].
    + replace (20 <? S c)%nat with false by (symmetry; apply Nat.ltb_ge; lia).
      destruct (Js.truthy (nextPageToken response)).
      * destruct (IH fuel (S c) (nextPageToken response) (acc ++ items response)
                    (log ++ [tok])) as (events & log' & Hrun & Hlen); try lia.
        exists events, log'. split; [exact Hrun|].
        rewrite length_app in Hlen. simpl in Hlen. lia.
      * eexists; eexists; split; [reflexivity|]. rewrite length_app. simpl. lia.
    + eexists; eexists; split; [reflexivity|]. rewrite length_app. simpl. lia.
Qed.

End Pagination.

(** C5, as stated, fails: against an upstream whose [nextPageToken] never
    becomes empty the loop does not halt within 20 page fetches (it sends
    21 requests). *)
Lemma pagination_exceeds_20_fetches :
  ~ (exists fuel events log,
        Calendar.executePaginatedQuery_fuel fuel endlessUpstream (Some 0) (Some 86400000)
          = Some (events, log)
        /\ (List.length log <= 20)%nat).
Proof.
  intros (fuel & events & log & Hrun & Hlen).
  unfold Calendar.executePaginatedQuery_fuel in Hrun.
  apply paginationLoop_fuel_mono with (fuel' := (fuel + 21)%nat) in Hrun; [|lia].
  assert (H21 : Calendar.paginationLoop 21 endlessUpstream (Some 0) (Some 86400000)
                  0 None [] [] = Some ([], None :: repeat (Some "next") 20))
    by (vm_compute; reflexivity).
  apply paginationLoop_fuel_mono with (fuel' := (fuel + 21)%nat) in H21; [|lia].
  rewrite H21 in Hrun. injection Hrun as _ Hlog. subst log.
  simpl in Hlen. lia.
Qed.

(** C5 (amended): for every sequence of paginated responses, also one in
    which [nextPageToken] never becomes empty, and for every failure of a
    page request, [executePaginatedQuery] halts and returns the accumulated
    events after at most 21 page fetches (any fuel of 21 or more is enough). *)
Theorem pagination_halts_within_21_fetches :
  forall (list_ : Calendar.Upstream) (startTime endTime : Js.Date) (extra : nat),
  exists events log,
    Calendar.executePaginatedQuery_fuel (21 + extra) list_ startTime endTime
      = Some (events, log)
    /\ (List.length log <= 21)%nat.
Proof.
  intros list_ s e extra.
  destruct (paginationLoop_bound list_ s e 20 (21 + extra) 0 None [] [])
    as (events & log & Hrun & Hlen); try lia.
  exists events, log. split; [exact Hrun | simpl in Hlen; lia].
Qed.

(* ------------------------------------------------------------------ *)
(** ** The range check of the batch query                               *)
(* ------------------------------------------------------------------ *)

Lemma timeClip_Some : forall t t', Js.timeClip t = Some t' -> t' = t.
Proof.
  unfold Js.timeClip. intros t t' H.
  destruct (Z.abs t <=? Js.MAX_TIME_VALUE); congruence.
Qed.

(** A date-only string that parses is well-formed and denotes a UTC midnight. *)
Lemma newDate_dateOnly_Some :
  forall s t, Js.newDate_dateOnly s = Some t ->
    Batch.dateRegex_test s = true /\ exists n, Js.dayNumber s = Some n /\ t = n * Js.MS_PER_DAY.
Proof.
  unfold Js.newDate_dateOnly, Batch.dateRegex_test, Js.dayNumber. intros s t H.
  destruct (Js.parseYMD s) as [[[y m] d]|]; [|discriminate].
  split; [reflexivity|].
  destruct ((1 <=? m) && (m <=? 12) && (1 <=? d) && (d <=? 31)); [|discriminate].
  eexists. split; [reflexivity|]. now apply timeClip_Some in H.
Qed.

Lemma ceilDays_whole : forall n, Batch.ceilDays (n * Js.MS_PER_DAY) = n.
Proof.
  intros n. unfold Batch.ceilDays.
  rewrite Z.mod_mul by (unfold Js.MS_PER_DAY; lia).
  rewrite Z.eqb_refl. apply Z.div_mul. unfold Js.MS_PER_DAY; lia.
Qed.

(** The range check compares the difference of the two dates with 62. *)
Lemma validateRange_spec :
  forall startDate endDate ds de,
    Js.newDate_dateOnly startDate = Some (ds * Js.MS_PER_DAY) ->
    Js.newDate_dateOnly endDate = Some (de * Js.MS_PER_DAY) ->
    ds <= de ->
    Batch.validateRange startDate endDate =
      if de - ds >? Batch.maxDays then Js.Throw Batch.MSG_RANGE_TOO_LARGE
      else Js.Ok (ds * Js.MS_PER_DAY, de * Js.MS_PER_DAY).
Proof.
  intros startDate endDate ds de Hs He Hle.
  unfold Batch.validateRange.
  destruct (newDate_dateOnly_Some _ _ Hs) as [Rs _].
  destruct (newDate_dateOnly_Some _ _ He) as [Re _].
  rewrite Rs, Re, Hs, He. simpl.
  destruct (Z.gtb_spec (ds * Js.MS_PER_DAY) (de * Js.MS_PER_DAY));
    [unfold Js.MS_PER_DAY in *; lia|].
  replace (de * Js.MS_PER_DAY - ds * Js.MS_PER_DAY) with ((de - ds) * Js.MS_PER_DAY) by ring.
  now rewrite ceilDays_whole.
Qed.

(** C3, as stated, fails: the call for 2025-07-01 .. 2025-09-01 (63 dates)
    passes the range check; in the configured world with empty calendars
    the query succeeds and answers all 63 dates. *)
Lemma batch_63_dates_not_rejected :
  Batch.validateRange "2025-07-01" "2025-09-01" = Js.Ok (1751328000000, 1756684800000)
  /\ (let r := fst (Batch.handleBatchCheckTimeSlotAvailability
                      AdvancedCalendarService.getEvents TAIPEI
                      "2025-07-01" "2025-09-01" world0) in
      Batch.success r = true /\ Batch.error r <> Some Batch.MSG_RANGE_TOO_LARGE
      /\ List.length (Batch.data r) = 63%nat).
Proof. vm_compute. repeat split; congruence. Qed.

(** C3 (amended): for well-formed dates with the start not after the end,
    the batch query is rejected with the range-too-large error, before any
    calendar is read, when the end date is more than 62 days after the start
    date (more than 63 dates in the inclusive range); when the difference is
    at most 62 days the range check passes. *)
Theorem batch_rejects_difference_over_62_days :
  forall (getEvents : EventSource) (tz : Z) (startDate endDate : string) (ds de : Z)
         (w : World),
    Js.newDate_dateOnly startDate = Some (ds * Js.MS_PER_DAY) ->
    Js.newDate_dateOnly endDate = Some (de * Js.MS_PER_DAY) ->
    ds <= de ->
    (62 < de - ds ->
       Batch.handleBatchCheckTimeSlotAvailability getEvents tz startDate endDate w
       = (Batch.failure Batch.MSG_RANGE_TOO_LARGE, w))
    /\ (de - ds <= 62 ->
       Batch.validateRange startDate endDate
       = Js.Ok (ds * Js.MS_PER_DAY, de * Js.MS_PER_DAY)).
Proof.
  intros getEvents tz startDate endDate ds de w Hs He Hle.
  pose proof (validateRange_spec _ _ _ _ Hs He Hle) as Hv.
  unfold Batch.maxDays in Hv.
  split; intros Hd.
  - unfold Batch.handleBatchCheckTimeSlotAvailability. rewrite Hv.
    destruct (Z.gtb_spec (de - ds) 62); [reflexivity | lia].
  - rewrite Hv. destruct (Z.gtb_spec (de - ds) 62); [lia | reflexivity].
Qed.

Lemma batch_rejects_difference_over_62_days_witness :
  Batch.handleBatchCheckTimeSlotAvailability AdvancedCalendarService.getEvents TAIPEI
    "2025-07-01" "2025-09-02" world0
  = (Batch.failure Batch.MSG_RANGE_TOO_LARGE, world0)
  /\ Batch.validateRange "2025-07-01" "2025-09-01"
     = Js.Ok (20270 * Js.MS_PER_DAY, 20332 * Js.MS_PER_DAY).
Proof.
  split.
  - apply (batch_rejects_difference_over_62_days AdvancedCalendarService.getEvents TAIPEI
             "2025-07-01" "2025-09-02" 20270 20333 world0);
      [vm_compute; reflexivity | vm_compute; reflexivity | lia | lia].
  - apply (batch_rejects_difference_over_62_days AdvancedCalendarService.getEvents TAIPEI
             "2025-07-01" "2025-09-01" 20270 20332 world0);
      [vm_compute; reflexivity | vm_compute; reflexivity | lia | lia].
Defined.

(* ------------------------------------------------------------------ *)
(** ** Objects used as maps                                             *)
(* ------------------------------------------------------------------ *)

Section Objects.
Import Availability.
Context {A : Type}.

Lemma objGet_objSet_same : forall (k : string) (v : A) (o : Obj A),
  objGet k (objSet k v o) = Some v.
Proof.
  intros k v o. induction o as [|[k' v'] o IH]; simpl.
  - now rewrite String.eqb_refl.
  - destruct (String.eqb k k') eqn:E; simpl; rewrite ?String.eqb_refl, ?E; auto.
Qed.

Lemma objGet_objSet_other : forall (k k' : string) (v : A) (o : Obj A),
  k <> k' -> objGet k (objSet k' v o) = objGet k o.
Proof.
  intros k k' v o Hne. induction o as [|[k2 v2] o IH]; simpl.
  - apply String.eqb_neq in Hne. now rewrite Hne.
  - destruct (String.eqb k' k2) eqn:E; simpl.
    + apply String.eqb_eq in E. subst k2.
      apply String.eqb_neq in Hne. now rewrite Hne.
    + destruct (String.eqb k k2); auto.
Qed.

(** Storing the same record under every key of a list. *)
Lemma objGet_fold_const : forall (v : A) (keys : list string) (o : Obj A) (k : string),
  In k keys ->
  objGet k (fold_left (fun acc key => objSet key v acc) keys o) = Some v.
Proof.
  intros v keys. 
  assert (Hkeep : forall keys o k, objGet k o = Some v ->
            objGet k (fold_left (fun acc key => objSet key v acc) keys o) = Some v).
  { intros keys0; induction keys0 as [|key keys0 IH]; intros o k Hk; simpl; [exact Hk|].
    apply IH. destruct (String.eqb_spec k key) as [->|Hne].
    - apply objGet_objSet_same.
    - now rewrite objGet_objSet_other. }
  induction keys as [|key keys IH]; intros o k Hin; simpl; [contradiction|].
  destruct Hin as [->|Hin].
  - apply Hkeep, objGet_objSet_same.
  - now apply IH.
Qed.

End Objects.

(* ------------------------------------------------------------------ *)
(** ** The booking commit                                               *)
(* ------------------------------------------------------------------ *)

Section Commit.
Import Availability Booking.

Lemma truthy_orEmpty : forall v, Js.truthy v = true -> v = Some (orEmpty v).
Proof. intros [s|] H; [reflexivity | discriminate]. Qed.

(** What a booking that passes the validation looks like. *)
Lemma validateBooking_Ok : forall b d t,
  validateBooking b = Js.Ok (d, t) ->
  date b = Some d /\ time b = Some t
  /\ Js.truthy (Some d) = true /\ Js.truthy (Some t) = true
  /\ DATE_REGEX_test d = true /\ Config.TIME_FORMAT_REGEX_test t = true.
Proof.
  unfold validateBooking, missingField. intros b d t H.
  destruct (Js.truthy (customerName b)); simpl in H; [|discriminate].
  destruct (Js.truthy (phone b)); simpl in H; [|discriminate].
  destruct (Js.truthy (date b)) eqn:Hd; simpl in H; [|discriminate].
  destruct (Js.truthy (time b)) eqn:Ht; simpl in H; [|discriminate].
  destruct (DATE_REGEX_test (orEmpty (date b))) eqn:Rd; simpl in H; [|discriminate].
  destruct (hasTZ (orEmpty (date b))); simpl in H; [discriminate|].
  destruct (Config.TIME_FORMAT_REGEX_test (orEmpty (time b))) eqn:Rt; simpl in H;
    [|discriminate].
  injection H as <- <-.
  rewrite <- (truthy_orEmpty _ Hd), <- (truthy_orEmpty _ Ht).
  repeat split; assumption.
Qed.

(** A booking with a missing field or a malformed date or time is the
    one on which the validation throws. *)
Lemma validateBooking_Throw : forall b,
  missingField b <> None
  \/ DATE_REGEX_test (orEmpty (date b)) = false
  \/ Config.TIME_FORMAT_REGEX_test (orEmpty (time b)) = false ->
  exists message, validateBooking b = Js.Throw message.
Proof.
  unfold validateBooking. intros b H.
  destruct (missingField b) as [field|]; [eexists; reflexivity|].
  destruct H as [H|[H|H]]; [congruence| |].
  - rewrite H. simpl. eexists; reflexivity.
  - destruct (negb (DATE_REGEX_test (orEmpty (date b))) || hasTZ (orEmpty (date b)));
      [eexists; reflexivity|].
    rewrite H. simpl. eexists; reflexivity.
Qed.

(** The re-validation in a configured world: one fetch of the day's
    window of the booking calendar, and the single-slot check on the
    events just fetched. *)
Lemma verifyBackend_configured : forall w d t cal,
  Js.truthy (Some d) = true -> Js.truthy (Some t) = true ->
  Config.calendarId (properties w) = Js.Ok cal ->
  cal <> Config.PLACEHOLDER_CALENDAR_ID ->
  let range := Utils.getOptimizedQueryRange d in
  let status := checkSingleTimeSlotAvailability
                  (AdvancedCalendarService.queryEvents w cal (fst range) (snd range)) t d in
  verifyBackendTimeSlotAvailability AdvancedCalendarService.getEvents d t w
  = ({| checkAvailable := available status;
        errorCode := if available status then None else Some "TIME_SLOT_CONFLICT";
        slotStatus := Some status |},
     emit (GetEvents cal (fst range) (snd range)) w).
Proof.
  intros w d t cal Hd Ht Hcal Hne range status.
  unfold verifyBackendTimeSlotAvailability, verifyBackend_try.
  rewrite Hd, Ht, Hcal. simpl negb. cbv iota.
  apply String.eqb_neq in Hne. rewrite Hne.
  unfold Utils.createTaipeiDateFromYMD. rewrite Hd.
  unfold checkTimeSlotsAvailability, AdvancedCalendarService.getEvents.
  fold range. destruct range as [s e] eqn:Hr.
  unfold status. simpl. rewrite String.eqb_refl. reflexivity.
Qed.

(** The re-validation never touches the booking sheets. *)
Lemma verifyBackend_rows : forall w d t,
  bookingRows (snd (verifyBackendTimeSlotAvailability
                      AdvancedCalendarService.getEvents d t w)) = bookingRows w.
Proof.
  intros w d t.
  unfold verifyBackendTimeSlotAvailability, verifyBackend_try.
  destruct (negb (Js.truthy (Some d)) || negb (Js.truthy (Some t))); [reflexivity|].
  destruct (Config.calendarId (properties w)) as [cal|]; [|reflexivity].
  destruct (String.eqb cal Config.PLACEHOLDER_CALENDAR_ID); [reflexivity|].
  destruct (Utils.createTaipeiDateFromYMD d); [|reflexivity].
  unfold checkTimeSlotsAvailability, AdvancedCalendarService.getEvents.
  destruct (Utils.getOptimizedQueryRange d) as [s e].
  match goal with |- context [objGet t ?m] => destruct (objGet t m) end; reflexivity.
Qed.

End Commit.

Section CommitProtocol.
Import Availability Booking.

(** C2: with the lock obtained and a well-formed submission, the commit
    re-runs the single-slot check on events fetched from the booking
    calendar at that moment, between taking and releasing the lock; when
    the slot is reported unavailable the result is a failure carrying the
    slot status as conflict details, and no row is appended. *)
Theorem save_booking_rejects_unavailable_slot :
  forall (b : BookingData) (w : World) (d t : string),
    lockFree w = true ->
    validateBooking b = Js.Ok (d, t) ->
    let held := emit (WaitLock true) w in
    let check := verifyBackendTimeSlotAvailability AdvancedCalendarService.getEvents d t held in
    checkAvailable (fst check) = false ->
    let final := emit ReleaseLock (snd check) in
    (exists code,
        handleSaveBooking AdvancedCalendarService.getEvents (Some b) w
        = (Js.Ok {| success := false; error := Some code;
                    conflictDetails := slotStatus (fst check) |}, final))
    /\ bookingRows final = bookingRows w
    /\ (forall cal,
          Config.calendarId (properties w) = Js.Ok cal ->
          cal <> Config.PLACEHOLDER_CALENDAR_ID ->
          let range := Utils.getOptimizedQueryRange d in
          let status :=
            checkSingleTimeSlotAvailability
              (AdvancedCalendarService.queryEvents w cal (fst range) (snd range)) t d in
          slotStatus (fst check) = Some status
          /\ trace final
             = trace w ++ [WaitLock true; GetEvents cal (fst range) (snd range); ReleaseLock]).
Proof.
  intros b w d t Hlock Hvalid held check Hunavailable final.
  split; [|split].
  - unfold handleSaveBooking, saveBooking_try. rewrite Hlock, Hvalid. simpl negb. cbv iota.
    fold held. fold check. destruct check as [c w1] eqn:Hc. simpl in Hunavailable.
    rewrite Hunavailable. simpl.
    destruct (errorCode c) as [code|];
      [destruct (negb (String.eqb code ""))|]; eexists; reflexivity.
  - unfold final, check. simpl. now rewrite verifyBackend_rows.
  - intros cal Hcal Hne range status.
    destruct (validateBooking_Ok _ _ _ Hvalid) as (_ & _ & Hd & Ht & _).
    pose proof (verifyBackend_configured held d t cal Hd Ht Hcal Hne) as Hv.
    fold check in Hv. fold range in Hv. unfold final. rewrite Hv. simpl.
    split; [reflexivity|]. now rewrite <- !app_assoc.
Qed.

Lemma save_booking_rejects_unavailable_slot_witness :
  let w := worldWith [eventBetween (on_2025_07_15 14 0) (on_2025_07_15 15 0)] in
  let r := handleSaveBooking AdvancedCalendarService.getEvents (Some completeBooking) w in
  (exists code details final,
      r = (Js.Ok {| success := false; error := Some code; conflictDetails := details |}, final))
  /\ bookingRows (snd r) = bookingRows w
  /\ trace (snd r)
     = [WaitLock true;
        GetEvents "bookings@example.com" (on_2025_07_15 8 0) (Some 1752588059000);
        ReleaseLock].
Proof.
  intros w r.
  destruct (save_booking_rejects_unavailable_slot completeBooking w "2025-07-15" "14:00")
    as ((code & Hr) & Hrows & Hfresh);
    [reflexivity | reflexivity | vm_compute; reflexivity |].
  destruct (Hfresh "bookings@example.com") as [_ Htrace];
    [reflexivity | discriminate |].
  split; [|split].
  - exists code. eexists. eexists. exact Hr.
  - unfold r. rewrite Hr. exact Hrows.
  - unfold r. rewrite Hr. exact Htrace.
Defined.

(** C6, as stated, fails: a submission without a customer name is
    rejected only after the lock has been requested and obtained; when the
    lock cannot be obtained the same submission gets the lock-timeout
    result, not a validation error. *)
Lemma validation_happens_after_lock :
  (let r := handleSaveBooking AdvancedCalendarService.getEvents (Some namelessBooking) world0 in
   fst r = Js.Throw "缺少必要欄位: customerName"
   /\ trace (snd r) = [WaitLock true; ReleaseLock])
  /\ (let busy := {| properties := properties world0; lockFree := false; now := now world0;
                     Calendar_Events_list := Calendar_Events_list world0;
                     CalendarApp_getEvents := CalendarApp_getEvents world0;
                     customerLineId := customerLineId world0;
                     bookingRows := []; trace := [] |} in
      let r := handleSaveBooking AdvancedCalendarService.getEvents (Some namelessBooking) busy in
      fst r = Js.Ok {| success := false; error := Some "LOCK_TIMEOUT";
                       conflictDetails := None |}
      /\ trace (snd r) = [WaitLock false]).
Proof. vm_compute. repeat split. Qed.

(** C6 (amended): a submission that is missing a required field or has a
    malformed date or time is rejected with a validation error after the
    lock has been obtained and before any calendar is read or any row is
    written, and the lock is released; if the lock cannot be obtained the
    submission gets the lock-timeout result without being validated. *)
Theorem save_booking_validates_under_lock :
  forall (getEvents : EventSource) (b : BookingData) (w : World),
    missingField b <> None
    \/ DATE_REGEX_test (orEmpty (date b)) = false
    \/ Config.TIME_FORMAT_REGEX_test (orEmpty (time b)) = false ->
    exists message,
      validateBooking b = Js.Throw message
      /\ handleSaveBooking getEvents (Some b) w
         = if lockFree w
           then (Js.Throw message, emit ReleaseLock (emit (WaitLock true) w))
           else (Js.Ok {| success := false; error := Some "LOCK_TIMEOUT";
                          conflictDetails := None |},
                 emit (WaitLock false) w).
Proof.
  intros getEvents b w Hbad.
  destruct (validateBooking_Throw b Hbad) as [message Hv].
  exists message. split; [exact Hv|].
  unfold handleSaveBooking, saveBooking_try. rewrite Hv.
  destruct (lockFree w); reflexivity.
Qed.

Lemma save_booking_validates_under_lock_witness :
  exists message,
    validateBooking namelessBooking = Js.Throw message
    /\ handleSaveBooking downSource (Some namelessBooking) world0
       = (Js.Throw message, emit ReleaseLock (emit (WaitLock true) world0)).
Proof.
  destruct (save_booking_validates_under_lock downSource namelessBooking world0)
    as (message & Hv & Hr); [left; discriminate|].
  exists message. split; [exact Hv | exact Hr].
Defined.

End CommitProtocol.

(* ------------------------------------------------------------------ *)
(** ** The availability check                                           *)
(* ------------------------------------------------------------------ *)

Section AvailabilityCheck.
Import Availability.

(** An event that the loop skips or finds free of overlap leaves both
    accumulators as they are. *)
Lemma scanEvents_skip : forall event rest slotStart slotEnd q count acc,
  conflicts slotStart slotEnd q event = Js.Ok false ->
  scanEvents (event :: rest) slotStart slotEnd q count acc
  = scanEvents rest slotStart slotEnd q count acc.
Proof. intros. simpl. rewrite H. reflexivity. Qed.

Lemma scanEvents_app : forall l1 l2 slotStart slotEnd q count acc,
  scanEvents (l1 ++ l2) slotStart slotEnd q count acc
  = Js.bind (scanEvents l1 slotStart slotEnd q count acc)
      (fun r => scanEvents l2 slotStart slotEnd q (fst r) (snd r)).
Proof.
  induction l1 as [|event l1 IH]; intros l2 s e q count acc; simpl; [reflexivity|].
  destruct (conflicts s e q event) as [[|]|]; simpl; auto.
Qed.

(** An event that starts on another Taipei date is never a conflict. *)
Lemma conflicts_other_date : forall slotStart slotEnd q event d,
  Utils.getTaipeiDateString (getStartTime event) = Js.Ok d ->
  d <> q ->
  conflicts slotStart slotEnd q event = Js.Ok false.
Proof.
  intros s e q event d Hd Hne. unfold conflicts. rewrite Hd. simpl.
  apply String.eqb_neq in Hne. now rewrite Hne.
Qed.

(** An event that starts on the query date conflicts exactly when it
    overlaps the half-open slot window. *)
Lemma conflicts_same_date : forall s e q event a b,
  Utils.getTaipeiDateString (getStartTime event) = Js.Ok q ->
  getStartTime event = Some a -> getEndTime event = Some b ->
  conflicts (Some s) (Some e) q event = Js.Ok ((s <? b) && (a <? e)).
Proof.
  intros s e q event a b Hd Ha Hb. unfold conflicts. rewrite Hd. simpl.
  rewrite String.eqb_refl, Ha, Hb. reflexivity.
Qed.

(** Whenever both ends of the slot window are valid dates, the end is
    the start plus the default duration. *)
Lemma slotWindow_duration : forall timeSlot q s e,
  slotWindow timeSlot q = (Some s, Some e) ->
  e = s + Z.of_nat Config.defaultDuration * Js.MS_PER_HOUR.
Proof.
  unfold slotWindow, Js.newDate_taipei. intros timeSlot q s e H.
  destruct (Utils.splitHourMinute timeSlot) as [hour minute].
  destruct (Js.dayNumber q) as [n|]; [|discriminate].
  destruct hour as [h|]; [|discriminate]. destruct minute as [m|]; [|discriminate].
  simpl option_map in H. cbv iota in H.
  injection H as Hs He.
  match type of Hs with (if ?c then _ else _) = _ => destruct c; [|discriminate] end.
  match type of He with (if ?c then _ else _) = _ => destruct c; [|discriminate] end.
  apply timeClip_Some in Hs, He. subst s e.
  unfold Config.defaultDuration, Js.MS_PER_HOUR. lia.
Qed.

(** On an event whose start has a date string, the test of the loop body
    is the overlap test. *)
Lemma conflicts_overlaps : forall s e q event d,
  Utils.getTaipeiDateString (getStartTime event) = Js.Ok d ->
  conflicts (Some s) (Some e) q event = Js.Ok (overlaps s e q event).
Proof.
  intros s e q event d Hd. unfold conflicts, overlaps, startsOn. rewrite Hd. simpl.
  destruct (String.eqb d q); reflexivity.
Qed.

(** On events whose start is a valid date the scan never throws, and it
    counts exactly the events that start on the query date and overlap the
    window. *)
Lemma scanEvents_counts_overlaps : forall events s e q count acc,
  Forall (fun event => exists d, Utils.getTaipeiDateString (getStartTime event) = Js.Ok d)
         events ->
  exists conflicting,
    scanEvents events (Some s) (Some e) q count acc
    = Js.Ok (count + Z.of_nat (List.length (filter (overlaps s e q) events)), conflicting).
Proof.
  induction events as [|event events IH]; intros s e q count acc Hall.
  - exists acc. simpl. now rewrite Z.add_0_r.
  - inversion Hall as [|? ? [d Hd] Hrest]; subst.
    cbn [scanEvents filter]. rewrite (conflicts_overlaps s e q event d Hd).
    cbn [Js.bind]. destruct (overlaps s e q event).
    + destruct (IH s e q (count + 1) (acc ++
                  [{| conflictTitle := getTitle event; conflictStart := getStartTime event;
                      conflictEnd := getEndTime event |}]) Hrest) as [c Hc].
      exists c. rewrite Hc. f_equal. f_equal. cbn [List.length]. lia.
    + exact (IH s e q count acc Hrest).
Qed.

(** The part of C1 that the code satisfies: when both ends of the slot
    window are valid dates, the end is the start plus the duration, the
    conflict count is the number of events of that date with
    [slotStart < eventEnd] and [slotEnd > eventStart], and the slot is
    available exactly when that number is zero. *)
Lemma check_counts_overlaps : forall events timeSlot q s e,
  slotWindow timeSlot q = (Some s, Some e) ->
  Forall (fun event => exists d, Utils.getTaipeiDateString (getStartTime event) = Js.Ok d)
         events ->
  let r := checkSingleTimeSlotAvailability events timeSlot q in
  e = s + Z.of_nat Config.defaultDuration * Js.MS_PER_HOUR
  /\ conflictCount r = Z.of_nat (List.length (filter (overlaps s e q) events))
  /\ available r = (conflictCount r =? 0).
Proof.
  intros events timeSlot q s e Hw Hall r.
  split; [exact (slotWindow_duration _ _ _ _ Hw)|].
  unfold r, checkSingleTimeSlotAvailability. rewrite Hw.
  destruct (scanEvents_counts_overlaps events s e q 0 [] Hall) as [c Hc].
  rewrite Hc. simpl. split; reflexivity.
Qed.

(** C10: a booking event whose start falls on another Taipei date than
    the query date contributes no conflict to any slot of the query date:
    the check gives the same record with or without it, in both variants
    of the single-slot check; alone, it leaves the slot available. *)
Theorem other_day_event_is_no_conflict :
  forall (before after : list Event) (event : Event)
         (timeSlot queryDateStr eventDateStr : string),
    Utils.getTaipeiDateString (getStartTime event) = Js.Ok eventDateStr ->
    eventDateStr <> queryDateStr ->
    checkSingleTimeSlotAvailability (before ++ event :: after) timeSlot queryDateStr
    = checkSingleTimeSlotAvailability (before ++ after) timeSlot queryDateStr
    /\ checkSingleTimeSlotAvailabilityFromEvents (before ++ event :: after) timeSlot queryDateStr
       = checkSingleTimeSlotAvailabilityFromEvents (before ++ after) timeSlot queryDateStr
    /\ available (checkSingleTimeSlotAvailability [event] timeSlot queryDateStr) = true
    /\ conflictCount (checkSingleTimeSlotAvailability [event] timeSlot queryDateStr) = 0.
Proof.
  intros before after event timeSlot q d Hd Hne.
  assert (Hscan : forall s e count acc,
             scanEvents (before ++ event :: after) s e q count acc
             = scanEvents (before ++ after) s e q count acc).
  { intros s e count acc. rewrite !scanEvents_app.
    destruct (scanEvents before s e q count acc) as [[c l]|]; simpl; [|reflexivity].
    apply scanEvents_skip, (conflicts_other_date _ _ _ _ _ Hd Hne). }
  unfold checkSingleTimeSlotAvailability, checkSingleTimeSlotAvailabilityFromEvents.
  destruct (slotWindow timeSlot q) as [s e].
  rewrite !Hscan. repeat split; try reflexivity.
  - rewrite (scanEvents_skip event [] s e q 0 []
               (conflicts_other_date _ _ _ _ _ Hd Hne)). reflexivity.
  - rewrite (scanEvents_skip event [] s e q 0 []
               (conflicts_other_date _ _ _ _ _ Hd Hne)). reflexivity.
Qed.

(** An event from 23:00 on 14 July to 01:00 on 15 July does not make the
    00:00 slot of 15 July unavailable. *)
Lemma other_day_event_is_no_conflict_witness :
  let overnight := eventBetween (Some (20283 * Js.MS_PER_DAY + 15 * Js.MS_PER_HOUR))
                                (on_2025_07_15 1 0) in
  available (checkSingleTimeSlotAvailability [overnight] "00:00" "2025-07-15") = true
  /\ conflictCount (checkSingleTimeSlotAvailability [overnight] "00:00" "2025-07-15") = 0.
Proof.
  intros overnight.
  apply (other_day_event_is_no_conflict [] [] overnight "00:00" "2025-07-15" "2025-07-14");
    [vm_compute; reflexivity | discriminate].
Defined.

(** C1 at the failing input: on 2025-07-15 a booking from 21:00 to 23:45
    starts on the query date and overlaps the one-hour slot that begins at
    23:30 (slot start < event end, slot start + 1 h > event start), yet
    the end of the slot window is an Invalid Date, no conflict is counted
    and the slot is reported available. *)
Theorem slot_2330_misses_overlapping_booking :
  let event := eventBetween (on_2025_07_15 21 0) (on_2025_07_15 23 45) in
  Utils.getTaipeiDateString (getStartTime event) = Js.Ok "2025-07-15"
  /\ slotWindow "23:30" "2025-07-15" = (on_2025_07_15 23 30, None)
  /\ Js.lt (on_2025_07_15 23 30) (getEndTime event) = true
  /\ Js.gt (Some (20284 * Js.MS_PER_DAY + 23 * Js.MS_PER_HOUR + 30 * Js.MS_PER_MINUTE
                  - TAIPEI + Z.of_nat Config.defaultDuration * Js.MS_PER_HOUR))
           (getStartTime event) = true
  /\ checkSingleTimeSlotAvailability [event] "23:30" "2025-07-15"
     = {| available := true; conflictCount := 0;
          conflictingEvents := Some []; reason := Bookable |}.
Proof. vm_compute. repeat split. Qed.

(** The same booking is found by the slots whose window ends by midnight. *)
Example slot_2300_sees_the_booking :
  let event := eventBetween (on_2025_07_15 21 0) (on_2025_07_15 23 45) in
  map (fun slot => conflictCount (checkSingleTimeSlotAvailability [event] slot "2025-07-15"))
      ["20:00"; "20:30"; "22:30"; "23:00"]
  = [0; 1; 1; 1].
Proof. vm_compute. reflexivity. Qed.

(** Scenario C: slot 10:00, booking 09:30-10:30. *)
Example scenario_C :
  let r := checkSingleTimeSlotAvailability
             [eventBetween (on_2025_07_15 9 30) (on_2025_07_15 10 30)] "10:00" "2025-07-15" in
  available r = false /\ conflictCount r = 1.
Proof. vm_compute. split; reflexivity. Qed.

(** Bookings that only touch the slot window do not conflict. *)
Example touching_bookings_do_not_conflict :
  checkSingleTimeSlotAvailability
    [eventBetween (on_2025_07_15 9 0) (on_2025_07_15 10 0);
     eventBetween (on_2025_07_15 11 0) (on_2025_07_15 12 0)] "10:00" "2025-07-15"
  = {| available := true; conflictCount := 0;
       conflictingEvents := Some []; reason := Bookable |}.
Proof. vm_compute. reflexivity. Qed.

End AvailabilityCheck.

(* ------------------------------------------------------------------ *)
(** ** Failures of the availability check                               *)
(* ------------------------------------------------------------------ *)

Section FailClosed.
Import Availability Booking.

(** C9, as stated, fails for the re-validation: when the re-validation
    itself throws (here: the booking calendar is not configured) the
    record it returns carries no slot status, hence no [conflictCount]. *)
Lemma revalidation_error_has_no_conflict_count :
  ~ (forall (w : World) (d t message : string),
        fst (verifyBackend_try AdvancedCalendarService.getEvents d t w) = Js.Throw message ->
        exists status,
          slotStatus (fst (verifyBackendTimeSlotAvailability
                             AdvancedCalendarService.getEvents d t w)) = Some status
          /\ conflictCount status = -1).
Proof.
  intros H.
  destruct (H unconfiguredWorld "2025-07-15" "14:00" Config.MSG_CALENDAR_ID_MISSING)
    as (status & Hstatus & _); [reflexivity|].
  vm_compute in Hstatus. discriminate.
Qed.

(** C9 (amended): the availability check is fail-closed for the errors
    raised inside it.  If the check of a slot throws, its record is not
    available with [conflictCount = -1]; if the re-validation before the
    commit throws, the record it returns is not available, with error code
    TIME_SLOT_CHECK_FAILED and no slot status.  A slot is reported
    available only when the scan of the fetched events ended without an
    error and counted no conflict. *)
Theorem availability_check_fails_closed :
  (forall (events : list Event) (timeSlot queryDateStr message : string),
      scanEvents events (fst (slotWindow timeSlot queryDateStr))
                 (snd (slotWindow timeSlot queryDateStr)) queryDateStr 0 []
      = Js.Throw message ->
      let r := checkSingleTimeSlotAvailability events timeSlot queryDateStr in
      let r' := checkSingleTimeSlotAvailabilityFromEvents events timeSlot queryDateStr in
      available r = false /\ conflictCount r = -1
      /\ available r' = false /\ conflictCount r' = -1)
  /\ (forall (d t message : string) (w w' : World),
      verifyBackend_try AdvancedCalendarService.getEvents d t w = (Js.Throw message, w') ->
      let r := fst (verifyBackendTimeSlotAvailability
                      AdvancedCalendarService.getEvents d t w) in
      checkAvailable r = false
      /\ errorCode r = Some "TIME_SLOT_CHECK_FAILED"
      /\ slotStatus r = None)
  /\ (forall (events : list Event) (timeSlot queryDateStr : string),
      available (checkSingleTimeSlotAvailability events timeSlot queryDateStr) = true ->
      exists conflicting,
        scanEvents events (fst (slotWindow timeSlot queryDateStr))
                   (snd (slotWindow timeSlot queryDateStr)) queryDateStr 0 []
        = Js.Ok (0, conflicting)).
Proof.
  split; [|split].
  - intros events timeSlot queryDateStr message H r r'.
    unfold r, r', checkSingleTimeSlotAvailability, checkSingleTimeSlotAvailabilityFromEvents.
    destruct (slotWindow timeSlot queryDateStr) as [s e]. cbn [fst snd] in H. rewrite H.
    repeat split.
  - intros d t message w w' H r. unfold r, verifyBackendTimeSlotAvailability.
    rewrite H. repeat split.
  - intros events timeSlot q Havailable.
    unfold checkSingleTimeSlotAvailability in Havailable.
    destruct (slotWindow timeSlot q) as [s e]. cbn [fst snd].
    destruct (scanEvents events s e q 0 []) as [[count conflicting]|];
      cbn [available checkFailed] in Havailable; [|discriminate Havailable].
    apply Z.eqb_eq in Havailable. subst count. now exists conflicting.
Qed.

Lemma availability_check_fails_closed_witness :
  (available (checkSingleTimeSlotAvailability [brokenEvent] "10:00" "2025-07-15") = false
   /\ conflictCount (checkSingleTimeSlotAvailability [brokenEvent] "10:00" "2025-07-15") = -1)
  /\ (checkAvailable (fst (verifyBackendTimeSlotAvailability AdvancedCalendarService.getEvents
                             "2025-07-15" "14:00" unconfiguredWorld)) = false
      /\ errorCode (fst (verifyBackendTimeSlotAvailability AdvancedCalendarService.getEvents
                           "2025-07-15" "14:00" unconfiguredWorld))
         = Some "TIME_SLOT_CHECK_FAILED")
  /\ (exists conflicting,
        scanEvents [] (fst (slotWindow "10:00" "2025-07-15"))
                   (snd (slotWindow "10:00" "2025-07-15")) "2025-07-15" 0 []
        = Js.Ok (0, conflicting)).
Proof.
  destruct availability_check_fails_closed as (Hslot & Hverify & Honly).
  split; [|split].
  - destruct (Hslot [brokenEvent] "10:00" "2025-07-15" "Invalid time value")
      as (Ha & Hc & _); [reflexivity|]. split; assumption.
  - destruct (Hverify "2025-07-15" "14:00" Config.MSG_CALENDAR_ID_MISSING
                unconfiguredWorld unconfiguredWorld) as (Ha & Hc & _); [reflexivity|].
    split; assumption.
  - apply (Honly [] "10:00" "2025-07-15"). reflexivity.
Defined.

(** What the event source does with a calendar that cannot be reached is
    decided before the check sees it: [getEventsDirectly] answers a failed
    list request with the fallback, and the fallback answers its own
    failure with no events.  The check then runs on an empty list: the
    slot is reported available, and a commit writes the row. *)
Example unreachable_calendar_reads_as_empty :
  fst (AdvancedCalendarService.getEvents "bookings@example.com"
         (fst (Utils.getOptimizedQueryRange "2025-07-15"))
         (snd (Utils.getOptimizedQueryRange "2025-07-15")) outageWorld)
  = Js.Ok []
  /\ option_map available
       (objGet "14:00" (fst (checkTimeSlotsAvailability AdvancedCalendarService.getEvents
                               "2025-07-15" ["14:00"] "bookings@example.com" outageWorld)))
     = Some true
  /\ (let r := handleSaveBooking AdvancedCalendarService.getEvents (Some completeBooking)
                 outageWorld in
      option_map success (match fst r with Js.Ok res => Some res | Js.Throw _ => None end)
      = Some true
      /\ List.length (bookingRows (snd r)) = 1%nat).
Proof. vm_compute. repeat split. Qed.

End FailClosed.

(* ------------------------------------------------------------------ *)
(** ** The slot extractor                                               *)
(* ------------------------------------------------------------------ *)

Section SlotExtractor.
Import RegExp Extractor.

(** The correction of a parsed hour: with an afternoon marker in the
    title an hour below 12 gains 12; otherwise, with a morning marker, hour
    12 becomes 0. *)
Lemma correctHour_afternoon : forall title h,
  includes title AFTERNOON = true -> (h < 12)%nat ->
  correctHour title (Some h) = Some (h + 12)%nat.
Proof.
  intros title h Hin Hlt. unfold correctHour. rewrite Hin.
  apply Nat.ltb_lt in Hlt. now rewrite Hlt.
Qed.

Lemma correctHour_morning_noon : forall title,
  includes title MORNING = true ->
  correctHour title (Some 12%nat) = Some 0%nat.
Proof.
  intros title Hin. unfold correctHour. rewrite Hin.
  now rewrite andb_false_r.
Qed.

Lemma correctHour_unmarked : forall title h,
  includes title AFTERNOON = false -> includes title MORNING = false ->
  correctHour title (Some h) = Some h.
Proof. intros title h Ha Hm. unfold correctHour. now rewrite Ha, Hm. Qed.

(** Scenario A. *)
Example scenario_A : forall tz start,
  extractTimeSlotsFromTitle tz (utf16 "下午2:00") start
  = [{| time := "14:00"; period := Afternoon; slotAvailable := true;
        originalTitle := utf16 "下午2:00" |}].
Proof. intros tz start. vm_compute. reflexivity. Qed.

Example morning_noon_is_midnight : forall tz start,
  map time (extractTimeSlotsFromTitle tz (utf16 "上午12:30") start) = ["00:30"].
Proof. intros tz start. vm_compute. reflexivity. Qed.

(** C4 at the failing input: the title of an evening slot at 8 o'clock
    contains the evening marker and the parsed hour 8 is below 12, yet no
    12 is added: the slot extracted is 08:00, classified as morning. *)
Theorem evening_marker_gets_no_correction :
  forall (tz : Z) (start : option Js.Date),
    includes (utf16 "晚上8:00") EVENING = true
    /\ correctHour (utf16 "晚上8:00") (Some 8%nat) = Some 8%nat
    /\ extractTimeSlotsFromTitle tz (utf16 "晚上8:00") start
       = [{| time := "08:00"; period := Morning; slotAvailable := true;
             originalTitle := utf16 "晚上8:00" |}].
Proof. intros tz start. vm_compute. repeat split. Qed.

(** A title in which no pattern matches yields no time. *)
Lemma foundInTitle_no_match : forall title,
  (forall p, In p timePatterns -> execAll p title = []) ->
  foundInTitle title = [].
Proof.
  intros title H. unfold foundInTitle, timePatterns in *.
  cbn [fold_left].
  repeat (rewrite H by (simpl; auto 10); cbn [fold_left]).
  reflexivity.
Qed.

(** C8: the extractor is a total function from titles and start times to
    lists of slots.  When no time pattern matches the title it returns no
    slot if no start time is given, and otherwise exactly one slot, whose
    time is the HH:MM of the event start; a start at 09:15 gives the single
    slot 09:15 of the morning. *)
Theorem extractor_falls_back_to_start_time :
  forall (tz : Z) (title : Title),
    (forall p, In p timePatterns -> execAll p title = []) ->
    extractTimeSlotsFromTitle tz title None = []
    /\ (forall start : Js.Date,
          extractTimeSlotsFromTitle tz title (Some start)
          = [{| time := formatTime (Utils.getHours tz start) (Utils.getMinutes tz start);
                period := periodOf (formatTime (Utils.getHours tz start)
                                               (Utils.getMinutes tz start));
                slotAvailable := true;
                originalTitle := title |}])
    /\ (forall start : Js.Date,
          Utils.getHours tz start = Some 9%nat ->
          Utils.getMinutes tz start = Some 15%nat ->
          extractTimeSlotsFromTitle tz title (Some start)
          = [{| time := "09:15"; period := Morning; slotAvailable := true;
                originalTitle := title |}]).
Proof.
  intros tz title Hnone.
  pose proof (foundInTitle_no_match title Hnone) as Hfound.
  unfold extractTimeSlotsFromTitle. rewrite Hfound.
  split; [reflexivity|]. split.
  - intros start. reflexivity.
  - intros start Hh Hm. rewrite Hh, Hm. reflexivity.
Qed.

Lemma extractor_falls_back_to_start_time_witness :
  extractTimeSlotsFromTitle TAIPEI (utf16 "open for booking") None = []
  /\ extractTimeSlotsFromTitle TAIPEI (utf16 "open for booking") (Some (on_2025_07_15 9 15))
     = [{| time := "09:15"; period := Morning; slotAvailable := true;
           originalTitle := utf16 "open for booking" |}].
Proof.
  destruct (extractor_falls_back_to_start_time TAIPEI (utf16 "open for booking"))
    as (Hnone & _ & Hstart).
  - intros p Hp. simpl in Hp.
    repeat (destruct Hp as [<-|Hp]; [vm_compute; reflexivity|]). contradiction.
  - split; [exact Hnone|].
    apply Hstart; vm_compute; reflexivity.
Defined.

End SlotExtractor.

(* ------------------------------------------------------------------ *)
(** ** The batch query                                                  *)
(* ------------------------------------------------------------------ *)

Section BatchQuery.
Import Availability Batch.

Lemma calendarId_truthy : forall p id,
  Config.calendarId p = Js.Ok id -> Js.truthy (Some id) = true.
Proof.
  unfold Config.calendarId. intros p id H.
  destruct (Config.GOOGLE_CALENDAR_ID p) as [c|]; [|discriminate].
  destruct (Js.truthy (Some c)) eqn:E; [|discriminate].
  injection H as <-. exact E.
Qed.

Lemma timeSlotsCalendarId_truthy : forall p id,
  Config.timeSlotsCalendarId p = Js.Ok id -> Js.truthy (Some id) = true.
Proof.
  unfold Config.timeSlotsCalendarId. intros p id H.
  destruct (Config.GOOGLE_TIMESLOTS_CALENDAR_ID p) as [c|];
    [destruct (Js.truthy (Some c)) eqn:E|]; try (now apply calendarId_truthy in H).
  injection H as <-. exact E.
Qed.

(** Grouping puts into the bucket of a date of the range exactly the
    events that start on that date, in their order. *)
Lemma groupByDate_bucket : forall events startDate endDate acc byDate d,
  groupByDate events startDate endDate acc = Js.Ok byDate ->
  bucketOf byDate d
  = bucketOf acc d ++
    (if Js.str_leb startDate d && Js.str_leb d endDate
     then filter (startsOn d) events else []).
Proof.
  induction events as [|event events IH]; intros sd ed acc byDate d H; simpl in H.
  - injection H as <-. destruct (Js.str_leb sd d && Js.str_leb d ed); now rewrite app_nil_r.
  - simpl filter. unfold startsOn at 1.
    destruct (Utils.getTaipeiDateString (getStartTime event)) as [ds|]; [|discriminate].
    simpl in H.
    destruct (Js.str_leb sd ds && Js.str_leb ds ed) eqn:Hin.
    + rewrite (IH _ _ _ _ d H). unfold bucketOf at 1.
      destruct (String.eqb_spec ds d) as [->|Hne].
      * rewrite objGet_objSet_same, Hin. unfold bucketOf.
        now rewrite <- app_assoc.
      * rewrite objGet_objSet_other by congruence. reflexivity.
    + rewrite (IH _ _ _ _ d H).
      destruct (String.eqb_spec ds d) as [->|Hne]; [now rewrite Hin | reflexivity].
Qed.

Lemma digit_val_le : forall c, Js.is_digit c = true -> (Js.digit_val c <= 9)%nat.
Proof.
  unfold Js.is_digit, Js.digit_val. intros c H.
  apply andb_prop in H. destruct H as [_ H]. apply Nat.leb_le in H. lia.
Qed.

(** The day number of a date string lies in the years 0000..9999. *)
Lemma dayNumber_range : forall s n,
  Js.dayNumber s = Some n -> -719528 <= n <= 2932896.
Proof.
  unfold Js.dayNumber, Js.parseYMD. intros s n H.
  destruct (Js.chars s)
    as [|y1 [|y2 [|y3 [|y4 [|s1 [|m1 [|m2 [|s2 [|d1 [|d2 [|x l]]]]]]]]]]];
    try discriminate H.
  destruct (forallb Js.is_digit [y1; y2; y3; y4; m1; m2; d1; d2]
            && Ascii.eqb s1 "-" && Ascii.eqb s2 "-") eqn:E; [|discriminate H].
  apply andb_prop in E. destruct E as [E _].
  apply andb_prop in E. destruct E as [E _].
  cbn [forallb] in E.
  apply andb_prop in E. destruct E as [H1 E].
  apply andb_prop in E. destruct E as [H2 E].
  apply andb_prop in E. destruct E as [H3 E].
  apply andb_prop in E. destruct E as [H4 _].
  apply digit_val_le in H1, H2, H3, H4.
  set (y := Z.of_nat (Js.digits_val [y1; y2; y3; y4])) in *.
  set (m := Z.of_nat (Js.digits_val [m1; m2])) in *.
  set (d := Z.of_nat (Js.digits_val [d1; d2])) in *.
  assert (Hy : 0 <= y <= 9999).
  { unfold y, Js.digits_val. cbn [fold_left]. lia. }
  clearbody y m d.
  destruct ((1 <=? m) && (m <=? 12) && (1 <=? d) && (d <=? 31)) eqn:R; [|discriminate H].
  injection H as <-.
  apply andb_prop in R. destruct R as [R Hd2]. apply andb_prop in R. destruct R as [R Hd1].
  apply andb_prop in R. destruct R as [Hm1 Hm2].
  apply Z.leb_le in Hd2, Hd1, Hm1, Hm2.
  unfold Js.days_from_civil.
  destruct (m <=? 2) eqn:M2; [apply Z.leb_le in M2 | apply Z.leb_gt in M2].
  - replace (m >? 2) with false by (symmetry; rewrite Z.gtb_ltb; apply Z.ltb_ge; lia).
    Z.div_mod_to_equations. lia.
  - replace (m >? 2) with true by (symmetry; apply Z.gtb_lt; lia).
    Z.div_mod_to_equations. lia.
Qed.

(** The window of the batch query reaches from 08:00 of the first date, or
    earlier, to 22:00 of the last date, or later, Taipei time. *)
Lemma batch_window_covers : forall tz startDate endDate a b,
  Js.dayNumber startDate = Some a -> Js.dayNumber endDate = Some b ->
  - (12 * Js.MS_PER_HOUR) <= tz <= 14 * Js.MS_PER_HOUR ->
  tz mod Js.MS_PER_MINUTE = 0 ->
  exists s e,
    Utils.getOptimizedQueryRangeBatch tz startDate endDate = (Some s, Some e)
    /\ s <= a * Js.MS_PER_DAY - Utils.UTC_OFFSET_MS + 8 * Js.MS_PER_HOUR
    /\ b * Js.MS_PER_DAY - Utils.UTC_OFFSET_MS + 22 * Js.MS_PER_HOUR <= e
    /\ (tz = TAIPEI ->
        s = a * Js.MS_PER_DAY - Utils.UTC_OFFSET_MS + 8 * Js.MS_PER_HOUR
        /\ e = b * Js.MS_PER_DAY - Utils.UTC_OFFSET_MS + 22 * Js.MS_PER_HOUR).
Proof.
  intros tz startDate endDate a b Ha Hb Htz Hmin.
  pose proof (dayNumber_range _ _ Ha) as Ra.
  pose proof (dayNumber_range _ _ Hb) as Rb.
  unfold Utils.getOptimizedQueryRangeBatch.
  change (Utils.splitHourMinute Config.businessHours_start) with (Some 8%nat, Some 0%nat).
  change (Utils.splitHourMinute Config.businessHours_end) with (Some 22%nat, Some 0%nat).
  cbv iota beta.
  unfold Js.newDate_taipei. rewrite Ha, Hb.
  change ((Z.of_nat 0 <=? 23) && (Z.of_nat 0 <=? 59)) with true.
  change ((Z.of_nat 23 <=? 23) && (Z.of_nat 59 <=? 59)) with true.
  cbn [orb]. cbv zeta.
  change (Z.of_nat 0) with 0. change (Z.of_nat 23) with 23. change (Z.of_nat 59) with 59.
  unfold Js.timeClip at 1 2.
  replace (Z.abs _ <=? Js.MAX_TIME_VALUE) with true
    by (symmetry; apply Z.leb_le;
        unfold Js.MAX_TIME_VALUE, Js.MS_PER_DAY, Js.MS_PER_HOUR, Js.MS_PER_MINUTE; lia).
  replace (Z.abs _ <=? Js.MAX_TIME_VALUE) with true
    by (symmetry; apply Z.leb_le;
        unfold Js.MAX_TIME_VALUE, Js.MS_PER_DAY, Js.MS_PER_HOUR, Js.MS_PER_MINUTE; lia).
  unfold Utils.setHours.
  change (Z.of_nat 8) with 8. change (Z.of_nat 22) with 22. change (Z.of_nat 0) with 0.
  set (startDay := (a * Js.MS_PER_DAY + 0 * Js.MS_PER_HOUR + 0 * Js.MS_PER_MINUTE + 0 * 1000
                    - 8 * Js.MS_PER_HOUR + tz) / Js.MS_PER_DAY).
  set (endDay := (b * Js.MS_PER_DAY + 23 * Js.MS_PER_HOUR + 59 * Js.MS_PER_MINUTE + 59 * 1000
                  - 8 * Js.MS_PER_HOUR + tz) / Js.MS_PER_DAY).
  assert (Hs : a - 1 <= startDay <= a
               /\ startDay * Js.MS_PER_DAY <= a * Js.MS_PER_DAY - 8 * Js.MS_PER_HOUR + tz
               /\ (tz = TAIPEI -> startDay = a)).
  { unfold startDay, TAIPEI, Js.MS_PER_DAY, Js.MS_PER_HOUR, Js.MS_PER_MINUTE in *.
    Z.div_mod_to_equations. lia. }
  assert (He : b <= endDay <= b + 1
               /\ b * Js.MS_PER_DAY + 16 * Js.MS_PER_HOUR + tz
                  <= endDay * Js.MS_PER_DAY + Js.MS_PER_DAY
               /\ (tz = TAIPEI -> endDay = b)).
  { unfold endDay, TAIPEI, Js.MS_PER_DAY, Js.MS_PER_HOUR, Js.MS_PER_MINUTE in *.
    Z.div_mod_to_equations. lia. }
  clearbody startDay endDay.
  unfold Js.timeClip.
  replace (Z.abs _ <=? Js.MAX_TIME_VALUE) with true
    by (symmetry; apply Z.leb_le;
        unfold Js.MAX_TIME_VALUE, Js.MS_PER_DAY, Js.MS_PER_HOUR, Js.MS_PER_MINUTE in *; lia).
  replace (Z.abs _ <=? Js.MAX_TIME_VALUE) with true
    by (symmetry; apply Z.leb_le;
        unfold Js.MAX_TIME_VALUE, Js.MS_PER_DAY, Js.MS_PER_HOUR, Js.MS_PER_MINUTE in *; lia).
  eexists. eexists. split; [reflexivity|].
  unfold TAIPEI, Utils.UTC_OFFSET_MS, Js.MS_PER_DAY, Js.MS_PER_HOUR, Js.MS_PER_MINUTE in *.
  split; [lia|]. split; [lia|]. intros ->. split; lia.
Qed.



(** The window of both calls: from 08:00 on the first day to 22:00 on
    the last day, Taipei time. *)
Example batch_window :
  Utils.getOptimizedQueryRangeBatch TAIPEI "2025-07-01" "2025-08-31"
  = (Some (20270 * Js.MS_PER_DAY + 8 * Js.MS_PER_HOUR - TAIPEI),
     Some (20331 * Js.MS_PER_DAY + 22 * Js.MS_PER_HOUR - TAIPEI)).
Proof. vm_compute. reflexivity. Qed.

(** The answer of the salon world for 15 and 16 July 2025. *)
Example batch_answer :
  let r := fst (handleBatchCheckTimeSlotAvailability AdvancedCalendarService.getEvents TAIPEI
                  "2025-07-15" "2025-07-16" salonWorld) in
  success r = true
  /\ map (fun day => (fst day, map (fun slot => (fst slot, available (snd slot))) (snd day)))
         (data r)
     = [("2025-07-15", [("10:00", false); ("14:00", true)]); ("2025-07-16", [])].
Proof. vm_compute. split; reflexivity. Qed.

End BatchQuery.

(* ------------------------------------------------------------------ *)
(** ** Calendar dates and their strings                                 *)
(* ------------------------------------------------------------------ *)

Section DateStrings.

(** The year, month and day of a day number are a proper date whose day
    number is the one started from; the days of the years 0000..9999 have a
    year in that range. *)
Lemma civil_roundtrip : forall n y m d,
  Js.civil_from_days n = (y, m, d) ->
  Js.days_from_civil y m 1 + (d - 1) = n /\ 1 <= m <= 12 /\ 1 <= d <= 31
  /\ (-719528 <= n <= 2932896 -> 0 <= y <= 9999).
Proof.
  unfold Js.civil_from_days. intros n y m d H.
  set (z := n + 719468) in *.
  set (era := z / 146097) in *.
  set (doe := z - era * 146097) in *.
  assert (Hdoe : 0 <= doe < 146097) by (unfold doe, era; Z.div_mod_to_equations; lia).
  set (yoe := (doe - doe / 1460 + doe / 36524 - doe / 146096) / 365) in *.
  set (doy := doe - (365 * yoe + yoe / 4 - yoe / 100)) in *.
  assert (Hy : 0 <= yoe <= 399 /\ 0 <= doy <= 365)
    by (unfold doy, yoe; Z.div_mod_to_equations; lia).
  set (mp := (5 * doy + 2) / 153) in *.
  assert (Hmp : 0 <= mp <= 11) by (unfold mp; Z.div_mod_to_equations; lia).
  set (dd := doy - (153 * mp + 2) / 5 + 1) in *.
  assert (Hdd : 1 <= dd <= 31) by (unfold dd, mp; Z.div_mod_to_equations; lia).
  assert (Hedge : (146037 <= doe <-> (yoe = 399 /\ 10 <= mp)))
    by (unfold mp, doy, yoe; Z.div_mod_to_equations; lia).
  assert (Hdiv : forall k, (k + era * 400) / 400 = k / 400 + era)
    by (intros k; apply Z.div_add; lia).
  assert (Hera : -719528 <= n <= 2932896 ->
                 -1 <= era <= 24 /\ (era = -1 -> 146037 <= doe) /\ (era = 24 -> doe <= 146036))
    by (intros Hn; unfold doe, era, z; Z.div_mod_to_equations; lia).
  unfold Js.days_from_civil.
  destruct (mp <? 10) eqn:E; [apply Z.ltb_lt in E | apply Z.ltb_ge in E].
  - replace (mp + 3 <=? 2) with false in H by (symmetry; apply Z.leb_gt; lia).
    injection H as <- <- <-.
    replace (mp + 3 <=? 2) with false by (symmetry; apply Z.leb_gt; lia).
    replace (mp + 3 >? 2) with true by (symmetry; apply Z.gtb_lt; lia).
    rewrite Hdiv. replace (yoe / 400) with 0 by (symmetry; apply Z.div_small; lia).
    replace (mp + 3 - 3) with mp by lia.
    split; [|split; [lia|split; [lia|intros Hn; specialize (Hera Hn); lia]]].
    replace (yoe + era * 400 - (0 + era) * 400) with yoe by lia.
    unfold dd, doy, doe, z. lia.
  - replace (mp - 9 <=? 2) with true in H by (symmetry; apply Z.leb_le; lia).
    injection H as <- <- <-.
    replace (mp - 9 <=? 2) with true by (symmetry; apply Z.leb_le; lia).
    replace (mp - 9 >? 2) with false
      by (symmetry; rewrite Z.gtb_ltb; apply Z.ltb_ge; lia).
    replace (yoe + era * 400 + 1 - 1) with (yoe + era * 400) by lia.
    rewrite Hdiv. replace (yoe / 400) with 0 by (symmetry; apply Z.div_small; lia).
    replace (mp - 9 + 9) with mp by lia.
    split; [|split; [lia|split; [lia|intros Hn; specialize (Hera Hn); lia]]].
    replace (yoe + era * 400 - (0 + era) * 400) with yoe by lia.
    unfold dd, doy, doe, z. lia.
Qed.

Lemma digit_char_ok : forall j, (j < 10)%nat ->
  Js.is_digit (Js.digit_char j) = true /\ Js.digit_val (Js.digit_char j) = j.
Proof.
  intros j H. do 10 (destruct j as [|j]; [split; reflexivity|]). lia.
Qed.

Lemma mod10_lt : forall k, (k mod 10 < 10)%nat.
Proof. intros k. apply Nat.mod_upper_bound. discriminate. Qed.

(** Printing a number on four digits and reading it back. *)
Lemma pad4_parse : forall y, 0 <= y <= 9999 ->
  exists a b c d,
    Js.pad_digits 4 (Z.to_nat y) [] = [a; b; c; d]
    /\ forallb Js.is_digit [a; b; c; d] = true
    /\ Z.of_nat (Js.digits_val [a; b; c; d]) = y.
Proof.
  intros y Hy. set (k := Z.to_nat y).
  exists (Js.digit_char ((k / 10 / 10 / 10) mod 10)), (Js.digit_char ((k / 10 / 10) mod 10)),
         (Js.digit_char ((k / 10) mod 10)), (Js.digit_char (k mod 10)).
  split; [reflexivity|]. split.
  - cbn [forallb].
    rewrite !(proj1 (digit_char_ok _ (mod10_lt _))). reflexivity.
  - unfold Js.digits_val. cbn [fold_left].
    rewrite !(proj2 (digit_char_ok _ (mod10_lt _))). unfold k.
    repeat (rewrite ?Nat2Z.inj_add, ?Nat2Z.inj_mul, ?Nat2Z.inj_mod, ?Nat2Z.inj_div).
    rewrite Z2Nat.id by lia.
    change (Z.of_nat 10) with 10. change (Z.of_nat 0) with 0.
    Z.div_mod_to_equations. lia.
Qed.

(** The same on two digits. *)
Lemma pad2_parse : forall m, 0 <= m <= 99 ->
  exists a b,
    Js.pad_digits 2 (Z.to_nat m) [] = [a; b]
    /\ forallb Js.is_digit [a; b] = true
    /\ Z.of_nat (Js.digits_val [a; b]) = m.
Proof.
  intros m Hm. set (k := Z.to_nat m).
  exists (Js.digit_char ((k / 10) mod 10)), (Js.digit_char (k mod 10)).
  split; [reflexivity|]. split.
  - cbn [forallb].
    rewrite !(proj1 (digit_char_ok _ (mod10_lt _))). reflexivity.
  - unfold Js.digits_val. cbn [fold_left].
    rewrite !(proj2 (digit_char_ok _ (mod10_lt _))). unfold k.
    repeat (rewrite ?Nat2Z.inj_add, ?Nat2Z.inj_mul, ?Nat2Z.inj_mod, ?Nat2Z.inj_div).
    rewrite Z2Nat.id by lia.
    change (Z.of_nat 10) with 10. change (Z.of_nat 0) with 0.
    Z.div_mod_to_equations. lia.
Qed.

(** Reading the fields of an assembled date string. *)
Lemma parseYMD_assembled : forall y1 y2 y3 y4 m1 m2 d1 d2,
  forallb Js.is_digit [y1; y2; y3; y4; m1; m2; d1; d2] = true ->
  Js.parseYMD (string_of_list_ascii
                 ([y1; y2; y3; y4] ++ "-"%char :: [m1; m2] ++ "-"%char :: [d1; d2]))
  = Some (Z.of_nat (Js.digits_val [y1; y2; y3; y4]),
          Z.of_nat (Js.digits_val [m1; m2]),
          Z.of_nat (Js.digits_val [d1; d2])).
Proof.
  intros y1 y2 y3 y4 m1 m2 d1 d2 H. unfold Js.parseYMD, Js.chars.
  rewrite list_ascii_of_string_of_list_ascii. cbn [app]. rewrite H. reflexivity.
Qed.

(** The date string of a day of the years 0000..9999 parses back to the
    same day. *)
Lemma dayNumber_isoDate : forall n,
  -719528 <= n <= 2932896 -> Js.dayNumber (Js.isoDate n) = Some n.
Proof.
  intros n Hn. unfold Js.isoDate, Js.dayNumber.
  destruct (Js.civil_from_days n) as [[y m] d] eqn:Hc.
  destruct (civil_roundtrip _ _ _ _ Hc) as (Hday & Hm & Hd & Hy).
  specialize (Hy Hn).
  replace ((0 <=? y) && (y <=? 9999)) with true
    by (symmetry; apply andb_true_intro; split; apply Z.leb_le; lia).
  destruct (pad4_parse y Hy) as (y1 & y2 & y3 & y4 & Ey & Dy & Vy).
  destruct (pad2_parse m ltac:(lia)) as (m1 & m2 & Em & Dm & Vm).
  destruct (pad2_parse d ltac:(lia)) as (d1 & d2 & Ed & Dd & Vd).
  rewrite Ey, Em, Ed.
  rewrite parseYMD_assembled.
  - rewrite Vy, Vm, Vd.
    replace ((1 <=? m) && (m <=? 12) && (1 <=? d) && (d <=? 31)) with true
      by (symmetry; repeat (apply andb_true_intro; split); apply Z.leb_le; lia).
    now rewrite Hday.
  - cbn [forallb] in *.
    repeat match goal with H : _ && _ = true |- _ => apply andb_prop in H; destruct H end.
    repeat match goal with H : Js.is_digit _ = true |- _ => rewrite H; clear H end.
    reflexivity.
Qed.

Lemma isoDate_not_empty : forall n, Js.truthy (Some (Js.isoDate n)) = true.
Proof.
  intros n. unfold Js.isoDate.
  destruct (Js.civil_from_days n) as [[y m] d].
  destruct ((0 <=? y) && (y <=? 9999)); reflexivity.
Qed.

(** The start of a Taipei day, as a time value. *)
Lemma newDate_taipei_isoDate : forall n h m,
  -719528 <= n <= 2932896 -> (h <= 23)%nat -> (m <= 59)%nat ->
  Js.newDate_taipei (Js.isoDate n) (Some h) (Some m) 0
  = Some (n * Js.MS_PER_DAY + Z.of_nat h * Js.MS_PER_HOUR + Z.of_nat m * Js.MS_PER_MINUTE
          - Utils.UTC_OFFSET_MS).
Proof.
  intros n h m Hn Hh Hm. unfold Js.newDate_taipei. rewrite (dayNumber_isoDate n Hn).
  replace ((Z.of_nat h <=? 23) && (Z.of_nat m <=? 59)) with true
    by (symmetry; apply andb_true_intro; split; apply Z.leb_le; lia).
  cbn [orb]. unfold Js.timeClip.
  replace (Z.abs _ <=? Js.MAX_TIME_VALUE) with true.
  - f_equal. unfold Utils.UTC_OFFSET_MS, Js.MS_PER_HOUR. lia.
  - symmetry. apply Z.leb_le.
    unfold Js.MAX_TIME_VALUE, Js.MS_PER_DAY, Js.MS_PER_HOUR, Js.MS_PER_MINUTE. lia.
Qed.

(** X1: for every date of the years 0000..9999, written as its date
    string, [createTaipeiDateFromYMD] gives midnight of that day in Taipei,
    and [getTaipeiDateString] maps an instant to that date string exactly
    when the instant lies in the 24 hours from that midnight on. *)
Theorem taipei_date_string_round_trip :
  forall n t,
    -719528 <= n <= 2932896 ->
    -719528 * Js.MS_PER_DAY - Utils.UTC_OFFSET_MS <= t
      < 2932897 * Js.MS_PER_DAY - Utils.UTC_OFFSET_MS ->
    let midnight := n * Js.MS_PER_DAY - Utils.UTC_OFFSET_MS in
    Utils.createTaipeiDateFromYMD (Js.isoDate n) = Js.Ok (Some midnight)
    /\ Utils.getTaipeiDateString (Some midnight) = Js.Ok (Js.isoDate n)
    /\ (Utils.getTaipeiDateString (Some t) = Js.Ok (Js.isoDate n)
        <-> midnight <= t < midnight + Js.MS_PER_DAY).
Proof.
  intros n t Hn Ht midnight.
  assert (Hstring : forall u k,
            k * Js.MS_PER_DAY - Utils.UTC_OFFSET_MS <= u
              < (k + 1) * Js.MS_PER_DAY - Utils.UTC_OFFSET_MS ->
            -719528 <= k <= 2932896 ->
            Utils.getTaipeiDateString (Some u) = Js.Ok (Js.isoDate k)).
  { intros u k Hu Hk. unfold Utils.getTaipeiDateString, Js.timeClip.
    replace (Z.abs _ <=? Js.MAX_TIME_VALUE) with true
      by (symmetry; apply Z.leb_le;
          unfold Js.MAX_TIME_VALUE, Utils.UTC_OFFSET_MS, Js.MS_PER_DAY in *; lia).
    unfold Js.toISODate. do 2 f_equal.
    unfold Utils.UTC_OFFSET_MS, Js.MS_PER_DAY in *.
    Z.div_mod_to_equations. lia. }
  split; [|split].
  - unfold Utils.createTaipeiDateFromYMD. rewrite isoDate_not_empty.
    rewrite (newDate_taipei_isoDate n 0 0 Hn) by lia. do 2 f_equal.
    unfold midnight. simpl Z.of_nat. lia.
  - apply Hstring; [unfold midnight, Js.MS_PER_DAY; lia | exact Hn].
  - split.
    + intros Hs.
      set (k := (t + Utils.UTC_OFFSET_MS) / Js.MS_PER_DAY).
      assert (Hk : -719528 <= k <= 2932896
                   /\ k * Js.MS_PER_DAY - Utils.UTC_OFFSET_MS <= t
                        < (k + 1) * Js.MS_PER_DAY - Utils.UTC_OFFSET_MS)
        by (unfold k, Utils.UTC_OFFSET_MS, Js.MS_PER_DAY in *;
            Z.div_mod_to_equations; lia).
      destruct Hk as [Hk Hin].
      rewrite (Hstring t k Hin Hk) in Hs. injection Hs as Hs.
      assert (Hkn : Some k = Some n)
        by (rewrite <- (dayNumber_isoDate k Hk), <- (dayNumber_isoDate n Hn); now rewrite Hs).
      injection Hkn as ->. unfold midnight. lia.
    + intros Hin. apply Hstring; [unfold midnight in Hin; lia | exact Hn].
Qed.

Lemma taipei_date_string_round_trip_witness :
  Utils.createTaipeiDateFromYMD "2025-07-15" = Js.Ok (on_2025_07_15 0 0)
  /\ Utils.getTaipeiDateString (on_2025_07_15 0 0) = Js.Ok "2025-07-15".
Proof.
  destruct (taipei_date_string_round_trip 20284 0) as (H1 & H2 & _);
    [lia | unfold Js.MS_PER_DAY, Utils.UTC_OFFSET_MS; lia |].
  split; [exact H1 | exact H2].
Defined.

End DateStrings.

(* ------------------------------------------------------------------ *)
(** ** Slot time strings                                                *)
(* ------------------------------------------------------------------ *)

Section SlotTimes.
Import Extractor.

Lemma forallb_seq_below : forall (f : nat -> bool) n,
  forallb f (seq 0 n) = true -> forall k, (k < n)%nat -> f k = true.
Proof.
  intros f n H k Hk. rewrite forallb_forall in H. apply H, in_seq. lia.
Qed.

(** All hours up to 111 (99 + 12, the largest the extractor can form) and
    all minutes up to 99, checked one by one. *)
Lemma slot_time_table :
  forallb (fun h => forallb (fun m =>
     let s := formatTime (Some h) (Some m) in
     match Utils.splitHourMinute s with
     | (Some a, Some b) => (a =? h)%nat && (b =? m)%nat
     | _ => false
     end
     && Bool.eqb (Config.TIME_FORMAT_REGEX_test s) ((h <=? 23)%nat && (m <=? 59)%nat)
     && match periodOf s with
        | Morning => (6 <=? h)%nat && (h <? 12)%nat
        | Afternoon => (12 <=? h)%nat && (h <? 18)%nat
        | Evening => (h <? 6)%nat || (18 <=? h)%nat
        end) (seq 0 100)) (seq 0 112) = true.
Proof. vm_compute. reflexivity. Qed.

(** X2: a slot time written by the extractor for hour [h] and minute [m]
    is read back by the availability check as the same hour and minute, and
    it passes the time format check of the booking commit exactly when it
    is a time of day (hour at most 23, minute at most 59). *)
Theorem slot_time_round_trip :
  forall h m, (h < 112)%nat -> (m < 100)%nat ->
    Utils.splitHourMinute (formatTime (Some h) (Some m)) = (Some h, Some m)
    /\ Config.TIME_FORMAT_REGEX_test (formatTime (Some h) (Some m))
       = ((h <=? 23)%nat && (m <=? 59)%nat).
Proof.
  intros h m Hh Hm.
  pose proof (forallb_seq_below _ _ (forallb_seq_below _ _ slot_time_table h Hh) m Hm) as H.
  cbv beta zeta in H.
  apply andb_prop in H. destruct H as [H _].
  apply andb_prop in H. destruct H as [Hsplit Hregex].
  split.
  - destruct (Utils.splitHourMinute (formatTime (Some h) (Some m))) as [[a|] [b|]];
      try discriminate.
    apply andb_prop in Hsplit. destruct Hsplit as [Ha Hb].
    apply Nat.eqb_eq in Ha, Hb. now subst.
  - now apply Bool.eqb_prop in Hregex.
Qed.

Lemma slot_time_round_trip_witness :
  Utils.splitHourMinute (formatTime (Some 9%nat) (Some 5%nat)) = (Some 9%nat, Some 5%nat)
  /\ Config.TIME_FORMAT_REGEX_test (formatTime (Some 9%nat) (Some 5%nat)) = true.
Proof. apply (slot_time_round_trip 9 5); lia. Defined.

(** X3: the period of a slot time: hours 6 to 11 are morning, hours 12 to
    17 afternoon, every other hour (0 to 5 and from 18 on) evening. *)
Theorem period_of_slot_time :
  forall h m, (h < 112)%nat -> (m < 100)%nat ->
    periodOf (formatTime (Some h) (Some m))
    = if (6 <=? h)%nat && (h <? 12)%nat then Morning
      else if (12 <=? h)%nat && (h <? 18)%nat then Afternoon
      else Evening.
Proof.
  intros h m Hh Hm.
  pose proof (forallb_seq_below _ _ (forallb_seq_below _ _ slot_time_table h Hh) m Hm) as H.
  cbv beta zeta in H.
  apply andb_prop in H. destruct H as [_ H].
  destruct (periodOf (formatTime (Some h) (Some m)));
    destruct (Nat.leb_spec 6 h); destruct (Nat.ltb_spec h 12);
    destruct (Nat.leb_spec 12 h); destruct (Nat.ltb_spec h 18);
    cbn [andb]; try reflexivity; exfalso;
    repeat match goal with
    | H : _ && _ = true |- _ => apply andb_prop in H; destruct H
    | H : _ || _ = true |- _ => apply orb_prop in H; destruct H
    | H : (_ <=? _)%nat = true |- _ => apply Nat.leb_le in H
    | H : (_ <? _)%nat = true |- _ => apply Nat.ltb_lt in H
    end; lia.
Qed.

Lemma period_of_slot_time_witness :
  periodOf (formatTime (Some 17%nat) (Some 59%nat)) = Afternoon
  /\ periodOf (formatTime (Some 18%nat) (Some 0%nat)) = Evening.
Proof.
  split.
  - apply (period_of_slot_time 17 59); lia.
  - apply (period_of_slot_time 18 0); lia.
Defined.

End SlotTimes.

(* ------------------------------------------------------------------ *)
(** ** Times accepted by the booking commit                             *)
(* ------------------------------------------------------------------ *)

Section ValidatedTimes.
Import Availability.

Lemma is_digit_inv : forall c,
  Js.is_digit c = true -> exists j, (j < 10)%nat /\ c = Js.digit_char j.
Proof.
  unfold Js.is_digit, Js.digit_char. intros c H.
  apply andb_prop in H. destruct H as [Hlo Hhi].
  apply Nat.leb_le in Hlo, Hhi.
  exists (nat_of_ascii c - 48)%nat. split; [lia|].
  replace (48 + (nat_of_ascii c - 48))%nat with (nat_of_ascii c) by lia.
  now rewrite ascii_nat_embedding.
Qed.

(** Every string of the shape [d:dd] or [dd:dd], checked one by one: when
    the time format accepts it, it splits into an hour of at most 23 and a
    minute of at most 59. *)
Lemma accepted_time_table :
  let ok (s : string) :=
    negb (Config.TIME_FORMAT_REGEX_test s)
    || match Utils.splitHourMinute s with
       | (Some h, Some m) => (h <=? 23)%nat && (m <=? 59)%nat
       | _ => false
       end in
  forallb (fun a => forallb (fun b => forallb (fun c =>
     ok (string_of_list_ascii
           [Js.digit_char a; ":"%char; Js.digit_char b; Js.digit_char c])
     && forallb (fun d =>
          ok (string_of_list_ascii
                [Js.digit_char a; Js.digit_char b; ":"%char; Js.digit_char c; Js.digit_char d]))
          (seq 0 10))
     (seq 0 10)) (seq 0 10)) (seq 0 10) = true.
Proof. vm_compute. reflexivity. Qed.

(** X4: a time string accepted by [TIME_FORMAT_REGEX] splits into an hour
    of at most 23 and a minute of at most 59, so on every date of the years
    0000..9999 the start of its slot window is the valid instant at that
    time of that Taipei day. *)
Theorem accepted_time_has_valid_slot_start :
  forall t, Config.TIME_FORMAT_REGEX_test t = true ->
    exists h m,
      Utils.splitHourMinute t = (Some h, Some m)
      /\ (h <= 23)%nat /\ (m <= 59)%nat
      /\ forall n, -719528 <= n <= 2932896 ->
           fst (slotWindow t (Js.isoDate n))
           = Some (n * Js.MS_PER_DAY + Z.of_nat h * Js.MS_PER_HOUR
                   + Z.of_nat m * Js.MS_PER_MINUTE - Utils.UTC_OFFSET_MS).
Proof.
  intros t Ht.
  assert (Hsplit : exists h m, Utils.splitHourMinute t = (Some h, Some m)
                               /\ (h <= 23)%nat /\ (m <= 59)%nat).
  { pose proof accepted_time_table as Htable. cbv zeta in Htable.
    assert (Hshape : (exists a b c, (a < 10)%nat /\ (b < 10)%nat /\ (c < 10)%nat /\
                        t = string_of_list_ascii
                              [Js.digit_char a; ":"%char; Js.digit_char b; Js.digit_char c])
                     \/ (exists a b c d,
                           (a < 10)%nat /\ (b < 10)%nat /\ (c < 10)%nat /\ (d < 10)%nat /\
                           t = string_of_list_ascii
                                 [Js.digit_char a; Js.digit_char b; ":"%char;
                                  Js.digit_char c; Js.digit_char d])).
    { rewrite <- (string_of_list_ascii_of_string t).
      unfold Config.TIME_FORMAT_REGEX_test, Js.chars in Ht.
      destruct (list_ascii_of_string t) as [|c1 [|c2 [|c3 [|c4 [|c5 [|c6 l]]]]]];
        [discriminate Ht | discriminate Ht | discriminate Ht | discriminate Ht
        | | | discriminate Ht].
      - left. cbv beta zeta iota in Ht.
        apply andb_prop in Ht. destruct Ht as [Ht Hmin].
        apply andb_prop in Ht. destruct Ht as [D1 Hcolon].
        apply andb_prop in Hmin. destruct Hmin as [Hmin D4].
        apply andb_prop in Hmin. destruct Hmin as [D3 _].
        apply Ascii.eqb_eq in Hcolon. subst c2.
        destruct (is_digit_inv c1 D1) as (a & Ha & ->).
        destruct (is_digit_inv c3 D3) as (b & Hb & ->).
        destruct (is_digit_inv c4 D4) as (c & Hc & ->).
        exists a, b, c. repeat split; assumption || reflexivity.
      - right. cbv beta zeta iota in Ht.
        apply andb_prop in Ht. destruct Ht as [Ht Hmin].
        apply andb_prop in Ht. destruct Ht as [Ht Hcolon].
        apply andb_prop in Hmin. destruct Hmin as [Hmin D5].
        apply andb_prop in Hmin. destruct Hmin as [D4 _].
        apply Ascii.eqb_eq in Hcolon. subst c3.
        destruct (is_digit_inv c4 D4) as (c & Hc & ->).
        destruct (is_digit_inv c5 D5) as (d & Hd & ->).
        assert (D1 : Js.is_digit c1 = true /\ Js.is_digit c2 = true).
        { apply orb_prop in Ht. destruct Ht as [Ht|Ht].
          - apply andb_prop in Ht. destruct Ht as [Ht D2]. split; [|exact D2].
            apply orb_prop in Ht.
            destruct Ht as [Ht|Ht]; apply Ascii.eqb_eq in Ht; subst c1; reflexivity.
          - apply andb_prop in Ht. destruct Ht as [Ht _].
            apply andb_prop in Ht. destruct Ht as [Ht D2]. split; [|exact D2].
            apply Ascii.eqb_eq in Ht. subst c1. reflexivity. }
        destruct D1 as [D1 D2].
        destruct (is_digit_inv c1 D1) as (a & Ha & ->).
        destruct (is_digit_inv c2 D2) as (b & Hb & ->).
        exists a, b, c, d. repeat split; assumption || reflexivity. }
    destruct Hshape as [(a & b & c & Ha & Hb & Hc & ->)
                       |(a & b & c & d & Ha & Hb & Hc & Hd & ->)].
    - pose proof (forallb_seq_below _ _
                    (forallb_seq_below _ _ (forallb_seq_below _ _ Htable a Ha) b Hb) c Hc)
        as H. cbv beta in H.
      apply andb_prop in H. destruct H as [H _]. rewrite Ht in H.
      change (negb true) with false in H. rewrite orb_false_l in H.
      destruct (Utils.splitHourMinute _) as [[h|] [m|]];
        [ | discriminate H | discriminate H | discriminate H].
      apply andb_prop in H. destruct H as [Hh Hm]. apply Nat.leb_le in Hh, Hm.
      exists h, m. repeat split; assumption.
    - pose proof (forallb_seq_below _ _
                    (forallb_seq_below _ _ (forallb_seq_below _ _ Htable a Ha) b Hb) c Hc)
        as H. cbv beta in H.
      apply andb_prop in H. destruct H as [_ H].
      pose proof (forallb_seq_below _ _ H d Hd) as H'. cbv beta in H'.
      rewrite Ht in H'. change (negb true) with false in H'. rewrite orb_false_l in H'.
      destruct (Utils.splitHourMinute _) as [[h|] [m|]];
        [ | discriminate H' | discriminate H' | discriminate H'].
      apply andb_prop in H'. destruct H' as [Hh Hm]. apply Nat.leb_le in Hh, Hm.
      exists h, m. repeat split; assumption. }
  destruct Hsplit as (h & m & Hs & Hh & Hm).
  exists h, m. repeat split; try assumption.
  intros n Hn. unfold slotWindow. rewrite Hs. cbn [fst].
  now apply newDate_taipei_isoDate.
Qed.

Lemma accepted_time_has_valid_slot_start_witness :
  exists h m,
    Utils.splitHourMinute "9:30" = (Some h, Some m) /\ (h <= 23)%nat /\ (m <= 59)%nat
    /\ fst (slotWindow "9:30" (Js.isoDate 20284)) = on_2025_07_15 9 30.
Proof.
  destruct (accepted_time_has_valid_slot_start "9:30") as (h & m & Hs & Hh & Hm & Hw);
    [reflexivity|].
  exists h, m. split; [exact Hs|]. split; [exact Hh|]. split; [exact Hm|].
  rewrite (Hw 20284) by lia.
  vm_compute in Hs. injection Hs as <- <-. reflexivity.
Defined.

End ValidatedTimes.

(* ------------------------------------------------------------------ *)
(** ** Query windows                                                    *)
(* ------------------------------------------------------------------ *)

Section QueryWindows.

(** The instant of a Taipei wall-clock time on day [n]. *)
Lemma newDate_taipei_at : forall n h m sec,
  -719528 <= n <= 2932896 -> (h <= 23)%nat -> (m <= 59)%nat -> 0 <= sec <= 59 ->
  Js.newDate_taipei (Js.isoDate n) (Some h) (Some m) sec
  = Some (n * Js.MS_PER_DAY + Z.of_nat h * Js.MS_PER_HOUR + Z.of_nat m * Js.MS_PER_MINUTE
          + sec * 1000 - Utils.UTC_OFFSET_MS).
Proof.
  intros n h m sec Hn Hh Hm Hsec. unfold Js.newDate_taipei.
  rewrite (dayNumber_isoDate n Hn).
  replace ((Z.of_nat h <=? 23) && (Z.of_nat m <=? 59)) with true
    by (symmetry; apply andb_true_intro; split; apply Z.leb_le; lia).
  cbn [orb]. unfold Js.timeClip.
  replace (Z.abs _ <=? Js.MAX_TIME_VALUE) with true.
  - reflexivity.
  - symmetry. apply Z.leb_le.
    unfold Js.MAX_TIME_VALUE, Js.MS_PER_DAY, Js.MS_PER_HOUR, Js.MS_PER_MINUTE. lia.
Qed.

(** Every instant of Taipei day [k] has the date string of [k]. *)
Lemma getTaipeiDateString_in_day : forall u k,
  -719528 <= k <= 2932896 ->
  k * Js.MS_PER_DAY - Utils.UTC_OFFSET_MS <= u
    < (k + 1) * Js.MS_PER_DAY - Utils.UTC_OFFSET_MS ->
  Utils.getTaipeiDateString (Some u) = Js.Ok (Js.isoDate k).
Proof.
  intros u k Hk Hu. unfold Utils.getTaipeiDateString, Js.timeClip.
  replace (Z.abs _ <=? Js.MAX_TIME_VALUE) with true
    by (symmetry; apply Z.leb_le;
        unfold Js.MAX_TIME_VALUE, Utils.UTC_OFFSET_MS, Js.MS_PER_DAY in *; lia).
  unfold Js.toISODate. do 2 f_equal.
  unfold Utils.UTC_OFFSET_MS, Js.MS_PER_DAY in *.
  Z.div_mod_to_equations. lia.
Qed.

Lemma businessHours_fields :
  Utils.splitHourMinute Config.businessHours_start = (Some 8%nat, Some 0%nat)
  /\ Utils.splitHourMinute Config.businessHours_end = (Some 22%nat, Some 0%nat).
Proof. split; reflexivity. Qed.

(** The window of the single-day query on day [n]. *)
Lemma day_window : forall n, -719528 <= n <= 2932896 ->
  Utils.getOptimizedQueryRange (Js.isoDate n)
  = (Some (n * Js.MS_PER_DAY - Utils.UTC_OFFSET_MS + 8 * Js.MS_PER_HOUR),
     Some (n * Js.MS_PER_DAY - Utils.UTC_OFFSET_MS + 22 * Js.MS_PER_HOUR + 59 * 1000)).
Proof.
  intros n Hn. unfold Utils.getOptimizedQueryRange.
  destruct businessHours_fields as [-> ->].
  change (negb Config.enableBusinessHoursFilter) with false. cbv iota.
  rewrite !(newDate_taipei_at n) by lia.
  unfold Js.gt, Js.lt.
  match goal with |- context [if ?a <? ?b then _ else _] =>
    replace (a <? b) with false
      by (symmetry; apply Z.ltb_ge; unfold Js.MS_PER_HOUR, Js.MS_PER_MINUTE; lia) end.
  match goal with |- context [if ?a <? ?b then _ else _] =>
    replace (a <? b) with false
      by (symmetry; apply Z.ltb_ge; unfold Js.MS_PER_HOUR, Js.MS_PER_MINUTE; lia) end.
  unfold Js.MS_PER_HOUR, Js.MS_PER_MINUTE. f_equal; f_equal; lia.
Qed.

(** X5: on every date of the years 0000..9999 the window of the single-day
    query runs from 08:00:00 to 22:00:59 Taipei time of that day, whatever
    the day: it lies inside the day, both ends are valid dates, and a query
    over it is never paginated. *)
Theorem day_query_window_is_business_hours :
  forall n, -719528 <= n <= 2932896 ->
    let midnight := n * Js.MS_PER_DAY - Utils.UTC_OFFSET_MS in
    let window := Utils.getOptimizedQueryRange (Js.isoDate n) in
    window = (Some (midnight + 8 * Js.MS_PER_HOUR),
              Some (midnight + 22 * Js.MS_PER_HOUR + 59 * 1000))
    /\ Calendar.shouldUsePagination (fst window) (snd window) = false.
Proof.
  intros n Hn midnight window.
  assert (Hw : window = (Some (midnight + 8 * Js.MS_PER_HOUR),
                         Some (midnight + 22 * Js.MS_PER_HOUR + 59 * 1000)))
    by exact (day_window n Hn).
  split; [exact Hw|]. rewrite Hw. cbn [fst snd].
  unfold Calendar.shouldUsePagination.
  replace (midnight + 22 * Js.MS_PER_HOUR + 59 * 1000 - (midnight + 8 * Js.MS_PER_HOUR))
    with 50459000 by (unfold Js.MS_PER_HOUR; lia).
  reflexivity.
Qed.

(** X6: the window of a batch query from a first to a last date runs from
    08:00 of the first to 22:00 of the last, Taipei time; the query over it
    is paginated exactly when the range has twelve dates or more. *)
Theorem batch_query_window_and_pagination :
  forall a b, -719528 <= a -> a <= b -> b <= 2932896 ->
    let midnight k := k * Js.MS_PER_DAY - Utils.UTC_OFFSET_MS in
    let window := Utils.getOptimizedQueryRangeBatch TAIPEI (Js.isoDate a) (Js.isoDate b) in
    window = (Some (midnight a + 8 * Js.MS_PER_HOUR), Some (midnight b + 22 * Js.MS_PER_HOUR))
    /\ Calendar.shouldUsePagination (fst window) (snd window) = (11 <=? b - a).
Proof.
  intros a b Ha Hab Hb midnight window.
  assert (Hw : window = (Some (midnight a + 8 * Js.MS_PER_HOUR),
                         Some (midnight b + 22 * Js.MS_PER_HOUR))).
  { unfold window, Utils.getOptimizedQueryRangeBatch.
    destruct businessHours_fields as [-> ->].
    rewrite (newDate_taipei_at a), (newDate_taipei_at b) by lia.
    unfold Utils.setHours, Js.timeClip, midnight.
    f_equal.
    - replace ((_ + TAIPEI) / Js.MS_PER_DAY) with a
        by (unfold TAIPEI, Utils.UTC_OFFSET_MS, Js.MS_PER_DAY, Js.MS_PER_HOUR,
              Js.MS_PER_MINUTE; Z.div_mod_to_equations; lia).
      replace (Z.abs _ <=? Js.MAX_TIME_VALUE) with true
        by (symmetry; apply Z.leb_le;
            unfold TAIPEI, Js.MAX_TIME_VALUE, Js.MS_PER_DAY, Js.MS_PER_HOUR,
              Js.MS_PER_MINUTE; lia).
      f_equal. unfold TAIPEI, Utils.UTC_OFFSET_MS, Js.MS_PER_HOUR, Js.MS_PER_MINUTE. lia.
    - replace ((_ + TAIPEI) / Js.MS_PER_DAY) with b
        by (unfold TAIPEI, Utils.UTC_OFFSET_MS, Js.MS_PER_DAY, Js.MS_PER_HOUR,
              Js.MS_PER_MINUTE; Z.div_mod_to_equations; lia).
      replace (Z.abs _ <=? Js.MAX_TIME_VALUE) with true
        by (symmetry; apply Z.leb_le;
            unfold TAIPEI, Js.MAX_TIME_VALUE, Js.MS_PER_DAY, Js.MS_PER_HOUR,
              Js.MS_PER_MINUTE; lia).
      f_equal. unfold TAIPEI, Utils.UTC_OFFSET_MS, Js.MS_PER_HOUR, Js.MS_PER_MINUTE. lia. }
  split; [exact Hw|]. rewrite Hw. cbn [fst snd].
  unfold Calendar.shouldUsePagination, midnight.
  replace (b * Js.MS_PER_DAY - Utils.UTC_OFFSET_MS + 22 * Js.MS_PER_HOUR
           - (a * Js.MS_PER_DAY - Utils.UTC_OFFSET_MS + 8 * Js.MS_PER_HOUR))
    with ((b - a) * Js.MS_PER_DAY + 50400000)
    by (unfold Js.MS_PER_HOUR; lia).
  replace (((b - a) * Js.MS_PER_DAY + 50400000) mod Js.MS_PER_DAY =? 0) with false
    by (symmetry; apply Z.eqb_neq; unfold Js.MS_PER_DAY; Z.div_mod_to_equations; lia).
  replace (((b - a) * Js.MS_PER_DAY + 50400000) / Js.MS_PER_DAY) with (b - a)
    by (unfold Js.MS_PER_DAY; Z.div_mod_to_equations; lia).
  unfold Config.maxEstimationDays.
  destruct (Z.leb_spec 11 (b - a)).
  - apply orb_true_iff. left. apply orb_true_iff. right. apply Z.ltb_lt. lia.
  - apply orb_false_iff. split; [apply orb_false_iff; split|]; apply Z.ltb_ge; lia.
Qed.

Lemma day_query_window_is_business_hours_witness :
  Utils.getOptimizedQueryRange "2025-07-15"
  = (on_2025_07_15 8 0, Some (20284 * Js.MS_PER_DAY - Utils.UTC_OFFSET_MS
                              + 22 * Js.MS_PER_HOUR + 59 * 1000)).
Proof.
  destruct (day_query_window_is_business_hours 20284) as [H _]; [lia|].
  exact H.
Defined.

Lemma batch_query_window_and_pagination_witness :
  let window := Utils.getOptimizedQueryRangeBatch TAIPEI "2025-07-01" "2025-07-12" in
  Calendar.shouldUsePagination (fst window) (snd window) = true.
Proof.
  destruct (batch_query_window_and_pagination 20270 20281) as [_ H]; [lia | lia | lia |].
  exact H.
Defined.

End QueryWindows.

(* ------------------------------------------------------------------ *)
(** ** The event of a booking against the availability check            *)
(* ------------------------------------------------------------------ *)

Section CreatedEvents.
Import Availability Extractor CalendarEvents.

(** All times of day, checked one by one: the two-digit form passes the
    time format, and both ways of reading it give the hour and the minute. *)
Lemma clock_table :
  forallb (fun h => forallb (fun m =>
     let s := formatTime (Some h) (Some m) in
     Config.TIME_FORMAT_REGEX_test s
     && match clockFields s with
        | (Some a, Some b) => (a =? h)%nat && (b =? m)%nat
        | _ => false
        end
     && match Utils.splitHourMinute s with
        | (Some a, Some b) => (a =? h)%nat && (b =? m)%nat
        | _ => false
        end) (seq 0 60)) (seq 0 24) = true.
Proof. vm_compute. reflexivity. Qed.

Lemma clock_fields : forall h m, (h <= 23)%nat -> (m <= 59)%nat ->
  let s := formatTime (Some h) (Some m) in
  Config.TIME_FORMAT_REGEX_test s = true
  /\ clockFields s = (Some h, Some m)
  /\ Utils.splitHourMinute s = (Some h, Some m).
Proof.
  intros h m Hh Hm s.
  assert (H : (h < 24)%nat) by lia. assert (H' : (m < 60)%nat) by lia.
  pose proof (forallb_seq_below _ _ (forallb_seq_below _ _ clock_table h H) m H') as T.
  clear H H'. cbv beta zeta in T. fold s in T.
  apply andb_prop in T. destruct T as [T Hsplit].
  apply andb_prop in T. destruct T as [Hre Hclock].
  split; [exact Hre|]. split.
  - destruct (clockFields s) as [[a|] [b|]];
      [ | discriminate Hclock | discriminate Hclock | discriminate Hclock].
    apply andb_prop in Hclock. destruct Hclock as [A B].
    apply Nat.eqb_eq in A, B. now subst.
  - destruct (Utils.splitHourMinute s) as [[a|] [b|]];
      [ | discriminate Hsplit | discriminate Hsplit | discriminate Hsplit].
    apply andb_prop in Hsplit. destruct Hsplit as [A B].
    apply Nat.eqb_eq in A, B. now subst.
Qed.

(** The window of a slot that ends by midnight. *)
Lemma slotWindow_at : forall n h m,
  -719528 <= n <= 2932896 -> (h <= 22)%nat -> (m <= 59)%nat ->
  let s := n * Js.MS_PER_DAY + Z.of_nat h * Js.MS_PER_HOUR + Z.of_nat m * Js.MS_PER_MINUTE
           - Utils.UTC_OFFSET_MS in
  slotWindow (formatTime (Some h) (Some m)) (Js.isoDate n)
  = (Some s, Some (s + Js.MS_PER_HOUR)).
Proof.
  intros n h m Hn Hh Hm s. unfold slotWindow.
  destruct (clock_fields h m) as (_ & _ & ->); [lia | lia |].
  cbn [option_map]. unfold Config.defaultDuration.
  rewrite !newDate_taipei_isoDate by lia.
  unfold s. f_equal. f_equal. rewrite Nat2Z.inj_add. change (Z.of_nat 1) with 1. lia.
Qed.

(** X7: the event that [createCalendarEvent] makes for a booking at a time
    of day [h:m] starts at that time of that Taipei day and ends one hour
    later, and the availability check of any slot [h':m'] of that day (up
    to 22:59) counts it exactly when the two start less than an hour apart:
    a taken slot is reported unavailable, with one conflict. *)
Theorem created_event_blocks_overlapping_slots :
  forall title n h m h' m',
    -719528 <= n <= 2932896 ->
    (h <= 23)%nat -> (m <= 59)%nat -> (h' <= 22)%nat -> (m' <= 59)%nat ->
    let start := n * Js.MS_PER_DAY + Z.of_nat h * Js.MS_PER_HOUR
                 + Z.of_nat m * Js.MS_PER_MINUTE - Utils.UTC_OFFSET_MS in
    let close := ((60 * h' + m' <? 60 * h + m + 60)%nat
                  && (60 * h + m <? 60 * h' + m' + 60)%nat) in
    exists event,
      createdEvent title (Js.isoDate n) (formatTime (Some h) (Some m)) = Js.Ok event
      /\ getStartTime event = Some start
      /\ getEndTime event = Some (start + Js.MS_PER_HOUR)
      /\ let r := checkSingleTimeSlotAvailability [event]
                    (formatTime (Some h') (Some m')) (Js.isoDate n) in
         available r = negb close
         /\ conflictCount r = (if close then 1 else 0).
Proof.
  intros title n h m h' m' Hn Hh Hm Hh' Hm' start close.
  destruct (clock_fields h m Hh Hm) as (Hre & Hclock & _).
  assert (Hstart : startOf (Js.isoDate n) (formatTime (Some h) (Some m)) = Some start).
  { unfold startOf. rewrite Hclock. now apply newDate_taipei_isoDate. }
  assert (Hend : endOf (Some start) = Some (start + Js.MS_PER_HOUR)).
  { unfold endOf, Js.timeClip, Config.defaultDuration.
    replace (Z.abs _ <=? Js.MAX_TIME_VALUE) with true.
    - reflexivity.
    - symmetry. apply Z.leb_le.
      unfold start, Js.MAX_TIME_VALUE, Js.MS_PER_DAY, Js.MS_PER_HOUR, Js.MS_PER_MINUTE,
        Utils.UTC_OFFSET_MS. lia. }
  eexists. split; [|split; [|split]].
  - unfold createdEvent. rewrite Hre. cbn [negb]. rewrite Hstart, Hend. reflexivity.
  - reflexivity.
  - reflexivity.
  - cbv zeta. unfold checkSingleTimeSlotAvailability.
    rewrite (slotWindow_at n h' m' Hn Hh' Hm'). cbv zeta.
    cbn [scanEvents].
    rewrite (conflicts_same_date _ _ (Js.isoDate n) _ start (start + Js.MS_PER_HOUR));
      [ | cbn [getStartTime]; apply getTaipeiDateString_in_day;
          [exact Hn
          | unfold start, Js.MS_PER_DAY, Js.MS_PER_HOUR, Js.MS_PER_MINUTE,
              Utils.UTC_OFFSET_MS; lia]
        | reflexivity | reflexivity ].
    cbn [Js.bind].
    match goal with |- context [if ?c then _ else _] =>
      replace c with close end.
    + destruct close; split; reflexivity.
    + unfold close, start, Js.MS_PER_HOUR, Js.MS_PER_MINUTE.
      apply eq_true_iff_eq. rewrite !andb_true_iff, !Z.ltb_lt, !Nat.ltb_lt. lia.
Qed.

Lemma created_event_blocks_overlapping_slots_witness :
  exists event,
    createdEvent (RegExp.utf16 "Amy") "2025-07-15" "14:00" = Js.Ok event
    /\ available (checkSingleTimeSlotAvailability [event] "14:00" "2025-07-15") = false
    /\ available (checkSingleTimeSlotAvailability [event] "15:00" "2025-07-15") = true.
Proof.
  destruct (created_event_blocks_overlapping_slots (RegExp.utf16 "Amy") 20284 14 0 14 0)
    as (event & Hc & _ & _ & Ha & _); [lia | lia | lia | lia | lia |].
  destruct (created_event_blocks_overlapping_slots (RegExp.utf16 "Amy") 20284 14 0 15 0)
    as (event' & Hc' & _ & _ & Ha' & _); [lia | lia | lia | lia | lia |].
  exists event. split; [exact Hc|]. split; [exact Ha|].
  assert (E : event' = event)
    by (change (Js.isoDate 20284) with "2025-07-15" in Hc, Hc';
        change (formatTime (Some 14%nat) (Some 0%nat)) with "14:00" in Hc, Hc';
        rewrite Hc in Hc'; injection Hc' as Hc'; symmetry; exact Hc').
  rewrite E in Ha'. exact Ha'.
Defined.

End CreatedEvents.

(* ------------------------------------------------------------------ *)
(** ** The availability map and the conflict count                      *)
(* ------------------------------------------------------------------ *)

Section AvailabilityMaps.
Import Availability.

Lemma objGet_fold_set : forall (A : Type) (f : string -> A) (keys : list string)
    (o : Obj A) (k : string),
  objGet k (fold_left (fun acc key => objSet key (f key) acc) keys o)
  = if existsb (String.eqb k) keys then Some (f k) else objGet k o.
Proof.
  intros A f keys. induction keys as [|key keys IH]; intros o k; [reflexivity|].
  cbn [fold_left existsb]. rewrite IH.
  destruct (String.eqb_spec k key) as [->|Hne]; cbn [orb].
  - rewrite objGet_objSet_same. now destruct (existsb _ keys).
  - now rewrite objGet_objSet_other.
Qed.

(** X8: for slot strings that are plain keys (not a name every object
    inherits, not an array index), the map returned by
    [checkTimeSlotsAvailability] answers every requested slot with the
    record of that very slot, checked against the events of the one fetch
    (or with the failure record when the event source threw), however often
    and in whatever order the slots were listed, and it has no entry for a
    slot that was not requested. *)
Theorem availability_map_answers_each_requested_slot :
  forall (getEvents : EventSource) (dateStr calendarId : string)
         (timeSlots : list string) (w : World) (slot : string),
    forallb plainKey timeSlots = true ->
    plainKey slot = true ->
    let window := Utils.getOptimizedQueryRange dateStr in
    let fetched := getEvents calendarId (fst window) (snd window) w in
    let answer := checkTimeSlotsAvailability getEvents dateStr timeSlots calendarId w in
    snd answer = snd fetched
    /\ objGet slot (fst answer)
       = if existsb (String.eqb slot) timeSlots
         then Some match fst fetched with
                   | Js.Ok events => checkSingleTimeSlotAvailability events slot dateStr
                   | Js.Throw message => checkFailed message
                   end
         else None.
Proof.
  intros getEvents dateStr calendarId timeSlots w slot _ _ window fetched answer.
  unfold answer, checkTimeSlotsAvailability, fetched, window.
  destruct (Utils.getOptimizedQueryRange dateStr) as [startTime endTime]. cbn [fst snd].
  destruct (getEvents calendarId startTime endTime w) as [[events|message] w']; cbn [fst snd].
  - split; [reflexivity|].
    exact (objGet_fold_set _
             (fun s => checkSingleTimeSlotAvailability events s dateStr) timeSlots [] slot).
  - split; [reflexivity|].
    exact (objGet_fold_set _ (fun _ => checkFailed message) timeSlots [] slot).
Qed.

Lemma availability_map_answers_each_requested_slot_witness :
  let window := Utils.getOptimizedQueryRange "2025-07-15" in
  let answer := checkTimeSlotsAvailability AdvancedCalendarService.getEvents "2025-07-15"
                  ["10:00"; "11:00"; "10:00"] "bookings@example.com" salonWorld in
  objGet "11:00" (fst answer)
  = Some (checkSingleTimeSlotAvailability
            (AdvancedCalendarService.queryEvents salonWorld "bookings@example.com"
               (fst window) (snd window)) "11:00" "2025-07-15")
  /\ objGet "12:00" (fst answer) = None.
Proof.
  intros window answer. split.
  - destruct (availability_map_answers_each_requested_slot
                AdvancedCalendarService.getEvents "2025-07-15" "bookings@example.com"
                ["10:00"; "11:00"; "10:00"] salonWorld "11:00") as [_ H];
      [reflexivity | reflexivity | exact H].
  - destruct (availability_map_answers_each_requested_slot
                AdvancedCalendarService.getEvents "2025-07-15" "bookings@example.com"
                ["10:00"; "11:00"; "10:00"] salonWorld "12:00") as [_ H];
      [reflexivity | reflexivity | exact H].
Defined.

Lemma conflicts_cases : forall s e q event,
  conflicts s e q event = Js.Throw "Invalid time value"
  \/ exists b, conflicts s e q event = Js.Ok b.
Proof.
  intros s e q event. unfold conflicts, Utils.getTaipeiDateString.
  destruct (getStartTime event) as [t|]; [|left; reflexivity].
  destruct (Js.timeClip (t + Utils.UTC_OFFSET_MS)); [|left; reflexivity].
  cbn [Js.toISODate Js.bind]. right.
  destruct (negb _); eexists; reflexivity.
Qed.

(** The outcome of the scan as a function of the events: whether one of
    them throws, and how many are hit. *)
Lemma scanEvents_outcome : forall events s e q count acc,
  let throws event := match conflicts s e q event with
                      | Js.Throw _ => true | Js.Ok _ => false end in
  let hit event := match conflicts s e q event with
                   | Js.Ok b => b | Js.Throw _ => false end in
  match scanEvents events s e q count acc with
  | Js.Ok (n, _) => existsb throws events = false
                    /\ n = count + Z.of_nat (List.length (filter hit events))
  | Js.Throw message => existsb throws events = true
                        /\ message = "Invalid time value"
  end.
Proof.
  induction events as [|event events IH]; intros s e q count acc; cbv zeta.
  - cbn. split; [reflexivity | lia].
  - cbn [scanEvents existsb filter].
    destruct (conflicts_cases s e q event) as [E | [b E]]; rewrite E; cbn [Js.bind orb].
    + split; reflexivity.
    + destruct b.
      * specialize (IH s e q (count + 1) (acc ++
                  [{| conflictTitle := getTitle event; conflictStart := getStartTime event;
                      conflictEnd := getEndTime event |}])).
        cbv zeta in IH.
        destruct (scanEvents events s e q (count + 1) _) as [[n l]|message].
        -- destruct IH as [IH1 IH2]. split; [exact IH1|]. cbn [List.length]. lia.
        -- exact IH.
      * exact (IH s e q count acc).
Qed.

(** X9: the verdict on a slot does not depend on the order in which the
    calendar lists its events: two event lists that are permutations of
    each other give the same availability, the same conflict count and the
    same reason. *)
Theorem slot_verdict_ignores_event_order :
  forall (events events' : list Event) (timeSlot queryDateStr : string),
    Permutation events events' ->
    let r := checkSingleTimeSlotAvailability events timeSlot queryDateStr in
    let r' := checkSingleTimeSlotAvailability events' timeSlot queryDateStr in
    available r = available r'
    /\ conflictCount r = conflictCount r'
    /\ reason r = reason r'.
Proof.
  intros events events' timeSlot q Hperm r r'.
  unfold r, r', checkSingleTimeSlotAvailability.
  destruct (slotWindow timeSlot q) as [s e].
  pose proof (scanEvents_outcome events s e q 0 []) as H.
  pose proof (scanEvents_outcome events' s e q 0 []) as H'.
  cbv zeta in H, H'.
  set (throws := fun event => match conflicts s e q event with
                              | Js.Throw _ => true | Js.Ok _ => false end) in *.
  set (hit := fun event => match conflicts s e q event with
                           | Js.Ok b => b | Js.Throw _ => false end) in *.
  assert (Hsame : existsb throws events = existsb throws events'
                  /\ List.length (filter hit events) = List.length (filter hit events')).
  { clear H H'. induction Hperm as [|x l l' _ [IH1 IH2]|x y l|l l' l'' _ [A1 A2] _ [B1 B2]].
    - split; reflexivity.
    - cbn [existsb filter]. rewrite IH1. split; [reflexivity|].
      destruct (hit x); cbn [List.length]; now rewrite IH2.
    - cbn [existsb filter]. split.
      + destruct (throws x), (throws y); reflexivity.
      + destruct (hit x), (hit y); reflexivity.
    - split; [now rewrite A1 | now rewrite A2]. }
  destruct Hsame as [Hthrows Hhits].
  destruct (scanEvents events s e q 0 []) as [[n l]|message],
           (scanEvents events' s e q 0 []) as [[n' l']|message'].
  - destruct H as [_ ->], H' as [_ ->]. rewrite Hhits. repeat split; reflexivity.
  - destruct H as [H _], H' as [H' _]. rewrite Hthrows, H' in H. discriminate H.
  - destruct H as [H _], H' as [H' _]. rewrite Hthrows, H' in H. discriminate H.
  - destruct H as [_ ->], H' as [_ ->]. repeat split; reflexivity.
Qed.

Lemma slot_verdict_ignores_event_order_witness :
  let a := eventBetween (on_2025_07_15 10 0) (on_2025_07_15 11 0) in
  let b := eventBetween (on_2025_07_15 10 30) (on_2025_07_15 11 30) in
  conflictCount (checkSingleTimeSlotAvailability [a; b] "10:00" "2025-07-15")
  = conflictCount (checkSingleTimeSlotAvailability [b; a] "10:00" "2025-07-15").
Proof.
  intros a b.
  destruct (slot_verdict_ignores_event_order [a; b] [b; a] "10:00" "2025-07-15")
    as (_ & H & _); [apply perm_swap | exact H].
Defined.

End AvailabilityMaps.

(* ------------------------------------------------------------------ *)
(** ** Offered slots                                                    *)
(* ------------------------------------------------------------------ *)

Section OfferedSlots.
Import Availability Extractor.

Lemma existsb_eqb_In : forall (k : string) (l : list string),
  existsb (String.eqb k) l = true <-> In k l.
Proof.
  intros k l. rewrite existsb_exists. split.
  - intros (x & Hx & E). apply String.eqb_eq in E. now subst.
  - intros H. exists k. split; [exact H | apply String.eqb_refl].
Qed.

Lemma setAdd_NoDup : forall found timeStr, NoDup found -> NoDup (setAdd found timeStr).
Proof.
  intros found timeStr H. unfold setAdd.
  destruct (existsb (String.eqb timeStr) found) eqn:E; [exact H|].
  apply NoDup_app; [exact H | repeat constructor; intros [] | ].
  intros x Hx [<-|[]].
  apply existsb_eqb_In in Hx. congruence.
Qed.

Lemma fold_setAdd_NoDup : forall (A : Type) (f : A -> string) (l : list A) found,
  NoDup found -> NoDup (fold_left (fun found m => setAdd found (f m)) l found).
Proof.
  intros A f l. induction l as [|m l IH]; intros found H; [exact H|].
  cbn [fold_left]. apply IH, setAdd_NoDup, H.
Qed.

Lemma foundInTitle_NoDup : forall title, NoDup (foundInTitle title).
Proof.
  intros title. unfold foundInTitle.
  assert (H : forall patterns found, NoDup found ->
            NoDup (fold_left
                     (fun found pattern =>
                        fold_left (fun found m => setAdd found (timeOfMatch title m))
                                  (RegExp.execAll pattern title) found)
                     patterns found)).
  { induction patterns as [|p patterns IH]; intros found Hf; [exact Hf|].
    cbn [fold_left]. apply IH, fold_setAdd_NoDup, Hf. }
  apply H. constructor.
Qed.

Lemma extracted_times : forall tz title start,
  map time (extractTimeSlotsFromTitle tz title start)
  = match foundInTitle title, start with
    | [], Some start =>
        setAdd [] (formatTime (Utils.getHours tz start) (Utils.getMinutes tz start))
    | found, _ => found
    end.
Proof.
  intros tz title start. unfold extractTimeSlotsFromTitle.
  rewrite map_map. cbn [time]. rewrite map_id.
  destruct (foundInTitle title), start; reflexivity.
Qed.

(** X10: the slots extracted from one event title carry pairwise distinct
    times, each slot keeps the title it came from and is marked available,
    and its period is the one of its time. *)
Theorem extracted_slots_have_distinct_times :
  forall (tz : Z) (title : Title) (eventStartTime : option Js.Date),
    let slots := extractTimeSlotsFromTitle tz title eventStartTime in
    NoDup (map time slots)
    /\ Forall (fun slot => originalTitle slot = title
                           /\ slotAvailable slot = true
                           /\ period slot = periodOf (time slot)) slots.
Proof.
  intros tz title start slots. split.
  - unfold slots. rewrite extracted_times.
    pose proof (foundInTitle_NoDup title) as H.
    destruct (foundInTitle title) as [|t found]; [|exact H].
    destruct start as [start|]; [|constructor].
    apply setAdd_NoDup. constructor.
  - unfold slots, extractTimeSlotsFromTitle. apply Forall_forall.
    intros slot Hin. apply in_map_iff in Hin. destruct Hin as (t & <- & _).
    repeat split; reflexivity.
Qed.

Lemma pushNew_NoDup : forall timeSlots availableSlots,
  NoDup (map time availableSlots) ->
  NoDup (map time (Batch.pushNew availableSlots timeSlots)).
Proof.
  unfold Batch.pushNew.
  induction timeSlots as [|slot timeSlots IH]; intros acc H; [exact H|].
  cbn [fold_left]. apply IH.
  destruct (existsb (fun s => String.eqb (time s) (time slot)) acc) eqn:E; [exact H|].
  rewrite map_app. cbn [map].
  apply NoDup_app; [exact H | repeat constructor; intros [] | ].
  intros x Hx [<-|[]].
  apply in_map_iff in Hx. destruct Hx as (s & Hs & Hin).
  assert (T : existsb (fun s => String.eqb (time s) (time slot)) acc = true)
    by (apply existsb_exists; exists s; split; [exact Hin | now apply String.eqb_eq]).
  congruence.
Qed.

Lemma collectSlots_NoDup : forall tz events dateStr availableSlots slots,
  NoDup (map time availableSlots) ->
  Batch.collectSlots tz events dateStr availableSlots = Js.Ok slots ->
  NoDup (map time slots).
Proof.
  induction events as [|event events IH]; intros dateStr acc slots H Hc.
  - cbn in Hc. injection Hc as <-. exact H.
  - cbn [Batch.collectSlots] in Hc.
    destruct (Utils.getTaipeiDateString (getStartTime event)) as [d|]; [|discriminate Hc].
    cbn [Js.bind] in Hc. destruct (String.eqb d dateStr).
    + apply (IH _ _ _ (pushNew_NoDup _ _ H) Hc).
    + apply (IH _ _ _ H Hc).
Qed.

Lemma insertSlot_perm : forall s l, Permutation (Batch.insertSlot s l) (s :: l).
Proof.
  intros s l. induction l as [|x l IH]; cbn [Batch.insertSlot]; [apply Permutation_refl|].
  destruct (Js.str_leb (time x) (time s)).
  - apply Permutation_trans with (x :: s :: l); [now constructor | apply perm_swap].
  - apply Permutation_refl.
Qed.

Lemma sortSlots_perm : forall l, Permutation (Batch.sortSlots l) l.
Proof.
  intros l. unfold Batch.sortSlots.
  assert (H : forall l acc,
            Permutation (fold_left (fun acc s => Batch.insertSlot s acc) l acc) (l ++ acc)).
  { induction l0 as [|s l0 IH]; intros acc; [apply Permutation_refl|].
    cbn [fold_left]. eapply Permutation_trans; [apply IH|].
    eapply Permutation_trans; [apply Permutation_app_head, insertSlot_perm|].
    cbn [app]. apply Permutation_sym, Permutation_middle. }
  rewrite <- (app_nil_r l) at 2. apply H.
Qed.

Lemma extractTimeSlotsFromEvents_NoDup : forall tz events dateStr,
  NoDup (map time (Batch.extractTimeSlotsFromEvents tz events dateStr)).
Proof.
  intros tz events dateStr. unfold Batch.extractTimeSlotsFromEvents.
  destruct (Batch.collectSlots tz events dateStr []) as [slots|] eqn:E; [|constructor].
  apply Permutation_NoDup with (map time slots).
  - apply Permutation_map, Permutation_sym, sortSlots_perm.
  - apply (collectSlots_NoDup tz events dateStr [] slots); [constructor | exact E].
Qed.

Lemma objSet_fresh : forall (A : Type) (k : string) (v : A) (o : Obj A),
  ~ In k (map fst o) -> objSet k v o = o ++ [(k, v)].
Proof.
  intros A k v o. induction o as [|[k' v'] o IH]; intros H; [reflexivity|].
  cbn [objSet]. destruct (String.eqb_spec k k') as [->|Hne].
  - exfalso. apply H. now left.
  - cbn [app]. f_equal. apply IH. intros Hin. apply H. now right.
Qed.

Lemma fold_objSet_fresh : forall (A : Type) (f : string -> A) (keys : list string)
    (o : Obj A),
  NoDup (map fst o ++ keys) ->
  fold_left (fun acc key => objSet key (f key) acc) keys o
  = o ++ map (fun key => (key, f key)) keys.
Proof.
  intros A f keys. induction keys as [|key keys IH]; intros o H.
  - cbn. now rewrite app_nil_r.
  - cbn [fold_left map]. apply NoDup_remove in H. destruct H as [Hnd Hfresh].
    rewrite objSet_fresh by (intros Hin; apply Hfresh, in_or_app; now left).
    rewrite IH.
    + now rewrite <- app_assoc.
    + rewrite map_app. cbn [map fst]. rewrite <- app_assoc. cbn [app].
      apply NoDup_Add with (a := key) (l := map fst o ++ keys); [apply Add_app|].
      split; assumption.
Qed.

(** X11: what the batch query stores for one day: one entry per slot
    offered by the time-slot events of that day, in the order of the sorted
    slot list and under pairwise distinct keys, each holding the check of
    that slot against the bookings of the day; the number of slots reported
    for the day is the number of entries. *)
Theorem day_answer_has_one_entry_per_offered_slot :
  forall (tz : Z) (timeSlotsByDate bookingsByDate : Obj (list Event)) (dateStr : string),
    let offered :=
      map time (Batch.extractTimeSlotsFromEvents tz
                  (Batch.bucketOf timeSlotsByDate dateStr) dateStr) in
    let answer := Batch.processDay tz timeSlotsByDate bookingsByDate dateStr in
    fst answer
    = map (fun slot =>
             (slot, checkSingleTimeSlotAvailabilityFromEvents
                      (Batch.bucketOf bookingsByDate dateStr) slot dateStr)) offered
    /\ NoDup offered
    /\ snd answer = Z.of_nat (List.length (fst answer)).
Proof.
  intros tz timeSlotsByDate bookingsByDate dateStr offered answer.
  pose proof (extractTimeSlotsFromEvents_NoDup tz
                (Batch.bucketOf timeSlotsByDate dateStr) dateStr) as Hnd.
  fold offered in Hnd.
  assert (Hfst : fst answer
                 = map (fun slot =>
                          (slot, checkSingleTimeSlotAvailabilityFromEvents
                                   (Batch.bucketOf bookingsByDate dateStr) slot dateStr))
                       offered).
  { unfold answer, Batch.processDay, offered in *.
    destruct (Batch.extractTimeSlotsFromEvents tz
                (Batch.bucketOf timeSlotsByDate dateStr) dateStr) as [|s l]; [reflexivity|].
    cbn [fst]. unfold checkTimeSlotsAvailabilityFromEvents.
    exact (fold_objSet_fresh _
             (fun slot => checkSingleTimeSlotAvailabilityFromEvents
                            (Batch.bucketOf bookingsByDate dateStr) slot dateStr)
             _ [] Hnd). }
  split; [exact Hfst|]. split; [exact Hnd|].
  rewrite Hfst, length_map. unfold answer, Batch.processDay, offered.
  destruct (Batch.extractTimeSlotsFromEvents tz
              (Batch.bucketOf timeSlotsByDate dateStr) dateStr); reflexivity.
Qed.

End OfferedSlots.

(* ------------------------------------------------------------------ *)
(** ** What the paginated query returns                                 *)
(* ------------------------------------------------------------------ *)

Section PagedResults.

Lemma nth_error_skipn_head : forall (A : Type) (l : list A) n,
  nth_error l n = match skipn n l with x :: _ => Some x | [] => None end.
Proof.
  intros A l. induction l as [|x l IH]; intros [|n]; try reflexivity. apply IH.
Qed.

Lemma skipn_tail : forall (A : Type) (l : list A) n x rest,
  skipn n l = x :: rest -> skipn (S n) l = rest /\ (n < List.length l)%nat
                          /\ List.length l = (n + S (List.length rest))%nat.
Proof.
  intros A l. induction l as [|y l IH]; intros [|n] x rest H; cbn in *; try discriminate H.
  - injection H as _ <-. repeat split; lia.
  - destruct (IH n x rest H) as (H1 & H2 & H3).
    split; [destruct l; [destruct n; discriminate H|exact H1] |]. lia.
Qed.

(** The loop over an upstream that serves [pages], entered when
    [pageCount] pages have been read. *)
Lemma paginationLoop_served : forall pages s e fuel pageCount pageToken allEvents log,
  (pageCount <= 20)%nat -> (21 <= fuel + pageCount)%nat ->
  skipn pageCount pages <> [] ->
  exists tokens,
    Calendar.paginationLoop fuel (servedUpstream pages) (Some s) (Some e)
      pageCount pageToken allEvents log
    = Some (allEvents ++ collected (firstn (21 - pageCount) (skipn pageCount pages)),
            log ++ tokens)
    /\ List.length tokens
       = requestsFor (firstn (21 - pageCount) (skipn pageCount pages)).
Proof.
  intros pages s e. induction fuel as [|fuel IH];
    intros pageCount pageToken allEvents log Hpc Hfuel Hrest; [lia|].
  cbn [Calendar.paginationLoop]. unfold servedUpstream at 1.
  replace (S pageCount - 1)%nat with pageCount by lia.
  rewrite nth_error_skipn_head.
  destruct (skipn pageCount pages) as [|page rest] eqn:Hskip; [contradiction|].
  destruct (skipn_tail _ _ _ _ _ Hskip) as (Hnext & Hlt & Hlen).
  replace (21 - pageCount)%nat with (S (20 - pageCount)) by lia.
  cbn [firstn]. destruct page as [pageItems|message].
  - cbn [Calendar.items Calendar.nextPageToken collected requestsFor].
    destruct (Nat.ltb_spec 20 (S pageCount)) as [Hlast|Hmore].
    + replace (20 - pageCount)%nat with 0%nat by lia. cbn [firstn collected requestsFor].
      rewrite app_nil_r. exists [pageToken]. split; reflexivity.
    + destruct rest as [|page' rest'].
      * replace (S pageCount <? List.length pages)%nat with false
          by (symmetry; apply Nat.ltb_ge; cbn [List.length] in Hlen; lia).
        cbn [Js.truthy]. rewrite firstn_nil. cbn [collected requestsFor].
        rewrite app_nil_r. exists [pageToken]. split; reflexivity.
      * replace (S pageCount <? List.length pages)%nat with true
          by (symmetry; apply Nat.ltb_lt; cbn [List.length] in Hlen; lia).
        change (Js.truthy (Some "next")) with true. cbv iota.
        destruct (IH (S pageCount) (Some "next") (allEvents ++ pageItems)
                     (log ++ [pageToken])) as (tokens & Hloop & Htokens);
          [lia | lia | rewrite Hnext; discriminate |].
        rewrite Hnext in Hloop, Htokens.
        replace (21 - S pageCount)%nat with (20 - pageCount)%nat in Hloop, Htokens by lia.
        exists (pageToken :: tokens). split.
        -- rewrite Hloop. rewrite <- !app_assoc. reflexivity.
        -- cbn [List.length]. now rewrite Htokens.
  - cbn [collected requestsFor]. rewrite app_nil_r.
    exists [pageToken]. split; reflexivity.
Qed.

(** X12: over a calendar that serves its events in pages, the paginated
    query returns the events of the pages in order, up to the first page
    that fails and up to the 21st page at most: the events of later pages
    are left out.  The number of requests is the number of pages read,
    the failing one included. *)
Theorem paginated_query_returns_first_pages :
  forall (w : World) (calendarId : string) (s e : Z)
         (pages : list (Js.result (list Event))),
    pages <> [] ->
    Calendar_Events_list w calendarId (Some s) (Some e) = servedUpstream pages ->
    AdvancedCalendarService.executePaginatedQuery w calendarId (Some s) (Some e)
    = collected (firstn 21 pages)
    /\ exists log,
         Calendar.executePaginatedQuery_fuel 21 (servedUpstream pages) (Some s) (Some e)
         = Some (collected (firstn 21 pages), log)
         /\ List.length log = requestsFor (firstn 21 pages).
Proof.
  intros w calendarId s e pages Hne Hup.
  destruct (paginationLoop_served pages s e 21 0 None [] []) as (tokens & Hloop & Hlen);
    [lia | lia | exact Hne |].
  cbn [skipn Nat.sub app] in Hloop, Hlen.
  split.
  - unfold AdvancedCalendarService.executePaginatedQuery,
      Calendar.executePaginatedQuery_fuel.
    rewrite Hup, Hloop. reflexivity.
  - exists tokens. split; [exact Hloop | exact Hlen].
Qed.

Lemma paginated_query_returns_first_pages_witness :
  let a := eventBetween (on_2025_07_15 10 0) (on_2025_07_15 11 0) in
  let b := eventBetween (on_2025_07_15 12 0) (on_2025_07_15 13 0) in
  let pages := [Js.Ok [a]; Js.Ok [b]; Js.Throw "quota"; Js.Ok [a]] in
  let w := {| properties := properties world0; lockFree := true; now := 0;
              Calendar_Events_list := fun _ _ _ => servedUpstream pages;
              CalendarApp_getEvents := CalendarApp_getEvents world0;
              customerLineId := customerLineId world0;
              bookingRows := []; trace := [] |} in
  AdvancedCalendarService.executePaginatedQuery w "bookings@example.com" (Some 0) (Some 1)
  = [a; b].
Proof.
  intros a b pages w.
  destruct (paginated_query_returns_first_pages w "bookings@example.com" 0 1 pages)
    as [H _]; [discriminate | reflexivity | exact H].
Defined.

End PagedResults.

(* ------------------------------------------------------------------ *)
(** ** Yearly booking sheets                                            *)
(* ------------------------------------------------------------------ *)

Section YearlySheets.
Import SheetNames.

(** A string that passes the date pattern, spelled out. *)
Lemma date_pattern_inv : forall d,
  Batch.dateRegex_test d = true ->
  exists y1 y2 y3 y4 m1 m2 d1 d2,
    d = string_of_list_ascii
          [y1; y2; y3; y4; "-"%char; m1; m2; "-"%char; d1; d2]
    /\ forallb Js.is_digit [y1; y2; y3; y4] = true.
Proof.
  intros d H. unfold Batch.dateRegex_test, Js.parseYMD, Js.chars in H.
  rewrite <- (string_of_list_ascii_of_string d).
  destruct (list_ascii_of_string d)
    as [|y1 [|y2 [|y3 [|y4 [|s1 [|m1 [|m2 [|s2 [|d1 [|d2 [|x l]]]]]]]]]]];
    try discriminate H.
  destruct (forallb Js.is_digit [y1; y2; y3; y4; m1; m2; d1; d2]
            && Ascii.eqb s1 "-" && Ascii.eqb s2 "-") eqn:E; [|discriminate H].
  apply andb_prop in E. destruct E as [E S2].
  apply andb_prop in E. destruct E as [E S1].
  apply Ascii.eqb_eq in S1, S2. subst s1 s2.
  exists y1, y2, y3, y4, m1, m2, d1, d2. split; [reflexivity|].
  cbn [forallb] in E |- *.
  repeat (apply andb_prop in E; destruct E as [? E]).
  repeat (apply andb_true_intro; split; try assumption).
Qed.

(** The sheet of a date that passes the date pattern. *)
Lemma yearly_sheet_of_valid_date : forall d,
  Booking.DATE_REGEX_test d = true ->
  getBookingSheetNameByDate d = Js.Ok (Booking.getBookingSheetNameByDate d)
  /\ isBookingSheetName (Booking.getBookingSheetNameByDate d) = true.
Proof.
  intros d H. unfold Booking.DATE_REGEX_test in H.
  destruct (date_pattern_inv d H) as (y1 & y2 & y3 & y4 & m1 & m2 & d1 & d2 & -> & Hy).
  split.
  - unfold getBookingSheetNameByDate, Booking.getBookingSheetNameByDate.
    cbn [string_of_list_ascii Js.truthy String.eqb negb String.substring].
    unfold fourDigits, Js.chars. cbn [list_ascii_of_string]. rewrite Hy. reflexivity.
  - unfold isBookingSheetName, Booking.getBookingSheetNameByDate, BOOKING_SHEET_NAME.
    cbn [string_of_list_ascii String.substring String.append String.length Nat.sub].
    unfold fourDigits, Js.chars. cbn [list_ascii_of_string]. rewrite Hy.
    reflexivity.
Qed.

(** X13: for every date that passes the date pattern of the booking
    commit, [getBookingSheetNameByDate] does not throw and gives the sheet
    name the commit writes to, this name is recognised by
    [isBookingSheetName], and its year is the year of the date. *)
Theorem valid_date_names_a_yearly_sheet :
  forall d, Booking.DATE_REGEX_test d = true ->
    getBookingSheetNameByDate d = Js.Ok (Booking.getBookingSheetNameByDate d)
    /\ isBookingSheetName (Booking.getBookingSheetNameByDate d) = true
    /\ exists y m day, Js.parseYMD d = Some (y, m, day)
         /\ Z.of_nat (yearOfSheet (Booking.getBookingSheetNameByDate d)) = y.
Proof.
  intros d H. destruct (yearly_sheet_of_valid_date d H) as [H1 H2].
  split; [exact H1|]. split; [exact H2|].
  unfold Booking.DATE_REGEX_test in H.
  pose proof H as Hp. unfold Batch.dateRegex_test in Hp.
  destruct (date_pattern_inv d H) as (y1 & y2 & y3 & y4 & m1 & m2 & d1 & d2 & -> & Hy).
  destruct (Js.parseYMD _) as [[[y m] day]|] eqn:E; [|discriminate Hp].
  exists y, m, day. split; [reflexivity|].
  unfold Js.parseYMD, Js.chars in E. rewrite list_ascii_of_string_of_list_ascii in E.
  destruct (forallb Js.is_digit [y1; y2; y3; y4; m1; m2; d1; d2]
            && Ascii.eqb "-" "-" && Ascii.eqb "-" "-"); [|discriminate E].
  injection E as <- _ _. f_equal.
Qed.

Lemma valid_date_names_a_yearly_sheet_witness :
  getBookingSheetNameByDate "2026-01-05" = Js.Ok "預約記錄2026"
  /\ isBookingSheetName "預約記錄2026" = true.
Proof.
  destruct (valid_date_names_a_yearly_sheet "2026-01-05") as (H1 & H2 & _);
    [reflexivity|].
  split; [exact H1 | exact H2].
Defined.

Lemma insertByYear_perm : forall x l, Permutation (insertByYear x l) (x :: l).
Proof.
  intros x l. induction l as [|y l IH]; cbn [insertByYear]; [apply Permutation_refl|].
  destruct (yearOfSheet y <=? yearOfSheet x)%nat; [apply Permutation_refl|].
  apply Permutation_trans with (y :: x :: l); [now constructor | apply perm_swap].
Qed.

Lemma insertByYear_sorted : forall x l,
  Sorted (fun a b => (yearOfSheet b <= yearOfSheet a)%nat) l ->
  Sorted (fun a b => (yearOfSheet b <= yearOfSheet a)%nat) (insertByYear x l).
Proof.
  intros x l H. induction H as [|y l Hl IH Hhd]; cbn [insertByYear].
  - repeat constructor.
  - destruct (Nat.leb_spec (yearOfSheet y) (yearOfSheet x)) as [Hle|Hgt].
    + constructor; [constructor; assumption | constructor; exact Hle].
    + constructor; [exact IH|].
      destruct l as [|z l]; cbn [insertByYear].
      * constructor. lia.
      * inversion Hhd; subst.
        destruct (yearOfSheet z <=? yearOfSheet x)%nat; constructor; [lia | assumption].
Qed.

(** X14: [getAllBookingSheetNames] returns the yearly booking sheets of
    the spreadsheet and nothing else, each as often as it occurs, ordered
    from the newest year to the oldest. *)
Theorem all_booking_sheets_newest_first :
  forall (sheetNames : list string),
    let result := getAllBookingSheetNames sheetNames in
    Permutation result (filter isBookingSheetName sheetNames)
    /\ (forall name, In name result <-> In name sheetNames /\ isBookingSheetName name = true)
    /\ Sorted (fun a b => (yearOfSheet b <= yearOfSheet a)%nat) result.
Proof.
  intros sheetNames result. unfold result, getAllBookingSheetNames.
  assert (Hperm : forall l, Permutation (fold_right insertByYear [] l) l).
  { induction l as [|x l IH]; [apply Permutation_refl|]. cbn [fold_right].
    eapply Permutation_trans; [apply insertByYear_perm | now constructor]. }
  split; [apply Hperm|]. split.
  - intros name. rewrite <- filter_In. split; intros Hin.
    + eapply Permutation_in; [apply Hperm | exact Hin].
    + eapply Permutation_in; [apply Permutation_sym, Hperm | exact Hin].
  - induction (filter isBookingSheetName sheetNames) as [|x l IH]; cbn [fold_right].
    + constructor.
    + apply insertByYear_sorted, IH.
Qed.

End YearlySheets.

(* ------------------------------------------------------------------ *)
(** ** The effects of a booking commit                                  *)
(* ------------------------------------------------------------------ *)

Section CommitEffects.
Import Availability Booking.


End CommitEffects.

(* ------------------------------------------------------------------ *)
(** ** Removing the rows of cancelled events                            *)
(* ------------------------------------------------------------------ *)

Section CancelledRows.
Import Sync.

Lemma beforeAt_no_at : forall s sub,
  includes (beforeAt s) (String "@"%char sub) = false.
Proof.
  intros s sub. induction s as [|c s IH]; [reflexivity|].
  cbn [beforeAt]. destruct (Ascii.eqb c "@"%char) eqn:E; [reflexivity|].
  cbn [includes prefixOf]. rewrite Ascii.eqb_sym, E. cbn [andb orb]. exact IH.
Qed.

(** X16: the event id that [createCalendarEvent] stores and the event id
    that [processCalendarChanges] compares are in the same normal form.
    Normalising twice is normalising once, and a normalised id never
    carries the calendar suffix; the id stored for a created event is
    already normal, so a sheet cell that holds it is compared as it stands,
    and its row is matched by a cancelled id exactly when the two ids are
    equal. *)
Theorem event_id_normalisation_is_idempotent :
  forall (sheetId eventId deletedId : string) (row : nat),
    normalizeId (normalizeId sheetId) = normalizeId sheetId
    /\ includes (normalizeId sheetId) "@google.com" = false
    /\ normalizeId (storedEventId eventId) = storedEventId eventId
    /\ matchingRows deletedId [storedEventId eventId] row
       = if String.eqb (storedEventId eventId) deletedId then [row] else [].
Proof.
  intros sheetId eventId deletedId row.
  assert (Hnormal : forall s, normalizeId (normalizeId s) = normalizeId s
                              /\ includes (normalizeId s) "@google.com" = false).
  { intros s. unfold normalizeId.
    destruct (includes s "@google.com") eqn:E.
    - rewrite beforeAt_no_at. split; reflexivity.
    - rewrite E. split; reflexivity. }
  assert (Hstored : normalizeId (storedEventId eventId) = storedEventId eventId)
    by exact (proj1 (Hnormal eventId)).
  split; [exact (proj1 (Hnormal sheetId))|]. split; [exact (proj2 (Hnormal sheetId))|].
  split; [exact Hstored|].
  cbn [matchingRows]. rewrite Hstored.
  destruct (String.eqb (storedEventId eventId) deletedId); reflexivity.
Qed.

Lemma matchingRows_In : forall targetId ids row r,
  In r (matchingRows targetId ids row)
  <-> exists i sheetId, nth_error ids i = Some sheetId
        /\ normalizeId sheetId = targetId /\ r = (row + i)%nat.
Proof.
  intros targetId ids. induction ids as [|sheetId ids IH]; intros row r.
  - cbn. split; [intros [] | intros ([|i] & x & H & _); discriminate H].
  - cbn [matchingRows]. destruct (String.eqb_spec (normalizeId sheetId) targetId) as [E|E].
    + cbn [In]. rewrite IH. split.
      * intros [<- | (i & x & H1 & H2 & ->)].
        -- exists 0%nat, sheetId. repeat split; [exact E | lia].
        -- exists (S i), x. repeat split; [exact H1 | exact H2 | lia].
      * intros ([|i] & x & H1 & H2 & ->).
        -- left. lia.
        -- right. exists i, x. repeat split; [exact H1 | exact H2 | lia].
    + rewrite IH. split.
      * intros (i & x & H1 & H2 & ->).
        exists (S i), x. repeat split; [exact H1 | exact H2 | lia].
      * intros ([|i] & x & H1 & H2 & ->).
        -- cbn in H1. injection H1 as <-. contradiction.
        -- exists i, x. repeat split; [exact H1 | exact H2 | lia].
Qed.

Lemma unique_spec : forall rows,
  NoDup (unique rows) /\ forall r, In r (unique rows) <-> In r rows.
Proof.
  intros rows. unfold unique.
  assert (H : forall rows acc, NoDup acc ->
            NoDup (fold_left (fun acc r => if existsb (Nat.eqb r) acc then acc
                                           else acc ++ [r]) rows acc)
            /\ forall r, In r (fold_left (fun acc r => if existsb (Nat.eqb r) acc then acc
                                                        else acc ++ [r]) rows acc)
                         <-> In r acc \/ In r rows).
  { induction rows0 as [|x rows0 IH]; intros acc Hacc.
    - cbn. split; [exact Hacc | intros r; tauto].
    - cbn [fold_left]. destruct (existsb (Nat.eqb x) acc) eqn:E.
      + destruct (IH acc Hacc) as [H1 H2]. split; [exact H1|].
        intros r. rewrite H2. cbn [In]. split; [tauto|].
        intros [H|[<-|H]]; [tauto | | tauto].
        left. apply existsb_exists in E. destruct E as (y & Hy & Ey).
        apply Nat.eqb_eq in Ey. now subst.
      + assert (Hx : ~ In x acc).
        { intros Hin. assert (T : existsb (Nat.eqb x) acc = true)
            by (apply existsb_exists; exists x; split; [exact Hin | apply Nat.eqb_refl]).
          congruence. }
        assert (Hnd : NoDup (acc ++ [x])).
        { apply NoDup_app; [exact Hacc | repeat constructor; intros [] |].
          intros y Hy [<-|[]]. contradiction. }
        destruct (IH (acc ++ [x]) Hnd) as [H1 H2]. split; [exact H1|].
        intros r. rewrite H2, in_app_iff. cbn [In]. tauto. }
  destruct (H rows [] (NoDup_nil _)) as [H1 H2]. split; [exact H1|].
  intros r. rewrite H2. cbn [In]. tauto.
Qed.

Lemma insertDesc_perm : forall x l, Permutation (insertDesc x l) (x :: l).
Proof.
  intros x l. induction l as [|y l IH]; cbn [insertDesc]; [apply Permutation_refl|].
  destruct (y <=? x)%nat; [apply Permutation_refl|].
  apply Permutation_trans with (y :: x :: l); [now constructor | apply perm_swap].
Qed.

Lemma sortDesc_perm : forall l, Permutation (sortDesc l) l.
Proof.
  induction l as [|x l IH]; [apply Permutation_refl|]. cbn [sortDesc fold_right].
  eapply Permutation_trans; [apply insertDesc_perm | now constructor].
Qed.

Lemma insertDesc_sorted : forall x l,
  Sorted ge l -> Sorted ge (insertDesc x l).
Proof.
  intros x l H. induction H as [|y l Hl IH Hhd]; cbn [insertDesc].
  - repeat constructor.
  - destruct (Nat.leb_spec y x) as [Hle|Hgt].
    + constructor; [constructor; assumption | constructor; exact Hle].
    + constructor; [exact IH|].
      destruct l as [|z l]; cbn [insertDesc].
      * constructor. unfold ge. lia.
      * inversion Hhd; subst.
        destruct (z <=? x)%nat; constructor; [unfold ge; lia | assumption].
Qed.

Lemma sortDesc_sorted : forall l, Sorted ge (sortDesc l).
Proof.
  induction l as [|x l IH]; [constructor|]. apply insertDesc_sorted, IH.
Qed.

(** A duplicate-free list in descending order is strictly descending. *)
Lemma strictly_descending : forall l,
  Sorted ge l -> NoDup l -> forall x t, l = x :: t -> forall y, In y t -> (y < x)%nat.
Proof.
  intros l Hs Hnd x t -> y Hy.
  apply Sorted_StronglySorted in Hs; [|intros a b c; unfold ge; lia].
  inversion Hs as [|? ? _ Hall]; subst. inversion Hnd as [|? ? Hnotin _]; subst.
  rewrite Forall_forall in Hall. specialize (Hall y Hy). unfold ge in Hall.
  assert (y <> x) by (intros ->; contradiction). lia.
Qed.

Lemma keepRows_none : forall (A : Type) (drop : nat -> bool) (rows : list A) row,
  (forall i, (row <= i)%nat -> drop i = false) -> keepRows drop row rows = rows.
Proof.
  intros A drop rows. induction rows as [|x rows IH]; intros row H; [reflexivity|].
  cbn [keepRows]. rewrite (H row) by lia. f_equal. apply IH. intros i Hi. apply H. lia.
Qed.

(** Deleting row [r] from rows of which no row from [r] on is marked. *)
Lemma keepRows_deleteRow : forall (A : Type) (drop : nat -> bool) (rows : list A) r row,
  (1 <= r)%nat ->
  (forall i, (row + r - 1 <= i)%nat -> drop i = false) ->
  keepRows drop row (deleteRow r rows)
  = keepRows (fun i => drop i || (i =? row + r - 1)%nat) row rows.
Proof.
  intros A drop rows. induction rows as [|x rows IH]; intros r row Hr Hdrop.
  - destruct r as [|[|r]]; reflexivity.
  - destruct r as [|[|r]]; [lia | |].
    + cbn [deleteRow keepRows].
      replace (row + 1 - 1)%nat with row by lia.
      rewrite Nat.eqb_refl, orb_true_r.
      rewrite keepRows_none by (intros i Hi; apply Hdrop; lia).
      symmetry. apply keepRows_none. intros i Hi.
      rewrite (Hdrop i) by lia. apply Nat.eqb_neq. lia.
    + change (deleteRow (S (S r)) (x :: rows)) with (x :: deleteRow (S r) rows).
      cbn [keepRows].
      replace (row =? row + S (S r) - 1)%nat with false by (symmetry; apply Nat.eqb_neq; lia).
      rewrite orb_false_r.
      rewrite (IH (S r) (S row)) by (try lia; intros i Hi; apply Hdrop; lia).
      replace (S row + S r - 1)%nat with (row + S (S r) - 1)%nat by lia.
      reflexivity.
Qed.

Lemma keepRows_ext : forall (A : Type) (f g : nat -> bool) (rows : list A) row,
  (forall i, f i = g i) -> keepRows f row rows = keepRows g row rows.
Proof.
  intros A f g rows. induction rows as [|x rows IH]; intros row H; [reflexivity|].
  cbn [keepRows]. rewrite H, (IH (S row) H). reflexivity.
Qed.

(** Deleting a strictly descending list of row numbers, one after the
    other, removes exactly the rows with these numbers. *)
Lemma delete_descending : forall (A : Type) (rowNumbers : list nat) (rows : list A),
  Sorted ge rowNumbers -> NoDup rowNumbers -> Forall (fun r => (1 <= r)%nat) rowNumbers ->
  fold_left (fun sheet row => deleteRow row sheet) rowNumbers rows
  = keepRows (fun i => existsb (Nat.eqb i) rowNumbers) 1 rows.
Proof.
  intros A rowNumbers. induction rowNumbers as [|r rowNumbers IH]; intros rows Hs Hnd Hpos.
  - cbn [fold_left existsb]. symmetry. apply keepRows_none. reflexivity.
  - cbn [fold_left].
    pose proof (strictly_descending _ Hs Hnd r rowNumbers eq_refl) as Hlt.
    inversion Hs as [|? ? Hs' _]; subst. inversion Hnd as [|? ? _ Hnd']; subst.
    inversion Hpos as [|? ? Hr Hpos']; subst.
    rewrite (IH (deleteRow r rows) Hs' Hnd' Hpos').
    rewrite (keepRows_deleteRow A _ rows r 1 Hr).
    + apply keepRows_ext. intros i. cbn [existsb].
      replace (1 + r - 1)%nat with r by lia. apply orb_comm.
    + intros i Hi. replace (1 + r - 1)%nat with r in Hi by lia.
      destruct (existsb (Nat.eqb i) rowNumbers) eqn:E; [|reflexivity].
      apply existsb_exists in E. destruct E as (y & Hy & Ey).
      apply Nat.eqb_eq in Ey. subst y. specialize (Hlt i Hy). lia.
Qed.

Lemma keepRows_filter : forall (A : Type) (drop : nat -> bool) (keep : A -> bool)
    (rows : list A) row,
  (forall i x, nth_error rows i = Some x -> drop (row + i)%nat = negb (keep x)) ->
  keepRows drop row rows = filter keep rows.
Proof.
  intros A drop keep rows. induction rows as [|x rows IH]; intros row H; [reflexivity|].
  cbn [keepRows filter].
  pose proof (H 0%nat x eq_refl) as H0. rewrite Nat.add_0_r in H0. rewrite H0.
  rewrite (IH (S row)).
  - destruct (keep x); reflexivity.
  - intros i y Hy. rewrite <- (H (S i) y Hy). f_equal. lia.
Qed.

Lemma marked_count : forall (A : Type) (drop : nat -> bool) (mark : A -> bool)
    (rows : list A) row,
  (forall i x, nth_error rows i = Some x -> drop (row + i)%nat = mark x) ->
  List.length (filter drop (seq row (List.length rows))) = List.length (filter mark rows).
Proof.
  intros A drop mark rows. induction rows as [|x rows IH]; intros row H; [reflexivity|].
  cbn [List.length seq filter].
  pose proof (H 0%nat x eq_refl) as H0. rewrite Nat.add_0_r in H0. rewrite H0.
  assert (IH' : List.length (filter drop (seq (S row) (List.length rows)))
                = List.length (filter mark rows)).
  { apply IH. intros i y Hy. rewrite <- (H (S i) y Hy). f_equal. lia. }
  destruct (mark x); cbn [List.length]; now rewrite IH'.
Qed.

(** X17: what the synchronisation does to one booking sheet.  Deleting the
    matching rows from the last to the first removes exactly the rows whose
    event id, normalised, is the id of a cancelled event: the header and
    every other row stay, in their order, whatever the order and the
    repetitions of the cancelled ids; the number of deletions is the number
    of such rows. *)
Theorem cancelled_rows_are_removed :
  forall (A : Type) (eventId : A -> string) (deleted : list string)
         (header : A) (body : list A),
    let cancelled row := existsb (String.eqb (normalizeId (eventId row))) deleted in
    processSheet eventId deleted (header :: body)
    = (header :: filter (fun row => negb (cancelled row)) body,
       List.length (filter cancelled body)).
Proof.
  intros A eventId deleted header body cancelled. unfold processSheet.
  destruct body as [|row1 body']; [reflexivity|].
  change (List.length (header :: row1 :: body') <=? 1)%nat with false. cbv iota.
  change (skipn 1 (header :: row1 :: body')) with (row1 :: body').
  set (body := row1 :: body').
  set (ids := map eventId body).
  set (uniqueRows := sortDesc (unique (rowsToDelete deleted ids))).
  destruct (unique_spec (rowsToDelete deleted ids)) as [Hnd Hin].
  assert (Hmem : forall r, In r uniqueRows
                   <-> exists i x, nth_error body i = Some x /\ cancelled x = true
                                   /\ r = (2 + i)%nat).
  { intros r. unfold uniqueRows. split.
    - intros H. apply (Permutation_in _ (sortDesc_perm _)) in H. apply Hin in H.
      unfold rowsToDelete in H. apply in_flat_map in H. destruct H as (d & Hd & H).
      apply matchingRows_In in H. destruct H as (i & sid & Hi & Hn & ->).
      unfold ids in Hi. rewrite nth_error_map in Hi.
      destruct (nth_error body i) as [x|] eqn:Ex; [|discriminate Hi].
      injection Hi as <-. exists i, x. split; [exact Ex|]. split; [|reflexivity].
      unfold cancelled. apply existsb_exists. exists d. split; [exact Hd|].
      now apply String.eqb_eq.
    - intros (i & x & Hx & Hc & ->).
      apply (Permutation_in _ (Permutation_sym (sortDesc_perm _))). apply Hin.
      unfold cancelled in Hc. apply existsb_exists in Hc. destruct Hc as (d & Hd & Hc).
      apply String.eqb_eq in Hc.
      unfold rowsToDelete. apply in_flat_map. exists d. split; [exact Hd|].
      apply matchingRows_In. exists i, (eventId x).
      split; [|split; [exact Hc | reflexivity]].
      unfold ids. rewrite nth_error_map, Hx. reflexivity. }
  assert (Hnd' : NoDup uniqueRows)
    by (apply (Permutation_NoDup (Permutation_sym (sortDesc_perm _))), Hnd).
  assert (Hdrop : forall i x, nth_error body i = Some x ->
                    existsb (Nat.eqb (2 + i)) uniqueRows = cancelled x).
  { intros i x Hx. apply eq_true_iff_eq. rewrite existsb_exists. split.
    - intros (r & Hr & Er). apply Nat.eqb_eq in Er. subst r.
      apply Hmem in Hr. destruct Hr as (j & y & Hy & Hc & Ej).
      assert (j = i) by lia. subst j. congruence.
    - intros Hc. exists (2 + i)%nat. split; [|apply Nat.eqb_refl].
      apply Hmem. exists i, x. split; [exact Hx|]. split; [exact Hc | reflexivity]. }
  f_equal.
  - rewrite delete_descending.
    + cbn [keepRows].
      replace (existsb (Nat.eqb 1) uniqueRows) with false.
      * f_equal. apply keepRows_filter. intros i x Hx.
        rewrite (Hdrop i x Hx). now rewrite negb_involutive.
      * symmetry. apply not_true_is_false. intros H. apply existsb_exists in H.
        destruct H as (r & Hr & Er). apply Nat.eqb_eq in Er. subst r.
        apply Hmem in Hr. destruct Hr as (j & y & _ & _ & Ej). lia.
    + apply sortDesc_sorted.
    + exact Hnd'.
    + apply Forall_forall. intros r Hr. apply Hmem in Hr.
      destruct Hr as (j & y & _ & _ & ->). lia.
  - rewrite <- (marked_count A (fun r => existsb (Nat.eqb r) uniqueRows) cancelled body 2 Hdrop).
    apply Permutation_length. apply NoDup_Permutation.
    + exact Hnd'.
    + apply NoDup_filter, seq_NoDup.
    + intros r. rewrite filter_In, in_seq. split.
      * intros Hr. pose proof Hr as Hr'. apply Hmem in Hr'.
        destruct Hr' as (j & y & Hy & _ & ->). split.
        -- assert (j < List.length body)%nat
             by (apply nth_error_Some; congruence).
           lia.
        -- apply existsb_exists. exists (2 + j)%nat. split; [exact Hr | apply Nat.eqb_refl].
      * intros [_ Hr]. apply existsb_exists in Hr. destruct Hr as (y & Hy & Ey).
        apply Nat.eqb_eq in Ey. now subst.
Qed.

End CancelledRows.

(* ------------------------------------------------------------------ *)
(** ** The single-day availability request                              *)
(* ------------------------------------------------------------------ *)

Section DayQuery.
Import Availability.

(** X18: the single-day request reads no calendar and answers with an
    empty map when the date is missing, when the slot list is missing or
    empty, when the date does not match the pattern, and when the date
    matches the pattern but is no calendar date; only the empty slot list
    counts as a success. *)
Theorem day_query_reads_nothing_on_bad_input :
  forall (getEvents : EventSource) (date : option string)
         (timeSlots : option (list string)) (w : World),
    Js.truthy date = false
    \/ timeSlots = None
    \/ timeSlots = Some []
    \/ (exists d, date = Some d
                  /\ (Batch.dateRegex_test d = false \/ Js.dayNumber d = None)) ->
    let r := Query.handleCheckTimeSlotAvailability getEvents date timeSlots w in
    snd r = w
    /\ Query.availability (fst r) = []
    /\ Query.checkedSlots (fst r) = 0%nat
    /\ Query.success (fst r)
       = Js.truthy date && match timeSlots with Some [] => true | _ => false end.
Proof.
  intros getEvents date timeSlots w H r. unfold r, Query.handleCheckTimeSlotAvailability.
  destruct (Js.truthy date) eqn:T; cbn [negb andb]; [|repeat split].
  destruct date as [d|]; [|discriminate T].
  destruct timeSlots as [[|slot slots]|]; [repeat split | | repeat split].
  destruct H as [H|[H|[H|(d' & E & H)]]]; [discriminate H | discriminate H | discriminate H |].
  injection E as <-.
  destruct (Batch.dateRegex_test d) eqn:R; cbn [negb]; [|repeat split].
  destruct H as [H|H]; [discriminate H|].
  destruct (Config.calendarId (properties w)) as [cal|message]; [|repeat split].
  destruct (String.eqb cal Config.PLACEHOLDER_CALENDAR_ID); [repeat split|].
  unfold Utils.createTaipeiDateFromYMD. rewrite T.
  unfold Js.newDate_taipei. rewrite H. repeat split.
Qed.

Lemma day_query_reads_nothing_on_bad_input_witness :
  let r := Query.handleCheckTimeSlotAvailability downSource (Some "2025-13-45")
             (Some ["10:00"]) world0 in
  snd r = world0 /\ Query.success (fst r) = false.
Proof.
  intros r.
  destruct (day_query_reads_nothing_on_bad_input downSource (Some "2025-13-45")
              (Some ["10:00"]) world0) as (Hw & _ & _ & Hs);
    [right; right; right; exists "2025-13-45"; split; [reflexivity | right; reflexivity]|].
  split; [exact Hw | exact Hs].
Defined.

(** X19: on a calendar date, the record the commit re-validates a slot
    with is the record the single-day request returns for that slot, read
    through the same event source from the same window: both leave the
    world in the same state, and when the calendar is not configured
    neither has a record. *)
Theorem revalidation_agrees_with_day_query :
  forall (getEvents : EventSource) (d t : string) (w : World) (midnight : Z),
    Batch.dateRegex_test d = true ->
    Utils.createTaipeiDateFromYMD d = Js.Ok (Some midnight) ->
    Js.truthy (Some t) = true ->
    let check := Booking.verifyBackendTimeSlotAvailability getEvents d t w in
    let query := Query.handleCheckTimeSlotAvailability getEvents (Some d) (Some [t]) w in
    Booking.slotStatus (fst check) = objGet t (Query.availability (fst query))
    /\ snd check = snd query.
Proof.
  intros getEvents d t w midnight Hre Hdate Ht check query.
  assert (Hd : Js.truthy (Some d) = true).
  { unfold Utils.createTaipeiDateFromYMD in Hdate.
    destruct (Js.truthy (Some d)); [reflexivity | discriminate Hdate]. }
  unfold check, query, Booking.verifyBackendTimeSlotAvailability, Booking.verifyBackend_try,
    Query.handleCheckTimeSlotAvailability.
  rewrite Hd, Ht, Hre. cbn [negb orb].
  destruct (Config.calendarId (properties w)) as [cal|message]; [|split; reflexivity].
  destruct (String.eqb cal Config.PLACEHOLDER_CALENDAR_ID); [split; reflexivity|].
  rewrite Hdate.
  destruct (checkTimeSlotsAvailability getEvents d [t] cal w) as [availability w'].
  cbn [Query.availability fst snd].
  destruct (objGet t availability) as [status|]; split; reflexivity.
Qed.

Lemma revalidation_agrees_with_day_query_witness :
  let w := worldWith [eventBetween (on_2025_07_15 14 0) (on_2025_07_15 15 0)] in
  Booking.slotStatus
    (fst (Booking.verifyBackendTimeSlotAvailability AdvancedCalendarService.getEvents
            "2025-07-15" "14:00" w))
  = objGet "14:00"
      (Query.availability
         (fst (Query.handleCheckTimeSlotAvailability AdvancedCalendarService.getEvents
                 (Some "2025-07-15") (Some ["14:00"]) w))).
Proof.
  intros w.
  destruct (revalidation_agrees_with_day_query AdvancedCalendarService.getEvents
              "2025-07-15" "14:00" w (20284 * Js.MS_PER_DAY - Utils.UTC_OFFSET_MS))
    as [H _]; [reflexivity | reflexivity | reflexivity | exact H].
Defined.

(** X20: a date that matches the date pattern but is no calendar date
    (month 13, day 45) is turned down by the single-day request, yet it
    passes the commit: its query window and its slot window are Invalid
    Dates, so when the calendar returns no events for that window the
    re-validation finds no conflict, and a booking row is written to the
    sheet of that year. *)
Theorem impossible_date_passes_the_commit :
  forall (b : Booking.BookingData) (w : World) (d t cal : string),
    lockFree w = true ->
    Booking.validateBooking b = Js.Ok (d, t) ->
    Js.dayNumber d = None ->
    Config.calendarId (properties w) = Js.Ok cal ->
    cal <> Config.PLACEHOLDER_CALENDAR_ID ->
    AdvancedCalendarService.fallbackToCalendarApp w cal None None = [] ->
    let r := Booking.handleSaveBooking AdvancedCalendarService.getEvents (Some b) w in
    Utils.getOptimizedQueryRange d = (None, None)
    /\ slotWindow t d = (None, None)
    /\ (exists res, fst r = Js.Ok res /\ Booking.success res = true)
    /\ (exists row, bookingRows (snd r)
                    = bookingRows w ++ [(Booking.getBookingSheetNameByDate d, row)])
    /\ fst (Query.handleCheckTimeSlotAvailability AdvancedCalendarService.getEvents
              (Some d) (Some [t]) w)
       = Query.failure Batch.MSG_INVALID_DATE.
Proof.
  intros b w d t cal Hlock Hvalid Hday Hcal Hne Hempty r.
  destruct (validateBooking_Ok _ _ _ Hvalid) as (_ & _ & Hd & Ht & Hre & _).
  assert (Hrange : Utils.getOptimizedQueryRange d = (None, None)).
  { unfold Utils.getOptimizedQueryRange, Js.newDate_taipei. rewrite Hday.
    change (negb Config.enableBusinessHoursFilter) with false. cbv iota.
    destruct (Utils.splitHourMinute Config.businessHours_start),
             (Utils.splitHourMinute Config.businessHours_end). reflexivity. }
  assert (Hwindow : slotWindow t d = (None, None)).
  { unfold slotWindow, Js.newDate_taipei. rewrite Hday.
    destruct (Utils.splitHourMinute t). reflexivity. }
  assert (Hcommit :
            r = (Js.Ok {| Booking.success := true; Booking.error := None;
                          Booking.conflictDetails := None |},
                 emit ReleaseLock
                   (Booking.persist b d t
                      (emit (GetEvents cal None None) (emit (WaitLock true) w))))).
  { unfold r, Booking.handleSaveBooking, Booking.saveBooking_try.
    rewrite Hlock, Hvalid. cbn [negb].
    pose proof (verifyBackend_configured (emit (WaitLock true) w) d t cal Hd Ht Hcal Hne)
      as Hv.
    cbv zeta in Hv. rewrite Hv. clear Hv.
    rewrite Hrange. cbn [fst snd].
    unfold AdvancedCalendarService.queryEvents,
      AdvancedCalendarService.getEventsWithSmartPagination,
      AdvancedCalendarService.getEventsDirectly.
    change Config.smartPagination_enabled with true.
    change (Calendar.shouldUsePagination None None) with false. cbv iota.
    change (AdvancedCalendarService.fallbackToCalendarApp (emit (WaitLock true) w) cal None None)
      with (AdvancedCalendarService.fallbackToCalendarApp w cal None None).
    rewrite Hempty. unfold checkSingleTimeSlotAvailability. rewrite Hwindow.
    cbn [scanEvents Z.eqb available Booking.checkAvailable negb].
    reflexivity. }
  split; [exact Hrange|]. split; [exact Hwindow|]. split; [|split].
  - rewrite Hcommit. eexists. split; reflexivity.
  - rewrite Hcommit. unfold Booking.persist.
    match goal with |- context [appendRow _ ?x _] => exists x end.
    reflexivity.
  - unfold Query.handleCheckTimeSlotAvailability.
    unfold Booking.DATE_REGEX_test in Hre. rewrite Hd, Hre, Hcal. cbn [negb].
    apply String.eqb_neq in Hne. rewrite Hne.
    unfold Utils.createTaipeiDateFromYMD, Js.newDate_taipei. rewrite Hd, Hday. reflexivity.
Qed.

Lemma impossible_date_passes_the_commit_witness :
  let b := {| Booking.customerName := Some "Amy"; Booking.phone := Some "0912345678";
              Booking.date := Some "2025-13-45"; Booking.time := Some "14:00";
              Booking.serviceText := None; Booking.services := Some "gel";
              Booking.service := None; Booking.removalText := None;
              Booking.removal := None; Booking.quantityText := None;
              Booking.quantity := None; Booking.remarks := None |} in
  let r := Booking.handleSaveBooking AdvancedCalendarService.getEvents (Some b) world0 in
  (exists res, fst r = Js.Ok res /\ Booking.success res = true)
  /\ map (fun entry => (fst entry, rowDate (snd entry))) (bookingRows (snd r))
     = [("預約記錄2025", "2025年13月45日")].
Proof.
  intros b r.
  destruct (impossible_date_passes_the_commit b world0 "2025-13-45" "14:00"
              "bookings@example.com") as (_ & _ & H & _);
    [reflexivity | reflexivity | reflexivity | reflexivity | discriminate | reflexivity |].
  split; [exact H|]. vm_compute. reflexivity.
Defined.

End DayQuery.

(* ------------------------------------------------------------------ *)
(** ** The dates of a batch answer                                      *)
(* ------------------------------------------------------------------ *)

Section BatchDates.
Import Availability.

Lemma isoDate_inj : forall j k,
  -719528 <= j <= 2932896 -> -719528 <= k <= 2932896 ->
  Js.isoDate j = Js.isoDate k -> j = k.
Proof.
  intros j k Hj Hk E.
  assert (H : Some j = Some k)
    by (rewrite <- (dayNumber_isoDate j Hj), <- (dayNumber_isoDate k Hk); now rewrite E).
  now injection H.
Qed.

Lemma processDay_count : forall tz timeSlotsByDate bookingsByDate dateStr,
  snd (Batch.processDay tz timeSlotsByDate bookingsByDate dateStr)
  = Z.of_nat (List.length (fst (Batch.processDay tz timeSlotsByDate bookingsByDate dateStr))).
Proof.
  intros tz ts bk dateStr. unfold Batch.processDay.
  pose proof (extractTimeSlotsFromEvents_NoDup tz (Batch.bucketOf ts dateStr) dateStr) as Hnd.
  destruct (Batch.extractTimeSlotsFromEvents tz (Batch.bucketOf ts dateStr) dateStr)
    as [|s l]; [reflexivity|].
  cbn [fst snd]. unfold checkTimeSlotsAvailabilityFromEvents.
  rewrite (fold_objSet_fresh _
             (fun slot => checkSingleTimeSlotAvailabilityFromEvents
                            (Batch.bucketOf bk dateStr) slot dateStr) _ [] Hnd).
  cbn [app]. now rewrite !length_map.
Qed.

(** The day loop from day [k] on, with as many iterations as there are
    days left up to day [b]. *)
Lemma dayLoop_entries : forall tz timeSlotsByDate bookingsByDate b days k result td tsl,
  -719528 <= k -> b <= 2932896 -> k + Z.of_nat days = b + 1 ->
  (forall j, k <= j <= b -> ~ In (Js.isoDate j) (map fst result)) ->
  let entry j := (Js.isoDate j,
                  fst (Batch.processDay tz timeSlotsByDate bookingsByDate (Js.isoDate j))) in
  let entries := map entry (dayRange k days) in
  Batch.dayLoop days tz (k * Js.MS_PER_DAY) (b * Js.MS_PER_DAY)
    timeSlotsByDate bookingsByDate result td tsl
  = Js.Ok (result ++ entries,
           td + Z.of_nat (List.length (filter (fun e => negb (List.length (snd e) =? 0)%nat)
                                              entries)),
           tsl + Z.of_nat (List.length (List.concat (map snd entries)))).
Proof.
  intros tz ts bk b. induction days as [|days IH]; intros k result td tsl Hk Hb Hdays Hfresh.
  - cbn. rewrite app_nil_r, !Z.add_0_r. reflexivity.
  - cbv zeta. cbn [Batch.dayLoop dayRange map].
    replace (k * Js.MS_PER_DAY <=? b * Js.MS_PER_DAY) with true
      by (symmetry; apply Z.leb_le; unfold Js.MS_PER_DAY; lia).
    rewrite (getTaipeiDateString_in_day (k * Js.MS_PER_DAY) k)
      by (unfold Js.MS_PER_DAY, Utils.UTC_OFFSET_MS; lia).
    cbn [Js.bind].
    pose proof (processDay_count tz ts bk (Js.isoDate k)) as Hcount.
    destruct (Batch.processDay tz ts bk (Js.isoDate k)) as [availability n] eqn:Hday.
    cbn [fst snd] in Hcount |- *.
    replace (k * Js.MS_PER_DAY + Js.MS_PER_DAY) with ((k + 1) * Js.MS_PER_DAY) by lia.
    rewrite objSet_fresh by (apply Hfresh; lia).
    rewrite IH.
    + cbv zeta. rewrite <- app_assoc. cbn [app filter List.concat snd List.length].
      rewrite length_app.
      f_equal. f_equal.
      * f_equal. subst n.
        destruct availability as [|x availability]; cbn [List.length Nat.eqb negb Z.of_nat].
        -- reflexivity.
        -- change (Z.pos (Pos.of_succ_nat (List.length availability)) =? 0) with false.
           cbv iota. cbn [List.length]. lia.
      * subst n. lia.
    + lia.
    + exact Hb.
    + lia.
    + intros j Hj. rewrite map_app, in_app_iff. cbn [map fst In].
      intros [Hin|[E|[]]].
      * apply (Hfresh j); [lia | exact Hin].
      * apply isoDate_inj in E; lia.
Qed.

(** X21: a batch answer that succeeds has exactly one entry per date of
    the range, from the first date to the last in calendar order, each
    holding what the day loop computes for that date; the slot total is the
    number of slot records in the answer and the day total the number of
    dates with at least one; an answer that fails carries no data. *)
Theorem batch_answer_lists_every_date_once :
  forall (getEvents : EventSource) (tz a b : Z) (w : World),
    -719528 <= a -> a <= b -> b <= 2932896 ->
    let r := fst (Batch.handleBatchCheckTimeSlotAvailability getEvents tz
                    (Js.isoDate a) (Js.isoDate b) w) in
    if Batch.success r
    then map fst (Batch.data r) = map Js.isoDate (dayRange a (Z.to_nat (b - a + 1)))
         /\ Batch.totalSlots r = Z.of_nat (List.length (List.concat (map snd (Batch.data r))))
         /\ Batch.totalDays r
            = Z.of_nat (List.length (filter (fun e => negb (List.length (snd e) =? 0)%nat)
                                            (Batch.data r)))
         /\ b - a <= Batch.maxDays
    else Batch.data r = [].
Proof.
  intros getEvents tz a b w Ha Hab Hb r. unfold r, Batch.handleBatchCheckTimeSlotAvailability.
  assert (Hdate : forall k, -719528 <= k <= 2932896 ->
            Js.newDate_dateOnly (Js.isoDate k) = Some (k * Js.MS_PER_DAY)).
  { intros k Hk. unfold Js.newDate_dateOnly. rewrite (dayNumber_isoDate k Hk).
    unfold Js.timeClip.
    replace (Z.abs _ <=? Js.MAX_TIME_VALUE) with true; [reflexivity|].
    symmetry. apply Z.leb_le. unfold Js.MAX_TIME_VALUE, Js.MS_PER_DAY. lia. }
  rewrite (validateRange_spec _ _ a b (Hdate a ltac:(lia)) (Hdate b ltac:(lia)) Hab).
  destruct (Z.gtb_spec (b - a) Batch.maxDays) as [Hbig|Hsmall]; [reflexivity|].
  destruct (Config.timeSlotsCalendarId (properties w)) as [tsCal|];
    destruct (Config.calendarId (properties w)) as [bkCal|]; try reflexivity.
  destruct (negb (Js.truthy (Some tsCal)) || negb (Js.truthy (Some bkCal))); [reflexivity|].
  destruct (Utils.getOptimizedQueryRangeBatch tz (Js.isoDate a) (Js.isoDate b)) as [s e].
  destruct (getEvents tsCal s e w) as [[tsEvents|] w1]; [|reflexivity].
  destruct (getEvents bkCal s e w1) as [[bkEvents|] w2]; [|reflexivity].
  destruct (Batch.groupByDate tsEvents (Js.isoDate a) (Js.isoDate b) []) as [ts|];
    [|reflexivity].
  destruct (Batch.groupByDate bkEvents (Js.isoDate a) (Js.isoDate b) []) as [bk|];
    [|reflexivity].
  cbn [Js.bind].
  replace ((b * Js.MS_PER_DAY - a * Js.MS_PER_DAY) / Js.MS_PER_DAY) with (b - a)
    by (unfold Js.MS_PER_DAY; Z.div_mod_to_equations; lia).
  replace (S (Z.to_nat (b - a))) with (Z.to_nat (b - a + 1)) by lia.
  rewrite (dayLoop_entries tz ts bk b (Z.to_nat (b - a + 1)) a [] 0 0);
    [ | lia | lia | lia | intros j _ []].
  cbn [fst Batch.success Batch.data Batch.totalSlots Batch.totalDays app].
  split; [|split; [|split]].
  - rewrite map_map. reflexivity.
  - lia.
  - lia.
  - exact Hsmall.
Qed.

Lemma batch_answer_lists_every_date_once_witness :
  map fst (Batch.data (fst (Batch.handleBatchCheckTimeSlotAvailability
                              AdvancedCalendarService.getEvents TAIPEI
                              (Js.isoDate 20284) (Js.isoDate 20286) salonWorld)))
  = ["2025-07-15"; "2025-07-16"; "2025-07-17"].
Proof.
  pose proof (batch_answer_lists_every_date_once AdvancedCalendarService.getEvents TAIPEI
                20284 20286 salonWorld) as H.
  cbv zeta in H. specialize (H ltac:(lia) ltac:(lia) ltac:(lia)).
  destruct (Batch.success _) eqn:E in H; [|vm_compute in E; discriminate E].
  destruct H as [H _]. exact H.
Defined.

End BatchDates.

(* ------------------------------------------------------------------ *)
(** ** Titles that spell a time                                         *)
(* ------------------------------------------------------------------ *)

Section SpelledTimes.
Import Extractor.

(** All times of day, checked one by one, written with and without a
    period marker in front. *)
Lemma spelled_time_table :
  let only (title : Title) (expected : string) :=
    match foundInTitle title with
    | [t] => String.eqb t expected
    | _ => false
    end in
  forallb (fun h => forallb (fun m =>
     let clock := RegExp.utf16 (String.append (Js.String_of_nat h)
                    (String.append ":" (Js.padStart2 (Js.String_of_nat m)))) in
     only (RegExp.utf16 (formatTime (Some h) (Some m))) (formatTime (Some h) (Some m))
     && only (AFTERNOON ++ clock)
             (formatTime (Some (if (h <? 12)%nat then (h + 12)%nat else h)) (Some m))
     && only (MORNING ++ clock)
             (formatTime (Some (if (h =? 12)%nat then 0%nat else h)) (Some m)))
     (seq 0 60)) (seq 0 24) = true.
Proof. vm_compute. reflexivity. Qed.

(** X22: a title that spells one time of day yields exactly one slot.  A
    slot time used as a title is read back as itself; behind the afternoon
    marker an hour below 12 is moved to the afternoon and any other hour is
    kept; behind the morning marker 12 o'clock becomes 00 and any other
    hour is kept.  The start time of the event plays no part. *)
Theorem spelled_time_is_extracted_once :
  forall (tz : Z) (eventStartTime : option Js.Date) (h m : nat),
    (h < 24)%nat -> (m < 60)%nat ->
    let clock := RegExp.utf16 (String.append (Js.String_of_nat h)
                   (String.append ":" (Js.padStart2 (Js.String_of_nat m)))) in
    let times title := map time (extractTimeSlotsFromTitle tz title eventStartTime) in
    times (RegExp.utf16 (formatTime (Some h) (Some m))) = [formatTime (Some h) (Some m)]
    /\ times (AFTERNOON ++ clock)
       = [formatTime (Some (if (h <? 12)%nat then (h + 12)%nat else h)) (Some m)]
    /\ times (MORNING ++ clock)
       = [formatTime (Some (if (h =? 12)%nat then 0%nat else h)) (Some m)].
Proof.
  intros tz start h m Hh Hm clock times.
  pose proof (forallb_seq_below _ _
                (forallb_seq_below _ _ spelled_time_table h Hh) m Hm) as T.
  cbv beta zeta in T. fold clock in T.
  apply andb_prop in T. destruct T as [T T3].
  apply andb_prop in T. destruct T as [T1 T2].
  assert (Hone : forall title expected,
            match foundInTitle title with
            | [t] => String.eqb t expected
            | _ => false
            end = true -> times title = [expected]).
  { clear T1 T2 T3. intros title expected H. unfold times. rewrite extracted_times.
    destruct (foundInTitle title) as [|t [|t' l]];
      [discriminate H | | discriminate H].
    apply String.eqb_eq in H. now subst. }
  split; [|split]; apply Hone; assumption.
Qed.

Lemma spelled_time_is_extracted_once_witness :
  map time (extractTimeSlotsFromTitle TAIPEI
              (AFTERNOON ++ RegExp.utf16 "2:30") (Some (on_2025_07_15 9 0)))
  = ["14:30"].
Proof.
  destruct (spelled_time_is_extracted_once TAIPEI (Some (on_2025_07_15 9 0)) 2 30)
    as (_ & H & _); [lia | lia | exact H].
Defined.

End SpelledTimes.

(* ------------------------------------------------------------------ *)
(** ** The batch path against the single-day check                      *)
(* ------------------------------------------------------------------ *)

Section BatchAgainstSingle.
Import Availability.

Lemma groupByDate_valid : forall events startDate endDate acc byDate,
  Batch.groupByDate events startDate endDate acc = Js.Ok byDate ->
  Forall (fun event => exists d, Utils.getTaipeiDateString (getStartTime event) = Js.Ok d)
         events.
Proof.
  induction events as [|event events IH]; intros sd ed acc byDate H; [constructor|].
  cbn [Batch.groupByDate] in H.
  destruct (Utils.getTaipeiDateString (getStartTime event)) as [d|] eqn:E;
    [|discriminate H].
  cbn [Js.bind] in H. constructor; [exists d; exact E|].
  destruct (Js.str_leb sd d && Js.str_leb d ed); exact (IH _ _ _ _ H).
Qed.

(** Events of other days can be left out of the scan. *)
Lemma scanEvents_filter_day : forall events s e q count acc,
  Forall (fun event => exists d, Utils.getTaipeiDateString (getStartTime event) = Js.Ok d)
         events ->
  scanEvents (filter (startsOn q) events) s e q count acc
  = scanEvents events s e q count acc.
Proof.
  induction events as [|event events IH]; intros s e q count acc Hall; [reflexivity|].
  inversion Hall as [|? ? [d Hd] Hrest]; subst.
  cbn [filter]. unfold startsOn at 1. rewrite Hd.
  destruct (String.eqb_spec d q) as [->|Hne].
  - cbn [scanEvents]. destruct (conflicts s e q event) as [[|]|]; cbn [Js.bind];
      [apply IH | apply IH | reflexivity]; exact Hrest.
  - cbn [scanEvents]. rewrite (conflicts_other_date s e q event d Hd Hne).
    cbn [Js.bind]. apply IH. exact Hrest.
Qed.

(** X23: the batch query and the single-day check give the same record.
    For a date of the range, checking a slot against the bucket into which
    the batch query grouped the booking events of that date gives the very
    record that the single-day check computes from the whole event list. *)
Theorem batch_record_agrees_with_single_check :
  forall (bookingEvents : list Event) (startDate endDate dateStr timeSlot : string)
         (bookingsByDate : Obj (list Event)),
    Batch.groupByDate bookingEvents startDate endDate [] = Js.Ok bookingsByDate ->
    Js.str_leb startDate dateStr && Js.str_leb dateStr endDate = true ->
    checkSingleTimeSlotAvailabilityFromEvents
      (Batch.bucketOf bookingsByDate dateStr) timeSlot dateStr
    = checkSingleTimeSlotAvailability bookingEvents timeSlot dateStr.
Proof.
  intros events sd ed d t byDate Hgroup Hin.
  rewrite (groupByDate_bucket events sd ed [] byDate d Hgroup), Hin.
  change (Batch.bucketOf [] d) with (@nil Event). cbn [app].
  unfold checkSingleTimeSlotAvailabilityFromEvents, checkSingleTimeSlotAvailability.
  destruct (slotWindow t d) as [s e].
  rewrite (scanEvents_filter_day events s e d 0 [] (groupByDate_valid _ _ _ _ _ Hgroup)).
  reflexivity.
Qed.

Lemma batch_record_agrees_with_single_check_witness :
  let events := [eventBetween (on_2025_07_15 10 0) (on_2025_07_15 11 0);
                 eventBetween (Some 1752631200000) (Some 1752634800000)] in
  exists byDate,
    Batch.groupByDate events "2025-07-15" "2025-07-16" [] = Js.Ok byDate
    /\ checkSingleTimeSlotAvailabilityFromEvents (Batch.bucketOf byDate "2025-07-15")
         "10:00" "2025-07-15"
       = checkSingleTimeSlotAvailability events "10:00" "2025-07-15".
Proof.
  intros events.
  destruct (Batch.groupByDate events "2025-07-15" "2025-07-16" []) as [byDate|] eqn:G;
    [|vm_compute in G; discriminate G].
  exists byDate. split; [reflexivity|].
  apply (batch_record_agrees_with_single_check events "2025-07-15" "2025-07-16"
           "2025-07-15" "10:00" byDate G).
  reflexivity.
Defined.

End BatchAgainstSingle.

(* ------------------------------------------------------------------ *)
(** ** The slots offered on a day                                       *)
(* ------------------------------------------------------------------ *)

Section OfferedDays.
Import TimeSlots.

Lemma dateOnly_isoDate : forall k, -719528 <= k <= 2932896 ->
  Js.newDate_dateOnly (Js.isoDate k) = Some (k * Js.MS_PER_DAY).
Proof.
  intros k Hk. unfold Js.newDate_dateOnly. rewrite (dayNumber_isoDate k Hk).
  unfold Js.timeClip.
  replace (Z.abs _ <=? Js.MAX_TIME_VALUE) with true; [reflexivity|].
  symmetry. apply Z.leb_le. unfold Js.MAX_TIME_VALUE, Js.MS_PER_DAY. lia.
Qed.

Lemma dateRegex_isoDate : forall k, -719528 <= k <= 2932896 ->
  Batch.dateRegex_test (Js.isoDate k) = true.
Proof.
  intros k Hk. exact (proj1 (newDate_dateOnly_Some _ _ (dateOnly_isoDate k Hk))).
Qed.

(** Midnight of today in Taipei. *)
Lemma today_taipei : forall w,
  -719528 * Js.MS_PER_DAY <= now w <= 2932896 * Js.MS_PER_DAY ->
  today TAIPEI w
  = Some ((now w + TAIPEI) / Js.MS_PER_DAY * Js.MS_PER_DAY - TAIPEI).
Proof.
  intros w Hnow. unfold today, Utils.setHours, Js.timeClip.
  replace (Z.abs _ <=? Js.MAX_TIME_VALUE) with true.
  - f_equal. cbn [Z.of_nat]. lia.
  - symmetry. apply Z.leb_le.
    unfold TAIPEI, Js.MAX_TIME_VALUE, Js.MS_PER_DAY, Js.MS_PER_HOUR, Js.MS_PER_MINUTE in *.
    cbn [Z.of_nat]. Z.div_mod_to_equations. lia.
Qed.

(** A UTC midnight lies before a Taipei midnight exactly when its day
    number is smaller. *)
Lemma utc_midnight_before_taipei_midnight : forall n k,
  (n * Js.MS_PER_DAY <? k * Js.MS_PER_DAY - TAIPEI) = (n <? k).
Proof.
  intros n k. apply eq_true_iff_eq. rewrite !Z.ltb_lt.
  unfold TAIPEI, Js.MS_PER_DAY, Js.MS_PER_HOUR. lia.
Qed.

(** The slots of a day that is not past: one read of the time-slot
    calendar. *)
Lemma slots_from_calendar : forall getEvents n w tsCal,
  -719528 <= n <= 2932896 ->
  Config.timeSlotsCalendarId (properties w) = Js.Ok tsCal ->
  let fetched := getEvents tsCal
                   (Some (n * Js.MS_PER_DAY - Utils.UTC_OFFSET_MS + 8 * Js.MS_PER_HOUR))
                   (Some (n * Js.MS_PER_DAY - Utils.UTC_OFFSET_MS + 22 * Js.MS_PER_HOUR
                          + 59 * 1000)) w in
  getAvailableTimeSlotsFromCalendar getEvents TAIPEI (Some (n * Js.MS_PER_DAY)) w
  = (match fst fetched with
     | Js.Ok events => Batch.extractTimeSlotsFromEvents TAIPEI events (Js.isoDate n)
     | Js.Throw _ => []
     end, snd fetched).
Proof.
  intros getEvents n w tsCal Hn Hcal fetched. unfold getAvailableTimeSlotsFromCalendar.
  rewrite Hcal.
  rewrite (getTaipeiDateString_in_day (n * Js.MS_PER_DAY) n Hn)
    by (unfold Js.MS_PER_DAY, Utils.UTC_OFFSET_MS; lia).
  rewrite (day_window n Hn). fold fetched.
  destruct fetched as [[events|message] w']; reflexivity.
Qed.

(** X24: the slots offered on a date.  A date before today's date in
    Taipei is answered with no slots and without reading a calendar; today
    and any later date is answered from one read of the time-slot calendar
    over the business hours of that date, with the slots the events of that
    date spell out (none when the read fails). *)
Theorem offered_slots_of_a_date :
  forall (getEvents : EventSource) (n : Z) (w : World) (cal tsCal : string),
    -719528 <= n <= 2932896 ->
    -719528 * Js.MS_PER_DAY <= now w <= 2932896 * Js.MS_PER_DAY ->
    Config.calendarId (properties w) = Js.Ok cal ->
    cal <> Config.PLACEHOLDER_CALENDAR_ID ->
    Config.timeSlotsCalendarId (properties w) = Js.Ok tsCal ->
    let todayNumber := (now w + TAIPEI) / Js.MS_PER_DAY in
    let fetched := getEvents tsCal
                     (Some (n * Js.MS_PER_DAY - Utils.UTC_OFFSET_MS + 8 * Js.MS_PER_HOUR))
                     (Some (n * Js.MS_PER_DAY - Utils.UTC_OFFSET_MS + 22 * Js.MS_PER_HOUR
                            + 59 * 1000)) w in
    handleGetAvailableTimeSlots getEvents TAIPEI (Some (Js.isoDate n)) w
    = if n <? todayNumber
      then ({| success := true; error := None; availableSlots := [] |}, w)
      else ({| success := true; error := None;
               availableSlots :=
                 match fst fetched with
                 | Js.Ok events =>
                     Batch.extractTimeSlotsFromEvents TAIPEI events (Js.isoDate n)
                 | Js.Throw _ => []
                 end |}, snd fetched).
Proof.
  intros getEvents n w cal tsCal Hn Hnow Hcal Hne Hts todayNumber fetched.
  unfold handleGetAvailableTimeSlots.
  rewrite isoDate_not_empty, (dateRegex_isoDate n Hn), Hcal. cbn [negb].
  apply String.eqb_neq in Hne. rewrite Hne.
  rewrite (dateOnly_isoDate n Hn), (today_taipei w Hnow).
  unfold Js.lt. rewrite utc_midnight_before_taipei_midnight. fold todayNumber.
  destruct (n <? todayNumber); [reflexivity|].
  rewrite (slots_from_calendar getEvents n w tsCal Hn Hts). reflexivity.
Qed.

Lemma offered_slots_of_a_date_witness :
  fst (handleGetAvailableTimeSlots AdvancedCalendarService.getEvents TAIPEI
         (Some (Js.isoDate 20000)) salonWorld)
  = {| success := true; error := None; availableSlots := [] |}
  /\ trace (snd (handleGetAvailableTimeSlots AdvancedCalendarService.getEvents TAIPEI
                   (Some (Js.isoDate 20000)) salonWorld)) = [].
Proof.
  rewrite (offered_slots_of_a_date AdvancedCalendarService.getEvents 20000 salonWorld
             "bookings@example.com" "slots@example.com");
    [ | lia | vm_compute; split; discriminate | reflexivity | discriminate | reflexivity ].
  split; reflexivity.
Defined.

(** The day loop of the batch request over the real event source. *)
Lemma slotsDayLoop_reads : forall tsCal b t days k dateSlots totalSlots processedDays w,
  -719528 <= k -> b <= 2932896 -> k + Z.of_nat days = b + 1 ->
  Config.timeSlotsCalendarId (properties w) = Js.Ok tsCal ->
  let first := Z.max k t in
  let read j := GetEvents tsCal
                  (Some (j * Js.MS_PER_DAY - Utils.UTC_OFFSET_MS + 8 * Js.MS_PER_HOUR))
                  (Some (j * Js.MS_PER_DAY - Utils.UTC_OFFSET_MS + 22 * Js.MS_PER_HOUR
                         + 59 * 1000)) in
  exists dateSlots' totalSlots' w',
    slotsDayLoop days AdvancedCalendarService.getEvents TAIPEI
      (k * Js.MS_PER_DAY) (b * Js.MS_PER_DAY) (Some (t * Js.MS_PER_DAY - TAIPEI))
      dateSlots totalSlots processedDays w
    = (Js.Ok (dateSlots', totalSlots', processedDays + Z.max 0 (b - first + 1)), w')
    /\ trace w' = trace w ++ map read (dayRange first (Z.to_nat (b - first + 1)))
    /\ bookingRows w' = bookingRows w.
Proof.
  intros tsCal b t. induction days as [|days IH];
    intros k dateSlots totalSlots processedDays w Hk Hb Hdays Hcal first read.
  - exists dateSlots, totalSlots, w. cbn [slotsDayLoop].
    replace (Z.max 0 (b - first + 1)) with 0 by (unfold first; lia).
    replace (Z.to_nat (b - first + 1)) with 0%nat by (unfold first; lia).
    cbn [dayRange map]. rewrite Z.add_0_r, app_nil_r. repeat split.
  - cbn [slotsDayLoop].
    replace (k * Js.MS_PER_DAY <=? b * Js.MS_PER_DAY) with true
      by (symmetry; apply Z.leb_le; unfold Js.MS_PER_DAY; lia).
    rewrite (getTaipeiDateString_in_day (k * Js.MS_PER_DAY) k)
      by (unfold Js.MS_PER_DAY, Utils.UTC_OFFSET_MS; lia).
    unfold Js.lt. rewrite utc_midnight_before_taipei_midnight.
    replace (k * Js.MS_PER_DAY + Js.MS_PER_DAY) with ((k + 1) * Js.MS_PER_DAY) by lia.
    destruct (Z.ltb_spec k t) as [Hpast|Hnow].
    + destruct (IH (k + 1)
                  (Availability.objSet (Js.isoDate k)
                     {| daySlots := []; isSkipped := true |} dateSlots)
                  totalSlots processedDays w) as (ds & ts & w' & Hloop & Htrace & Hrows);
        [lia | lia | lia | exact Hcal |].
      exists ds, ts, w'. rewrite Hloop.
      replace (Z.max (k + 1) t) with first in * by (unfold first; lia).
      repeat split; assumption.
    + rewrite (slots_from_calendar AdvancedCalendarService.getEvents k w tsCal)
        by (try lia; exact Hcal).
      cbn [AdvancedCalendarService.getEvents fst snd].
      match goal with |- context [emit ?e w] => set (w1 := emit e w) end.
      match goal with |- context [slotsDayLoop days _ _ _ _ _ ?d ?s _ w1] =>
        destruct (IH (k + 1) d s (processedDays + 1) w1)
          as (ds & ts & w' & Hloop & Htrace & Hrows);
          [lia | lia | lia | exact Hcal |] end.
      exists ds, ts, w'. rewrite Hloop.
      replace (Z.max (k + 1) t) with (k + 1) in * by lia.
      replace first with k in * by (unfold first; lia).
      replace (Z.to_nat (b - k + 1)) with (S (Z.to_nat (b - (k + 1) + 1))) by lia.
      cbn [dayRange map]. rewrite Htrace. unfold w1. cbn [emit trace bookingRows] in *.
      rewrite <- app_assoc. cbn [app].
      replace (processedDays + 1 + Z.max 0 (b - (k + 1) + 1))
        with (processedDays + Z.max 0 (b - k + 1)) by lia.
      split; [reflexivity|]. split; [reflexivity | exact Hrows].
Qed.

(** X25: the batch request for offered slots reads the time-slot calendar
    once for every date of the range that is not past, in the order of the
    dates and each time over the business hours of that date, and reads
    nothing for past dates; the number of processed days it reports is the
    number of these reads.  It never writes a row. *)
Theorem batch_slots_read_once_per_day :
  forall (a b : Z) (w : World) (cal tsCal : string),
    -719528 <= a -> a <= b -> b <= 2932896 -> b - a <= Batch.maxDays ->
    -719528 * Js.MS_PER_DAY <= now w <= 2932896 * Js.MS_PER_DAY ->
    Config.calendarId (properties w) = Js.Ok cal ->
    cal <> Config.PLACEHOLDER_CALENDAR_ID ->
    Config.timeSlotsCalendarId (properties w) = Js.Ok tsCal ->
    let first := Z.max a ((now w + TAIPEI) / Js.MS_PER_DAY) in
    let read j := GetEvents tsCal
                    (Some (j * Js.MS_PER_DAY - Utils.UTC_OFFSET_MS + 8 * Js.MS_PER_HOUR))
                    (Some (j * Js.MS_PER_DAY - Utils.UTC_OFFSET_MS + 22 * Js.MS_PER_HOUR
                           + 59 * 1000)) in
    let r := handleGetBatchAvailableTimeSlots AdvancedCalendarService.getEvents TAIPEI
               (Js.isoDate a) (Js.isoDate b) w in
    batchSuccess (fst r) = true
    /\ trace (snd r) = trace w ++ map read (dayRange first (Z.to_nat (b - first + 1)))
    /\ totalDays (fst r) = Z.max 0 (b - first + 1)
    /\ bookingRows (snd r) = bookingRows w.
Proof.
  intros a b w cal tsCal Ha Hab Hb Hrange Hnow Hcal Hne Hts first read r.
  unfold r, handleGetBatchAvailableTimeSlots.
  rewrite !isoDate_not_empty, (dateRegex_isoDate a), (dateRegex_isoDate b), Hcal by lia.
  cbn [negb orb]. apply String.eqb_neq in Hne. rewrite Hne.
  rewrite (dateOnly_isoDate a), (dateOnly_isoDate b) by lia.
  replace (a * Js.MS_PER_DAY >? b * Js.MS_PER_DAY) with false
    by (symmetry; rewrite Z.gtb_ltb; apply Z.ltb_ge; unfold Js.MS_PER_DAY; lia).
  replace (b * Js.MS_PER_DAY - a * Js.MS_PER_DAY) with ((b - a) * Js.MS_PER_DAY) by lia.
  rewrite ceilDays_whole.
  replace (b - a >? Batch.maxDays) with false
    by (symmetry; rewrite Z.gtb_ltb; apply Z.ltb_ge; lia).
  replace ((b - a) * Js.MS_PER_DAY / Js.MS_PER_DAY) with (b - a)
    by (unfold Js.MS_PER_DAY; Z.div_mod_to_equations; lia).
  rewrite (today_taipei w Hnow).
  destruct (slotsDayLoop_reads tsCal b ((now w + TAIPEI) / Js.MS_PER_DAY)
              (S (Z.to_nat (b - a))) a [] 0 0 w)
    as (ds & ts & w' & Hloop & Htrace & Hrows); [lia | lia | lia | exact Hts |].
  rewrite Hloop. cbn [fst snd batchSuccess totalDays].
  split; [reflexivity|]. split; [exact Htrace|]. split; [reflexivity | exact Hrows].
Qed.

Lemma batch_slots_read_once_per_day_witness :
  List.length
    (trace (snd (handleGetBatchAvailableTimeSlots AdvancedCalendarService.getEvents TAIPEI
                   (Js.isoDate 20270) (Js.isoDate 20272) salonWorld)))
  = 3%nat.
Proof.
  destruct (batch_slots_read_once_per_day 20270 20272 salonWorld
              "bookings@example.com" "slots@example.com") as (_ & H & _);
    [lia | lia | lia | unfold Batch.maxDays; lia | vm_compute; split; discriminate
    | reflexivity | discriminate | reflexivity |].
  rewrite H. reflexivity.
Defined.

End OfferedDays.

(* ------------------------------------------------------------------ *)
(** ** The customer index                                               *)
(* ------------------------------------------------------------------ *)

Section CustomerLookup.
Import Availability CustomerIndex.
Variable trim : string -> string.

Lemma indexRows_app : forall rows1 rows2 i indexMap,
  indexRows trim (rows1 ++ rows2) i indexMap
  = indexRows trim rows2 (i + List.length rows1) (indexRows trim rows1 i indexMap).
Proof.
  induction rows1 as [|row rows1 IH]; intros rows2 i indexMap.
  - cbn. now rewrite Nat.add_0_r.
  - cbn [app indexRows List.length]. rewrite IH. f_equal. lia.
Qed.

Lemma indexRows_keep : forall key rows i indexMap,
  Forall (fun row => storesUnder trim key row = false) rows ->
  objGet key (indexRows trim rows i indexMap) = objGet key indexMap.
Proof.
  intros key. induction rows as [|row rows IH]; intros i indexMap H; [reflexivity|].
  inversion H as [|? ? Hrow Hrest]; subst. cbn [indexRows]. rewrite (IH _ _ Hrest).
  unfold storesUnder in Hrow. apply orb_false_iff in Hrow. destruct Hrow as [Hid Hphone].
  assert (Hstep : forall (c : bool) (k : string) (v : nat) (m : Obj nat),
            c && String.eqb k key = false ->
            objGet key (if c then objSet k v m else m) = objGet key m).
  { intros c k v m Hc. destruct c; [|reflexivity]. cbn [andb] in Hc.
    apply objGet_objSet_other. intros ->. now rewrite String.eqb_refl in Hc. }
  rewrite Hstep by exact Hphone. apply Hstep. exact Hid.
Qed.

(** X26: looking a customer up by phone finds the last row of the sheet
    that stores something under the key of that phone: when a row holds the
    phone (compared after trimming) and no later row stores under the same
    key, its row number is returned, earlier rows with the same phone
    notwithstanding; when no row stores under the key, the answer is -1. *)
Theorem phone_lookup_finds_last_matching_row :
  forall (header : CustomerRow) (before after : list CustomerRow) (row : CustomerRow)
         (phone : string),
    Js.truthy (Some phone) = true ->
    Js.truthy (Some (phoneCell row)) = true ->
    trim (phoneCell row) = trim phone ->
    Forall (fun later => storesUnder trim (phoneKey trim phone) later = false) after ->
    findCustomerByPhone trim (header :: before ++ row :: after) phone
    = Z.of_nat (List.length before + 2)
    /\ (Forall (fun other => storesUnder trim (phoneKey trim phone) other = false) before ->
        findCustomerByPhone trim (header :: before ++ after) phone = -1).
Proof.
  intros header before after row phone Hphone Hcell Htrim Hafter.
  unfold findCustomerByPhone, buildCustomerIndex. rewrite Hphone. cbn [negb skipn].
  split.
  - rewrite indexRows_app. cbn [indexRows]. rewrite (indexRows_keep _ _ _ _ Hafter).
    assert (Hkey : phoneKey trim (phoneCell row) = phoneKey trim phone)
      by (unfold phoneKey; now rewrite Htrim).
    rewrite Hcell, Hkey, objGet_objSet_same. f_equal. lia.
  - intros Hbefore. rewrite indexRows_keep; [reflexivity|].
    apply Forall_app. split; assumption.
Qed.

End CustomerLookup.

Lemma phone_lookup_finds_last_matching_row_witness :
  let data := [ {| CustomerIndex.lineUserIdCell := "LINE User ID";
                   CustomerIndex.phoneCell := "phone" |};
                {| CustomerIndex.lineUserIdCell := "U1";
                   CustomerIndex.phoneCell := "0912345678" |};
                {| CustomerIndex.lineUserIdCell := "U2";
                   CustomerIndex.phoneCell := "0912345678" |};
                {| CustomerIndex.lineUserIdCell := "U3";
                   CustomerIndex.phoneCell := "0987654321" |} ] in
  CustomerIndex.findCustomerByPhone (fun s => s) data "0912345678" = 3.
Proof.
  intros data.
  destruct (phone_lookup_finds_last_matching_row (fun s => s)
              {| CustomerIndex.lineUserIdCell := "LINE User ID";
                 CustomerIndex.phoneCell := "phone" |}
              [ {| CustomerIndex.lineUserIdCell := "U1";
                   CustomerIndex.phoneCell := "0912345678" |} ]
              [ {| CustomerIndex.lineUserIdCell := "U3";
                   CustomerIndex.phoneCell := "0987654321" |} ]
              {| CustomerIndex.lineUserIdCell := "U2";
                 CustomerIndex.phoneCell := "0912345678" |}
              "0912345678") as [H _];
    [reflexivity | reflexivity | reflexivity | repeat constructor | exact H].
Defined.

(* ------------------------------------------------------------------ *)
(** ** Requests                                                         *)
(* ------------------------------------------------------------------ *)

Section Requests.
Import Main.

Lemma onlyReads_refl : forall w, onlyReads w w.
Proof.
  intros w. repeat split. exists []. split; [now rewrite app_nil_r | reflexivity].
Qed.

Lemma onlyReads_trans : forall w1 w2 w3,
  onlyReads w1 w2 -> onlyReads w2 w3 -> onlyReads w1 w3.
Proof.
  intros w1 w2 w3 (R1 & P1 & N1 & es1 & T1 & F1) (R2 & P2 & N2 & es2 & T2 & F2).
  repeat split; try congruence.
  exists (es1 ++ es2). split.
  - rewrite T2, T1. now rewrite app_assoc.
  - rewrite forallb_app, F1, F2. reflexivity.
Qed.

Lemma onlyReads_getEvents : forall calendarId startTime endTime w,
  onlyReads w (snd (AdvancedCalendarService.getEvents calendarId startTime endTime w)).
Proof.
  intros c s e w. repeat split. exists [GetEvents c s e]. split; reflexivity.
Qed.

Lemma check_onlyReads : forall dateStr timeSlots calendarId w,
  onlyReads w (snd (Availability.checkTimeSlotsAvailability
                      AdvancedCalendarService.getEvents dateStr timeSlots calendarId w)).
Proof.
  intros d ts cal w. unfold Availability.checkTimeSlotsAvailability.
  destruct (Utils.getOptimizedQueryRange d) as [s e].
  apply (onlyReads_getEvents cal s e w).
Qed.

Lemma dayQuery_onlyReads : forall date timeSlots w,
  onlyReads w (snd (Query.handleCheckTimeSlotAvailability
                      AdvancedCalendarService.getEvents date timeSlots w)).
Proof.
  intros date timeSlots w. unfold Query.handleCheckTimeSlotAvailability.
  destruct (negb (Js.truthy date)); [apply onlyReads_refl|].
  destruct date as [d|]; [|apply onlyReads_refl].
  destruct timeSlots as [[|slot slots]|]; try apply onlyReads_refl.
  destruct (negb (Batch.dateRegex_test d)); [apply onlyReads_refl|].
  destruct (Config.calendarId (properties w)) as [cal|]; [|apply onlyReads_refl].
  destruct (String.eqb cal Config.PLACEHOLDER_CALENDAR_ID); [apply onlyReads_refl|].
  destruct (Utils.createTaipeiDateFromYMD d) as [[t|]|]; try apply onlyReads_refl.
  pose proof (check_onlyReads d (slot :: slots) cal w) as H.
  destruct (Availability.checkTimeSlotsAvailability _ d (slot :: slots) cal w) as [a w'].
  exact H.
Qed.

Lemma batchCheck_onlyReads : forall tz startDate endDate w,
  onlyReads w (snd (Batch.handleBatchCheckTimeSlotAvailability
                      AdvancedCalendarService.getEvents tz startDate endDate w)).
Proof.
  intros tz sd ed w. unfold Batch.handleBatchCheckTimeSlotAvailability.
  destruct (Batch.validateRange sd ed) as [[start end_]|]; [|apply onlyReads_refl].
  destruct (Config.timeSlotsCalendarId (properties w)) as [tsCal|];
    destruct (Config.calendarId (properties w)) as [bkCal|]; try apply onlyReads_refl.
  destruct (negb (Js.truthy (Some tsCal)) || negb (Js.truthy (Some bkCal)));
    [apply onlyReads_refl|].
  destruct (Utils.getOptimizedQueryRangeBatch tz sd ed) as [s e].
  cbn [AdvancedCalendarService.getEvents].
  match goal with |- context [Js.bind ?a ?b] => destruct (Js.bind a b) as [[[r d] n]|] end;
    cbn [snd];
    (eapply onlyReads_trans;
     [apply (onlyReads_getEvents tsCal s e w) | apply onlyReads_getEvents]).
Qed.

Lemma slotsFromCalendar_onlyReads : forall tz date w,
  onlyReads w (snd (TimeSlots.getAvailableTimeSlotsFromCalendar
                      AdvancedCalendarService.getEvents tz date w)).
Proof.
  intros tz date w. unfold TimeSlots.getAvailableTimeSlotsFromCalendar.
  destruct (Config.timeSlotsCalendarId (properties w)) as [cal|]; [|apply onlyReads_refl].
  destruct (Utils.getTaipeiDateString date) as [q|]; [|apply onlyReads_refl].
  destruct (Utils.getOptimizedQueryRange q) as [s e].
  apply (onlyReads_getEvents cal s e w).
Qed.

Lemma daySlots_onlyReads : forall tz date w,
  onlyReads w (snd (TimeSlots.handleGetAvailableTimeSlots
                      AdvancedCalendarService.getEvents tz date w)).
Proof.
  intros tz date w. unfold TimeSlots.handleGetAvailableTimeSlots.
  destruct date as [d|]; [|apply onlyReads_refl].
  destruct (negb (Js.truthy (Some d))); [apply onlyReads_refl|].
  destruct (negb (Batch.dateRegex_test d)); [apply onlyReads_refl|].
  destruct (Config.calendarId (properties w)) as [cal|]; [|apply onlyReads_refl].
  destruct (String.eqb cal Config.PLACEHOLDER_CALENDAR_ID); [apply onlyReads_refl|].
  destruct (Js.newDate_dateOnly d) as [t|]; [|apply onlyReads_refl].
  destruct (Js.lt (Some t) (TimeSlots.today tz w)); [apply onlyReads_refl|].
  pose proof (slotsFromCalendar_onlyReads tz (Some t) w) as H.
  destruct (TimeSlots.getAvailableTimeSlotsFromCalendar _ tz (Some t) w) as [slots w'].
  exact H.
Qed.

Lemma slotsDayLoop_onlyReads :
  forall tz end_ today days currentDate dateSlots totalSlots processedDays w,
    onlyReads w (snd (TimeSlots.slotsDayLoop days AdvancedCalendarService.getEvents tz
                        currentDate end_ today dateSlots totalSlots processedDays w)).
Proof.
  intros tz end_ today. induction days as [|days IH];
    intros currentDate dateSlots totalSlots processedDays w; [apply onlyReads_refl|].
  cbn [TimeSlots.slotsDayLoop].
  destruct (currentDate <=? end_); [|apply onlyReads_refl].
  destruct (Utils.getTaipeiDateString (Some currentDate)) as [d|]; [|apply onlyReads_refl].
  destruct (Js.lt (Some currentDate) today); [apply IH|].
  pose proof (slotsFromCalendar_onlyReads tz (Some currentDate) w) as H.
  destruct (TimeSlots.getAvailableTimeSlotsFromCalendar _ tz (Some currentDate) w)
    as [slots w'].
  eapply onlyReads_trans; [exact H | apply IH].
Qed.

Lemma batchSlots_onlyReads : forall tz startDate endDate w,
  onlyReads w (snd (TimeSlots.handleGetBatchAvailableTimeSlots
                      AdvancedCalendarService.getEvents tz startDate endDate w)).
Proof.
  intros tz sd ed w. unfold TimeSlots.handleGetBatchAvailableTimeSlots.
  destruct (negb (Js.truthy (Some sd)) || negb (Js.truthy (Some ed)));
    [apply onlyReads_refl|].
  destruct (negb (Batch.dateRegex_test sd) || negb (Batch.dateRegex_test ed));
    [apply onlyReads_refl|].
  destruct (Config.calendarId (properties w)) as [cal|]; [|apply onlyReads_refl].
  destruct (String.eqb cal Config.PLACEHOLDER_CALENDAR_ID); [apply onlyReads_refl|].
  destruct (Js.newDate_dateOnly sd) as [start|]; [|apply onlyReads_refl].
  destruct (Js.newDate_dateOnly ed) as [end_|]; [|apply onlyReads_refl].
  destruct (start >? end_); [apply onlyReads_refl|].
  destruct (Batch.ceilDays (end_ - start) >? Batch.maxDays); [apply onlyReads_refl|].
  pose proof (slotsDayLoop_onlyReads tz end_ (TimeSlots.today tz w)
                (S (Z.to_nat ((end_ - start) / Js.MS_PER_DAY))) start [] 0 0 w) as H.
  destruct (TimeSlots.slotsDayLoop _ _ tz start end_ _ [] 0 0 w) as [[[[ds ts] pd]|] w'];
    exact H.
Qed.

(** The rows after a commit: a row is appended only with the lock held,
    after the validation and the re-validation have both passed. *)
Lemma commit_rows : forall b w,
  let r := Booking.handleSaveBooking AdvancedCalendarService.getEvents (Some b) w in
  bookingRows (snd r) = bookingRows w
  \/ (lockFree w = true
      /\ exists d t row,
           Booking.validateBooking b = Js.Ok (d, t)
           /\ Booking.checkAvailable
                (fst (Booking.verifyBackendTimeSlotAvailability
                        AdvancedCalendarService.getEvents d t (emit (WaitLock true) w)))
              = true
           /\ bookingRows (snd r)
              = bookingRows w ++ [(Booking.getBookingSheetNameByDate d, row)]).
Proof.
  intros b w r. unfold r, Booking.handleSaveBooking.
  destruct (lockFree w); cbn [negb]; [|left; reflexivity].
  unfold Booking.saveBooking_try.
  destruct (Booking.validateBooking b) as [[d t]|message] eqn:V; [|left; reflexivity].
  pose proof (verifyBackend_rows (emit (WaitLock true) w) d t) as Hrows.
  destruct (Booking.verifyBackendTimeSlotAvailability AdvancedCalendarService.getEvents
              d t (emit (WaitLock true) w)) as [check w1] eqn:Hcheck.
  cbn [snd] in Hrows.
  destruct (Booking.checkAvailable check) eqn:A; cbn [negb fst snd].
  - right. split; [reflexivity|]. exists d, t. unfold Booking.persist.
    match goal with |- context [appendRow _ ?x _] => exists x end.
    split; [reflexivity|]. rewrite Hcheck. split; [exact A|].
    cbn [emit appendRow bookingRows]. now rewrite Hrows.
  - left. cbn [emit bookingRows]. exact Hrows.
Qed.

(** X27: through the dispatcher, booking rows are written only by a
    [saveBooking] request that carries a well-formed CSRF token, obtains the
    lock, passes the validation and is found available by the re-validation
    under the lock, and then by exactly one appended row, in the yearly
    booking sheet of the booking date; every other request leaves the rows
    as they are.  A protected request without a well-formed token is
    answered with the CSRF error and leaves the world as it is. *)
Theorem rows_change_only_by_a_gated_validated_save :
  forall (tz : Z) (data : RequestData) (w w' : World) (response : Response),
    handleRequest AdvancedCalendarService.getEvents tz data w = Some (response, w') ->
    (csrfError data <> None -> w' = w /\ success response = false)
    /\ (bookingRows w' = bookingRows w
        \/ (action data = Some "saveBooking"
            /\ csrfError data = None
            /\ lockFree w = true
            /\ exists d t row,
                 Booking.validateBooking (booking data) = Js.Ok (d, t)
                 /\ Booking.checkAvailable
                      (fst (Booking.verifyBackendTimeSlotAvailability
                              AdvancedCalendarService.getEvents d t
                              (emit (WaitLock true) w)))
                    = true
                 /\ bookingRows w'
                    = bookingRows w ++ [(Booking.getBookingSheetNameByDate d, row)]
                 /\ SheetNames.isBookingSheetName (Booking.getBookingSheetNameByDate d)
                    = true)).
Proof.
  intros tz data w w' response H. unfold handleRequest in H.
  destruct (csrfError data) as [code|] eqn:Hcsrf.
  { injection H as <- <-. split; [intros _; split; reflexivity | left; reflexivity]. }
  split; [intros Hne; now contradiction Hne|].
  destruct (action data) as [a|] eqn:Ha; [|injection H as _ <-; left; reflexivity].
  destruct (String.eqb_spec a "saveBooking") as [->|_].
  { pose proof (commit_rows (booking data) w) as Hrows. cbv zeta in Hrows.
    assert (Hw' : w' = snd (Booking.handleSaveBooking AdvancedCalendarService.getEvents
                              (Some (booking data)) w)).
    { destruct (Booking.handleSaveBooking AdvancedCalendarService.getEvents
                  (Some (booking data)) w) as [[res|message] w1];
        injection H as _ <-; reflexivity. }
    rewrite <- Hw' in Hrows.
    destruct Hrows as [Hrows|(Hlock & d & t & row & Hvalid & Havailable & Hrows)];
      [left; exact Hrows|].
    right. split; [reflexivity|]. split; [reflexivity|]. split; [exact Hlock|].
    exists d, t, row. split; [exact Hvalid|]. split; [exact Havailable|].
    split; [exact Hrows|].
    destruct (validateBooking_Ok _ _ _ Hvalid) as (_ & _ & _ & _ & Hdate & _).
    exact (proj2 (yearly_sheet_of_valid_date d Hdate)). }
  left.
  destruct (String.eqb a "getAvailableTimeSlots").
  { pose proof (daySlots_onlyReads tz (date data) w) as (R & _).
    destruct (TimeSlots.handleGetAvailableTimeSlots _ tz (date data) w) as [r w1].
    injection H as _ <-. exact R. }
  destruct (String.eqb a "getBatchAvailableTimeSlots").
  { pose proof (batchSlots_onlyReads tz (Booking.orEmpty (startDate data))
                  (Booking.orEmpty (endDate data)) w) as (R & _).
    destruct (TimeSlots.handleGetBatchAvailableTimeSlots _ tz _ _ w) as [r w1].
    injection H as _ <-. exact R. }
  destruct (String.eqb a "checkTimeSlotAvailability").
  { pose proof (dayQuery_onlyReads (date data) (timeSlots data) w) as (R & _).
    destruct (Query.handleCheckTimeSlotAvailability _ (date data) (timeSlots data) w)
      as [r w1].
    injection H as _ <-. exact R. }
  destruct (String.eqb a "handleBatchCheckTimeSlotAvailability").
  { pose proof (batchCheck_onlyReads tz (Booking.orEmpty (startDate data))
                  (Booking.orEmpty (endDate data)) w) as (R & _).
    destruct (Batch.handleBatchCheckTimeSlotAvailability _ tz _ _ w) as [r w1].
    injection H as _ <-. exact R. }
  destruct (existsb (String.eqb a) otherActions); [discriminate H|].
  destruct (negb (Js.truthy (Some a))); injection H as _ <-; reflexivity.
Qed.

Lemma rows_change_only_by_a_gated_validated_save_witness :
  let data := {| action := Some "saveBooking";
                 csrfToken := Some "token_0123456789abcdef";
                 booking := completeBooking; date := None; startDate := None;
                 endDate := None; timeSlots := None |} in
  match handleRequest AdvancedCalendarService.getEvents TAIPEI data world0 with
  | Some (response, w') =>
      List.length (bookingRows w') = 1%nat
      /\ (bookingRows w' = bookingRows world0
          \/ (action data = Some "saveBooking"
              /\ csrfError data = None
              /\ lockFree world0 = true
              /\ exists d t row,
                   Booking.validateBooking (booking data) = Js.Ok (d, t)
                   /\ Booking.checkAvailable
                        (fst (Booking.verifyBackendTimeSlotAvailability
                                AdvancedCalendarService.getEvents d t
                                (emit (WaitLock true) world0)))
                      = true
                   /\ bookingRows w'
                      = bookingRows world0 ++ [(Booking.getBookingSheetNameByDate d, row)]
                   /\ SheetNames.isBookingSheetName (Booking.getBookingSheetNameByDate d)
                      = true))
  | None => False
  end.
Proof.
  intros data.
  destruct (handleRequest AdvancedCalendarService.getEvents TAIPEI data world0)
    as [[response w']|] eqn:E; [|vm_compute in E; discriminate E].
  split.
  - vm_compute in E. injection E as _ <-. reflexivity.
  - exact (proj2 (rows_change_only_by_a_gated_validated_save TAIPEI data world0 w'
                    response E)).
Defined.

(** X28: the four read requests need no token, never take the lock and
    never write: whatever their arguments, they are answered, the booking
    sheets are as before, and everything they add to the trace is a read of
    a calendar. *)
Theorem read_requests_only_read :
  forall (tz : Z) (data : RequestData) (w : World) (a : string),
    action data = Some a ->
    In a readActions ->
    exists response w' reads,
      handleRequest AdvancedCalendarService.getEvents tz data w = Some (response, w')
      /\ bookingRows w' = bookingRows w
      /\ trace w' = trace w ++ reads
      /\ forallb isRead reads = true.
Proof.
  intros tz data w a Ha Hin. unfold handleRequest, csrfError. rewrite Ha.
  assert (Hpack : forall (r : Response) w',
            onlyReads w w' ->
            exists response w'' reads,
              Some (r, w') = Some (response, w'')
              /\ bookingRows w'' = bookingRows w
              /\ trace w'' = trace w ++ reads
              /\ forallb isRead reads = true).
  { intros r w' (R & _ & _ & reads & T & F). exists r, w', reads. repeat split; assumption. }
  cbn [readActions In] in Hin.
  destruct Hin as [<-|[<-|[<-|[<-|[]]]]]; cbn [existsb csrfProtectedActions String.eqb
    Ascii.eqb Bool.eqb orb andb].
  - pose proof (daySlots_onlyReads tz (date data) w) as H.
    destruct (TimeSlots.handleGetAvailableTimeSlots _ tz (date data) w) as [r w1].
    apply Hpack, H.
  - pose proof (batchSlots_onlyReads tz (Booking.orEmpty (startDate data))
                  (Booking.orEmpty (endDate data)) w) as H.
    destruct (TimeSlots.handleGetBatchAvailableTimeSlots _ tz _ _ w) as [r w1].
    apply Hpack, H.
  - pose proof (dayQuery_onlyReads (date data) (timeSlots data) w) as H.
    destruct (Query.handleCheckTimeSlotAvailability _ (date data) (timeSlots data) w)
      as [r w1].
    apply Hpack, H.
  - pose proof (batchCheck_onlyReads tz (Booking.orEmpty (startDate data))
                  (Booking.orEmpty (endDate data)) w) as H.
    destruct (Batch.handleBatchCheckTimeSlotAvailability _ tz _ _ w) as [r w1].
    apply Hpack, H.
Qed.

Lemma read_requests_only_read_witness :
  let data := {| action := Some "checkTimeSlotAvailability"; csrfToken := None;
                 booking := completeBooking; date := Some "2025-07-15";
                 startDate := None; endDate := None; timeSlots := Some ["10:00"] |} in
  exists response w' reads,
    handleRequest AdvancedCalendarService.getEvents TAIPEI data salonWorld
    = Some (response, w')
    /\ bookingRows w' = bookingRows salonWorld
    /\ trace w' = trace salonWorld ++ reads
    /\ forallb isRead reads = true.
Proof.
  intros data.
  apply (read_requests_only_read TAIPEI data salonWorld "checkTimeSlotAvailability");
    [reflexivity | right; right; left; reflexivity].
Defined.

End Requests.

(* ------------------------------------------------------------------ *)
(** ** The booking index                                                *)
(* ------------------------------------------------------------------ *)

Section CustomerBookings.
Import Availability BookingIndex.
Variable A : Type.
Variable lineUserId : A -> string.

Lemma indexSheetRows_bucket : forall sheetName rows indexMap id,
  match objGet id (indexSheetRows A lineUserId sheetName rows indexMap) with
  | Some l => l
  | None => []
  end
  = match objGet id indexMap with
    | Some l => l
    | None => []
    end
    ++ map (fun row => (row, sheetName))
         (filter (fun row => Js.truthy (Some (lineUserId row))
                             && String.eqb (lineUserId row) id) rows).
Proof.
  intros sheetName. induction rows as [|row rows IH]; intros indexMap id.
  - cbn. now rewrite app_nil_r.
  - cbn [indexSheetRows filter].
    destruct (Js.truthy (Some (lineUserId row))); cbn [andb]; [|apply IH].
    rewrite IH. destruct (String.eqb_spec (lineUserId row) id) as [->|Hne].
    + rewrite objGet_objSet_same. cbn [map]. now rewrite <- app_assoc.
    + rewrite objGet_objSet_other by congruence. reflexivity.
Qed.

(** X29: the bookings the index returns for a customer are exactly the
    data rows whose first cell is the customer's LINE user id, taken from
    the yearly booking sheets from the newest year to the oldest and within
    a sheet in row order, each tagged with the name of its sheet; rows
    without an id are never returned. *)
Theorem booking_index_lists_customer_rows :
  forall (spreadsheet : Spreadsheet A) (id : string),
    getBookingsFromIndex A lineUserId spreadsheet id
    = flat_map
        (fun sheetName =>
           map (fun row => (row, sheetName))
             (filter (fun row => Js.truthy (Some (lineUserId row))
                                 && String.eqb (lineUserId row) id)
                     (skipn 1 (getSheetValues A spreadsheet sheetName))))
        (SheetNames.getAllBookingSheetNames (map fst spreadsheet)).
Proof.
  intros spreadsheet id. unfold getBookingsFromIndex, buildBookingIndex.
  assert (H : forall names indexMap,
            match objGet id
                    (fold_left
                       (fun indexMap sheetName =>
                          indexSheetRows A lineUserId sheetName
                            (skipn 1 (getSheetValues A spreadsheet sheetName)) indexMap)
                       names indexMap) with
            | Some l => l
            | None => []
            end
            = match objGet id indexMap with
              | Some l => l
              | None => []
              end
              ++ flat_map
                   (fun sheetName =>
                      map (fun row => (row, sheetName))
                        (filter (fun row => Js.truthy (Some (lineUserId row))
                                            && String.eqb (lineUserId row) id)
                                (skipn 1 (getSheetValues A spreadsheet sheetName))))
                   names).
  { induction names as [|name names IH]; intros indexMap.
    - cbn. now rewrite app_nil_r.
    - cbn [fold_left flat_map]. rewrite IH, indexSheetRows_bucket.
      now rewrite <- app_assoc. }
  rewrite H. reflexivity.
Qed.

End CustomerBookings.

(* ------------------------------------------------------------------ *)
(** ** The direct query                                                 *)
(* ------------------------------------------------------------------ *)

Section DirectQuery.

(** X30: the single-day query takes the direct path, which sends one
    request and does not follow the page token: over a calendar that serves
    its events in pages, the events read for the window of a day are those
    of the first page, whatever follows; if that one request fails, the
    answer is what the CalendarApp fallback gives. *)
Theorem day_query_reads_the_first_page_only :
  forall (n : Z) (w : World) (calendarId : string)
         (first : Js.result (list Event)) (rest : list (Js.result (list Event))),
    -719528 <= n <= 2932896 ->
    let window := Utils.getOptimizedQueryRange (Js.isoDate n) in
    Calendar_Events_list w calendarId (fst window) (snd window)
    = servedUpstream (first :: rest) ->
    AdvancedCalendarService.queryEvents w calendarId (fst window) (snd window)
    = match first with
      | Js.Ok pageItems => pageItems
      | Js.Throw _ =>
          AdvancedCalendarService.fallbackToCalendarApp w calendarId
            (fst window) (snd window)
      end.
Proof.
  intros n w cal first rest Hn window Hup.
  unfold AdvancedCalendarService.queryEvents,
    AdvancedCalendarService.getEventsWithSmartPagination.
  change Config.smartPagination_enabled with true. cbv iota.
  assert (Hw : window = (Some (n * Js.MS_PER_DAY - Utils.UTC_OFFSET_MS + 8 * Js.MS_PER_HOUR),
                         Some (n * Js.MS_PER_DAY - Utils.UTC_OFFSET_MS
                               + 22 * Js.MS_PER_HOUR + 59 * 1000)))
    by exact (day_window n Hn).
  revert Hup. rewrite Hw. cbn [fst snd]. intros Hup.
  replace (Calendar.shouldUsePagination _ _) with false.
  - unfold AdvancedCalendarService.getEventsDirectly. rewrite Hup.
    unfold servedUpstream. cbn [Nat.sub nth_error].
    destruct first; reflexivity.
  - symmetry. unfold Calendar.shouldUsePagination.
    match goal with |- context [?a - ?b] =>
      replace (a - b) with 50459000 by (unfold Js.MS_PER_HOUR; lia) end.
    reflexivity.
Qed.

Lemma day_query_reads_the_first_page_only_witness :
  let a := eventBetween (on_2025_07_15 10 0) (on_2025_07_15 11 0) in
  let b := eventBetween (on_2025_07_15 12 0) (on_2025_07_15 13 0) in
  let w := {| properties := properties world0; lockFree := true; now := 0;
              Calendar_Events_list := fun _ _ _ => servedUpstream [Js.Ok [a]; Js.Ok [b]];
              CalendarApp_getEvents := CalendarApp_getEvents world0;
              customerLineId := customerLineId world0;
              bookingRows := []; trace := [] |} in
  AdvancedCalendarService.queryEvents w "bookings@example.com"
    (fst (Utils.getOptimizedQueryRange (Js.isoDate 20284)))
    (snd (Utils.getOptimizedQueryRange (Js.isoDate 20284)))
  = [a].
Proof.
  intros a b w.
  apply (day_query_reads_the_first_page_only 20284 w "bookings@example.com"
           (Js.Ok [a]) [Js.Ok [b]]); [lia | reflexivity].
Defined.

End DirectQuery.
